(** * Precision / recall metrics of cotk ([cotk/metric/precision_recall.py])

    A shallow embedding of [_PrecisionRecallMetric] and of its two subclasses
    [BleuPrecisionRecallMetric] and [EmbSimilarityPrecisionRecallMetric], and
    of the constructors of [cotk/dataloader/single_turn_dialog.py].

    Conventions of the embedding:
    - token ids are Python ints, modelled as [Z]; a sentence is a [list Z];
    - Python floats and numpy arrays of dtype [float64] are modelled by
      Rocq's primitive binary64 floats, so a division [0.0 / 0.0] really
      evaluates to [nan];
    - the score matrix has dtype [float32]: its cells are binary32 floats,
      every score is rounded when it is stored, and the maxima and their sum
      are computed in binary32;
    - [np.sum] adds in the order of numpy's pairwise summation;
    - a method that mutates [self] and may raise is a function
      [metric -> metric * outcome A]: the metric that comes back is the
      object as the call left it, also when the call raised;
    - the decorators of [cotk.hooks], which is not among the sources, are
      left out. *)

From Stdlib Require Import List ZArith Bool Ascii String DecimalString Lia Permutation.
From Stdlib Require Import Floats Uint63.
Import ListNotations.

Local Open Scope Z_scope.
Local Open Scope string_scope.
Local Open Scope list_scope.

Set Implicit Arguments.

(** ** Python exceptions and outcomes *)

Inductive exn : Type :=
| TypeError (msg : string)
| ValueError (msg : string)
| RuntimeError (msg : string)
| KeyError (key : string)
| ZeroDivisionError.

Inductive outcome (A : Type) : Type :=
| Ok (a : A)
| Raise (e : exn).

Arguments Ok {A} a.
Arguments Raise {A} e.

(** ** The numpy primitives used by the metric *)

Module np.

(** [len(x)] as the float a Python [float / int] division converts it to. *)
Definition of_len (n : nat) : float :=
  PrimFloat.of_uint63 (Uint63.of_Z (Z.of_nat n)).

(** *** The dtype [float32] *)

(** A value of dtype [float32] is a binary32 float: a [spec_float] of
    precision 24 whose infinities have exponent 128. *)
Definition float32 : Type := spec_float.

Definition prec32 : Z := 24.
Definition emax32 : Z := 128.

Definition zero32 : float32 := S754_zero false.
Definition neg_zero32 : float32 := S754_zero true.
Definition nan32 : float32 := S754_nan.

(** The cast of a Python float to [float32], which a store into an array
    of this dtype performs: rounding to the nearest binary32 float, to the
    even one on a tie, and to an infinity beyond the range. *)
Definition to_float32 (x : float) : float32 :=
  match Prim2SF x with
  | S754_finite s m e => binary_round prec32 emax32 s m e
  | sf => sf
  end.

(** [float(x)] on a [float32]: every binary32 float is a binary64 float. *)
Definition of_float32 (x : float32) : float := SF2Prim x.

(** [x + y] in [float32]. *)
Definition add32 (x y : float32) : float32 := SFadd prec32 emax32 x y.

Definition is_nan32 (x : float32) : bool :=
  match x with
  | S754_nan => true
  | _ => false
  end.

(** [x <= y] in [float32]. *)
Definition leb32 (x y : float32) : bool := SFleb x y.

(** *** [np.maximum] *)

(** [np.maximum] on two scalars: [(x >= y || isnan(x)) ? x : y]. *)
Definition maximum (x y : float) : float :=
  if PrimFloat.leb y x || PrimFloat.is_nan x then x else y.

Definition maximum32 (x y : float32) : float32 :=
  if leb32 y x || is_nan32 x then x else y.

(** Element-wise combination of two 1-d arrays of the same length. *)
Fixpoint map2 {A : Type} (f : A -> A -> A) (u v : list A) : list A :=
  match u, v with
  | x :: u', y :: v' => f x y :: map2 f u' v'
  | _, _ => []
  end.

(** *** [np.add.reduce] over a contiguous 1-d array *)

(** The sum of a 1-d array is numpy's pairwise summation, in the dtype of
    the array: fewer than 8 elements are added from left to right; up to
    128 elements are added into 8 accumulators, element [i] into accumulator
    [i mod 8], the accumulators are then added two by two and the elements
    left over after the last full group of 8 are added one by one; a longer
    array is cut in two, at a multiple of 8, and the sums of the two parts
    are added. The running value starts from [-0.0], which numpy uses since
    version 1.24 so that a sum of negative zeros keeps its sign (older
    versions start from [0.0], which differs on such sums only); an empty
    sum is [0.0]. *)
Section Reduce.

Variable A : Type.
Variable add : A -> A -> A.
Variables zero neg_zero : A.

(** [n < 8]. *)
Definition sum_small (v : list A) : A := fold_left add v neg_zero.

(** The loop [for (i = 8; i < n - (n % 8); i += 8) r[k] += a[i + k]]:
    the accumulators and the elements that are left. *)
Fixpoint sum_groups (groups : nat) (r v : list A) : list A * list A :=
  match groups with
  | O => (r, v)
  | S groups' => sum_groups groups' (map2 add r (firstn 8 v)) (skipn 8 v)
  end.

(** [8 <= n <= 128]. *)
Definition sum_block (v : list A) : A :=
  let (r, rest) := sum_groups (List.length v / 8 - 1) (firstn 8 v) (skipn 8 v) in
  match r with
  | [r0; r1; r2; r3; r4; r5; r6; r7] =>
      fold_left add rest
        (add (add (add r0 r1) (add r2 r3)) (add (add r4 r5) (add r6 r7)))
  | _ => zero
  end.

(** The recursion on the length is bounded by [fuel]; the length of the
    array is enough, since each part of an array of more than 128 elements
    is shorter than the array. *)
Fixpoint pairwise_sum (fuel : nat) (v : list A) : A :=
  let n := List.length v in
  if Nat.ltb n 8 then sum_small v
  else if Nat.leb n 128 then sum_block v
  else
    match fuel with
    | O => sum_block v
    | S fuel' =>
        let n2 := (n / 2 - (n / 2) mod 8)%nat in
        add (pairwise_sum fuel' (firstn n2 v)) (pairwise_sum fuel' (skipn n2 v))
    end.

Definition add_reduce (v : list A) : A :=
  match v with
  | [] => zero
  | _ :: _ => add neg_zero (pairwise_sum (List.length v) v)
  end.

End Reduce.

(** [np.sum] over a 1-d array of dtype [float64]. *)
Definition sum (v : list float) : float :=
  add_reduce PrimFloat.add 0%float (-0)%float v.

(** [np.sum] over a 1-d array of dtype [float32]: the result is a
    [float32] and so is every intermediate sum. *)
Definition sum32 (v : list float32) : float32 :=
  add_reduce add32 zero32 neg_zero32 v.

(** *** The score matrix *)

(** A 2-d array of dtype [float32]: its shape and its rows. *)
Record ndarray : Type := mk_ndarray {
  shape0 : nat;
  shape1 : nat;
  rows : list (list float32)
}.

(** [np.zeros((r, c), dtype=np.float32)]. *)
Definition zeros (r c : nat) : ndarray :=
  mk_ndarray r c (repeat (repeat zero32 c) r).

(** In-place update of position [i] of a list; [enumerate] only produces
    indices in range, out of range nothing is written. *)
Fixpoint update {A : Type} (i : nat) (f : A -> A) (l : list A) : list A :=
  match l, i with
  | [], _ => []
  | x :: l', O => f x :: l'
  | x :: l', S i' => x :: update i' f l'
  end.

(** [matrix[i][j] = v]: the Python float [v] is cast to the dtype of the
    matrix. *)
Definition setitem (m : ndarray) (i j : nat) (v : float) : ndarray :=
  mk_ndarray (shape0 m) (shape1 m)
    (update i (update j (fun _ => to_float32 v)) (rows m)).

Definition zero_size_msg : string :=
  "zero-size array to reduction operation maximum which has no identity".

(** The maximum of a non-empty 1-d array: the first element, then
    [np.maximum] with each following element. *)
Definition max_of (x : float32) (v : list float32) : float32 :=
  fold_left maximum32 v x.

(** [np.max(matrix, 0)]: reduces the first axis (one maximum per column);
    a reduced axis of size zero has no identity and raises. *)
Definition max_axis0 (m : ndarray) : outcome (list float32) :=
  match shape0 m, rows m with
  | S _, row :: rest => Ok (fold_left (map2 maximum32) rest row)
  | _, _ => Raise (ValueError zero_size_msg)
  end.

(** [np.max(matrix, 1)]: reduces the second axis (one maximum per row). *)
Definition max_axis1 (m : ndarray) : outcome (list float32) :=
  match shape1 m with
  | O => Raise (ValueError zero_size_msg)
  | S _ => Ok (map (fun row => max_of (hd zero32 row) (tl row)) (rows m))
  end.

(** *** Means and maxima of Python floats *)

(** [np.average(a)] of a list of Python floats, without weights: the list
    becomes an array of dtype [float64], whose [mean] is its sum divided by
    its length. *)
Definition average (v : list float) : float :=
  PrimFloat.div (sum v) (of_len (List.length v)).

(** [np.average(vecs, 0)]: element-wise mean of a list of vectors of one
    length (the callers pass a non-empty list); the reduction of the first
    axis adds the vectors one after the other. *)
Definition average_axis0 (vecs : list (list float)) : list float :=
  match vecs with
  | [] => []
  | v :: _ =>
      map (fun s => PrimFloat.div s (of_len (List.length vecs)))
          (fold_left (map2 PrimFloat.add) vecs (map (fun _ => 0%float) v))
  end.

(** [np.max(vecs, 0)]: element-wise maximum of a list of vectors of one
    length (the callers pass a non-empty list). *)
Definition max_vectors (vecs : list (list float)) : list float :=
  match vecs with
  | [] => []
  | v :: rest => fold_left (map2 maximum) rest v
  end.

End np.

(** ** Collaborators *)

(** A sentence is a list of token ids. *)
Definition sentence : Type := list Z.

(** The part of the dataloader ([LanguageProcessing]) the metric calls. *)
Record LanguageProcessing : Type := {
  trim_in_ids : sentence -> sentence;
  convert_ids_to_tokens : sentence -> list string;
  unk_id : Z
}.

(** [nltk.translate.bleu_score.sentence_bleu(references, hypothesis, weights,
    SmoothingFunction().method1)], a primitive of a library outside the
    repository. *)
Class Nltk : Type := {
  sentence_bleu : list sentence -> sentence -> list float -> float
}.

(** Python values passed to the ordered hash. *)
#[warnings="-register-all"]
Inductive pyval : Type :=
| PInt (z : Z)
| PStr (s : string)
| PFloat (f : float)
| PList (l : list pyval)
| PTuple (l : list pyval).

(** Modelled from the spec: the hashing methods the metric inherits from
    [MetricBase] ([_hash_unordered_list], [_hash_ordered_data], [_hashvalue];
    cotk/metric/metric.py is not among the sources). Following sections 4.5
    and 9 of the spec, the order-insensitive hash is a commutative
    accumulator, the sum modulo [2^256] of the digests of the items; the
    order-sensitive hash is a digest of the ordered configuration values fed
    to it at construction; the fingerprint combines the two. The digests
    themselves are opaque. *)
Class Hasher : Type := {
  ordered_state : Type;
  fingerprint : Type;
  (** the ordered accumulator [MetricBase.__init__(name, version)] leaves *)
  ordered_init : string -> Z -> ordered_state;
  (** feeding one value to the ordered accumulator *)
  ordered_update : ordered_state -> pyval -> ordered_state;
  (** the 256-bit digest of one item of the unordered list *)
  item_digest : sentence -> Z;
  (** the final combination of both accumulators *)
  hexdigest : ordered_state -> Z -> fingerprint
}.

Definition digest_modulus : Z := 2 ^ 256.

(** ** The metric object *)

(** The word-embedding table: a Python dict, whose [items()] come in
    insertion order. *)
Definition word2vec_table : Type := list (string * list float).

(** What a batch dict holds under a key: a list or [numpy.ndarray] of
    instances, each a list of sentences, or an object of another type. *)
Inductive pyobj : Type :=
| Sequence (insts : list (list sentence))
| OtherObject.

Definition batch : Type := list (string * pyobj).

Fixpoint getitem (data : batch) (key : string) : outcome pyobj :=
  match data with
  | [] => Raise (KeyError key)
  | (k, v) :: rest => if String.eqb k key then Ok v else getitem rest key
  end.

(** The values of the dict [close] returns. *)
Inductive resval {H : Hasher} : Type :=
| RFloat (x : float)
| RHash (h : fingerprint).

Section Metric.

Context {H : Hasher}.

Record metric : Type := mk_metric {
  (* MetricBase *)
  ordered_hash : ordered_state;
  unordered_hash : Z;
  closed : bool;
  (* _PrecisionRecallMetric *)
  dataloader : LanguageProcessing;
  candidate_allvocabs_key : string;
  multiple_gen_key : string;
  generated_num_per_context : Z;
  prec_list : list float;
  rec_list : list float;
  res_prefix : string
}.

(** Assignments to one attribute. *)
Definition with_ordered_hash (o : ordered_state) (self : metric) : metric :=
  mk_metric o (unordered_hash self) (closed self)
    (dataloader self) (candidate_allvocabs_key self) (multiple_gen_key self)
    (generated_num_per_context self) (prec_list self) (rec_list self)
    (res_prefix self).

Definition with_unordered_hash (u : Z) (self : metric) : metric :=
  mk_metric (ordered_hash self) u (closed self)
    (dataloader self) (candidate_allvocabs_key self) (multiple_gen_key self)
    (generated_num_per_context self) (prec_list self) (rec_list self)
    (res_prefix self).

Definition with_closed (c : bool) (self : metric) : metric :=
  mk_metric (ordered_hash self) (unordered_hash self) c
    (dataloader self) (candidate_allvocabs_key self) (multiple_gen_key self)
    (generated_num_per_context self) (prec_list self) (rec_list self)
    (res_prefix self).

Definition with_prec_list (l : list float) (self : metric) : metric :=
  mk_metric (ordered_hash self) (unordered_hash self) (closed self)
    (dataloader self) (candidate_allvocabs_key self) (multiple_gen_key self)
    (generated_num_per_context self) l (rec_list self)
    (res_prefix self).

Definition with_rec_list (l : list float) (self : metric) : metric :=
  mk_metric (ordered_hash self) (unordered_hash self) (closed self)
    (dataloader self) (candidate_allvocabs_key self) (multiple_gen_key self)
    (generated_num_per_context self) (prec_list self) l
    (res_prefix self).

Definition with_res_prefix (prefix : string) (self : metric) : metric :=
  mk_metric (ordered_hash self) (unordered_hash self) (closed self)
    (dataloader self) (candidate_allvocabs_key self) (multiple_gen_key self)
    (generated_num_per_context self) (prec_list self) (rec_list self)
    prefix.

(** *** A method body: state passing with exceptions *)

Definition M (A : Type) : Type := metric -> metric * outcome A.

Definition ret {A : Type} (a : A) : M A := fun self => (self, Ok a).

Definition bind {A B : Type} (c : M A) (k : A -> M B) : M B :=
  fun self =>
    match c self with
    | (self', Ok a) => k a self'
    | (self', Raise e) => (self', Raise e)
    end.

Definition throw {A : Type} (e : exn) : M A := fun self => (self, Raise e).

Definition lift {A : Type} (o : outcome A) : M A := fun self => (self, o).

Definition get : M metric := fun self => (self, Ok self).

Definition modify (f : metric -> metric) : M unit :=
  fun self => (f self, Ok tt).

End Metric.

Declare Scope py_scope.
Delimit Scope py_scope with py.
Notation "x <- c ;; k" := (bind c (fun x => k))
  (at level 61, c at next level, right associativity) : py_scope.
Notation "c ;;; k" := (bind c (fun _ => k))
  (at level 61, right associativity) : py_scope.

Local Open Scope py_scope.

(** [float(z)] and [str(z)] of a Python int. *)
Definition py_float (z : Z) : float :=
  if Z.ltb z 0 then PrimFloat.opp (PrimFloat.of_uint63 (Uint63.of_Z (- z)))
  else PrimFloat.of_uint63 (Uint63.of_Z z).

Definition py_str (z : Z) : string := NilZero.string_of_int (Z.to_int z).

(** Python's truth value of a list: [not l] holds of the empty list. *)
Definition is_empty {A : Type} (l : list A) : bool :=
  match l with [] => true | _ => false end.

(** ** [MetricBase]: what the metric inherits *)

Module MetricBase.
Section Methods.

Context {H : Hasher}.

(** Modelled from the spec: [MetricBase._hash_unordered_list] (its file is
    not among the sources); every item is folded into the commutative
    accumulator. *)
Definition fold_digests (acc : Z) (data_list : list sentence) : Z :=
  fold_left (fun acc item => (acc + item_digest item) mod digest_modulus)
            data_list acc.

Definition _hash_unordered_list (data_list : list sentence) : M unit :=
  modify (fun self =>
            with_unordered_hash (fold_digests (unordered_hash self) data_list) self).

(** Modelled from the spec: [MetricBase._hash_ordered_data] (its file is not
    among the sources); the value is fed to the order-sensitive hash. *)
Definition _hash_ordered_data (data : pyval) : M unit :=
  modify (fun self =>
            with_ordered_hash (ordered_update (ordered_hash self) data) self).

(** Modelled from the spec: [MetricBase._hashvalue] (its file is not among
    the sources); the fingerprint is the combination of the configuration
    hash and the running reference-data hash. *)
Definition _hashvalue (self : metric) : fingerprint :=
  hexdigest (ordered_hash self) (unordered_hash self).

(** Modelled from the spec: the error of a call on a finalized metric
    (section 4.4); the spec does not give its message. *)
Definition closed_msg : string := "The metric has been closed.".

(** Modelled from the spec: [MetricBase.forward] (its file is not among the
    sources). [forward] is callable only in the state Accumulating
    (section 4.4): on a finalized metric the inherited part raises, before
    the method of the subclass looks at the batch; otherwise it changes
    nothing. *)
Definition forward (data : batch) : M unit :=
  self <- get ;;
  if closed self then throw (RuntimeError closed_msg) else ret tt.

(** Modelled from the spec: [MetricBase.close] (its file is not among the
    sources). [close()] moves the aggregator from Accumulating to Finalized
    (section 4.4) and the result has exactly the three prefixed entries
    (section 6), so the inherited part returns the empty dict. A call on a
    finalized metric fails (section 3: subsequent close calls fail; section
    4.4 lets an implementation fail), with the error of [forward]. *)
Definition close : M (list (string * resval)) :=
  self <- get ;;
  if closed self
  then throw (RuntimeError closed_msg)
  else modify (with_closed true) ;;; ret [].

End Methods.
End MetricBase.

(** ** [_PrecisionRecallMetric] *)

Module _PrecisionRecallMetric.
Section Methods.

Context {H : Hasher}.

(** [__init__]; the hash accumulators and the lifecycle state are those
    [MetricBase.__init__] leaves. *)
Definition __init__ (name : string) (version : Z) (dataloader : LanguageProcessing)
    (generated_num_per_context : Z)
    (candidate_allvocabs_key multiple_gen_key : string) : metric :=
  mk_metric (ordered_init name version) 0 false
    dataloader candidate_allvocabs_key multiple_gen_key
    generated_num_per_context [] [] EmptyString.

Definition set_res_prefix (prefix : string) : M unit :=
  modify (with_res_prefix prefix).

(** [self.prec_list.append(x)]. *)
Definition prec_list_append (x : float) : M unit :=
  modify (fun self => with_prec_list (prec_list self ++ [x]) self).

(** [self.rec_list.append(x)]. *)
Definition rec_list_append (x : float) : M unit :=
  modify (fun self => with_rec_list (rec_list self ++ [x]) self).

(** [isinstance(x, (np.ndarray, list))], giving the instances back. *)
Definition check_sequence (x : pyobj) (msg : string) : outcome (list (list sentence)) :=
  match x with
  | Sequence insts => Ok insts
  | OtherObject => Raise (TypeError msg)
  end.

(** [enumerate(l)]. *)
Definition enumerate {A : Type} (l : list A) : list (nat * A) :=
  combine (seq 0 (List.length l)) l.

(** Python's [x / len(l)] on a float and an int. *)
Definition truediv (x : float) (n : nat) : outcome float :=
  match n with
  | O => Raise ZeroDivisionError
  | S _ => Ok (PrimFloat.div x (np.of_len n))
  end.

Section Forward.

(** The bound method [self._score], which the subclass provides. *)
Variable _score : sentence -> sentence -> float.

(** The two nested loops filling the matrix. *)
Definition fill_row (i : nat) (single_ref : sentence) (gen : list sentence)
    (matrix : np.ndarray) : np.ndarray :=
  fold_left (fun matrix '(j, single_gen) =>
               np.setitem matrix i j (_score single_gen single_ref))
            (enumerate gen) matrix.

Definition fill (reference gen : list sentence) (matrix : np.ndarray) : np.ndarray :=
  fold_left (fun matrix '(i, single_ref) => fill_row i single_ref gen matrix)
            (enumerate reference) matrix.

(** The body of the loop over [zip(references, gens)]. *)
Definition forward_instance (reference gen : list sentence) : M unit :=
  let matrix := fill reference gen
                  (np.zeros (List.length reference) (List.length gen)) in
  colmax <- lift (np.max_axis0 matrix) ;;
  prec <- lift (truediv (np.of_float32 (np.sum32 colmax)) (List.length gen)) ;;
  prec_list_append prec ;;;
  rowmax <- lift (np.max_axis1 matrix) ;;
  rec <- lift (truediv (np.of_float32 (np.sum32 rowmax)) (List.length reference)) ;;
  rec_list_append rec.

Fixpoint forward_loop (pairs : list (list sentence * list sentence)) : M unit :=
  match pairs with
  | [] => ret tt
  | (reference, gen) :: rest =>
      forward_instance reference gen ;;; forward_loop rest
  end.

(** The message of the error for a wrong number of generated sentences: in
    the source the string literal is continued on the next line by a
    backslash, so the five tabs that indent the continuation are part of
    it. *)
Definition tab : string := String "009"%char EmptyString.

Definition count_mismatch_msg : string :=
  String.append "Number of geneated sentences per context does not equal to"
    (String.append (String.append tab (String.append tab (String.append tab
                      (String.append tab tab))))
       "the specified `generated_num_per_context`").

(** The loop checking the number of generated sentences of each line. *)
Fixpoint check_gens (gnpc : Z) (gens : list (list sentence)) : outcome unit :=
  match gens with
  | [] => Ok tt
  | line :: rest =>
      if negb (Z.eqb (Z.of_nat (List.length line)) gnpc)
      then Raise (ValueError count_mismatch_msg)
      else check_gens gnpc rest
  end.

(** The two list comprehensions of [forward]: what enters scoring. *)
Definition trim_references (dl : LanguageProcessing)
    (candidate_allvocabs : list (list sentence)) : list (list sentence) :=
  map (fun inst => map (fun cand => trim_in_ids dl (tl cand)) inst)
      candidate_allvocabs.

Definition trim_gens (dl : LanguageProcessing)
    (multiple_gen : list (list sentence)) : list (list sentence) :=
  map (fun inst => map (fun cand => trim_in_ids dl cand) inst) multiple_gen.

(** [forward(data)]. *)
Definition forward (data : batch) : M unit :=
  MetricBase.forward data ;;;
  self <- get ;;
  candidate_allvocabs <- lift (getitem data (candidate_allvocabs_key self)) ;;
  multiple_gen <- lift (getitem data (multiple_gen_key self)) ;;
  candidate_allvocabs <-
    lift (check_sequence candidate_allvocabs "Unknown type for candidate_allvocabs.") ;;
  multiple_gen <-
    lift (check_sequence multiple_gen "Unknown type for multiple_gen") ;;
  let references := trim_references (dataloader self) candidate_allvocabs in
  let gens := trim_gens (dataloader self) multiple_gen in
  (if negb (Nat.eqb (List.length references) (List.length gens))
   then throw (ValueError "Batch num is not matched.")
   else ret tt) ;;;
  lift (check_gens (generated_num_per_context self) gens) ;;;
  MetricBase._hash_unordered_list (List.concat references) ;;;
  forward_loop (combine references gens).

End Forward.

Definition not_ready_msg : string :=
  "The metric has not been forwarded data correctly.".

(** [close()]. *)
Definition close : M (list (string * resval)) :=
  self <- get ;;
  (if is_empty (prec_list self) || is_empty (rec_list self)
   then throw (RuntimeError not_ready_msg)
   else ret tt) ;;;
  res <- MetricBase.close ;;
  ret (res ++
       [ (String.append (res_prefix self) " precision", RFloat (np.average (prec_list self)));
         (String.append (res_prefix self) " recall", RFloat (np.average (rec_list self)));
         (String.append (res_prefix self) " hashvalue", RHash (MetricBase._hashvalue self)) ]).

End Methods.
End _PrecisionRecallMetric.

(** ** [BleuPrecisionRecallMetric]: the n-gram strategy *)

Module BleuPrecisionRecallMetric.
Section Methods.

Context {H : Hasher} {N : Nltk}.

Definition _name : string := "BleuPrecisionRecallMetric".
Definition _version : Z := 2.

(** The object: the inherited part and the attributes of the subclass. *)
Record t : Type := mk {
  super : metric;
  ngram : Z;
  weights : list float
}.

(** [__init__]; [1 / ngram] raises on [ngram = 0], and a list repeated a
    negative number of times is empty. *)
Definition __init__ (dataloader : LanguageProcessing) (ngram : Z)
    (generated_num_per_context : Z)
    (candidates_allvocabs_key multiple_gen_key : string) : outcome t :=
  let base := _PrecisionRecallMetric.__init__ _name _version dataloader
                generated_num_per_context candidates_allvocabs_key
                multiple_gen_key in
  if Z.eqb ngram 0 then Raise ZeroDivisionError
  else
    let weights := repeat (PrimFloat.div 1%float (py_float ngram)) (Z.to_nat ngram) in
    let base := fst (_PrecisionRecallMetric.set_res_prefix
                       (String.append "BLEU-" (py_str ngram)) base) in
    let base := fst (MetricBase._hash_ordered_data
                       (PList [PInt ngram; PInt generated_num_per_context]) base) in
    Ok (mk base ngram weights).

(** [_replace_unk(_input, _target=-1)]. *)
Definition _replace_unk (dl : LanguageProcessing) (_input : sentence)
    (_target : Z) : sentence :=
  map (fun ele => if Z.eqb ele (unk_id dl) then _target else ele) _input.

(** [_score(gen, reference)]. *)
Definition _score (self : t) (gen reference : sentence) : float :=
  let gen := _replace_unk (dataloader (super self)) gen (-1) in
  sentence_bleu [reference] gen (weights self).

(** The inherited [forward] and [close], on the object of the subclass. *)
Definition forward (self : t) (data : batch) : t * outcome unit :=
  let (base, o) := _PrecisionRecallMetric.forward (_score self) data (super self) in
  (mk base (ngram self) (weights self), o).

Definition close (self : t) : t * outcome (list (string * resval)) :=
  let (base, o) := _PrecisionRecallMetric.close (super self) in
  (mk base (ngram self) (weights self), o).

End Methods.
End BleuPrecisionRecallMetric.

(** ** [EmbSimilarityPrecisionRecallMetric]: the embedding strategy *)

Module EmbSimilarityPrecisionRecallMetric.
Section Methods.

Context {H : Hasher}.

Definition _name : string := "EmbSimilarityPrecisionRecallMetric".
Definition _version : Z := 2.

(** The object: the inherited part and the attributes of the subclass. *)
Record t : Type := mk {
  super : metric;
  word2vec : word2vec_table;
  mode : string
}.

(** [np.array(list(word2vec.values())).shape] has two dimensions, the
    second one not zero: every embedding has the length of the first one,
    which is not empty. *)
Definition embed_shape_ok (word2vec : word2vec_table) : bool :=
  match word2vec with
  | [] => true
  | (_, emb) :: rest =>
      negb (Nat.eqb (List.length emb) 0)
      && forallb (fun we => Nat.eqb (List.length (snd we)) (List.length emb)) rest
  end.

(** The list handed to [_hash_ordered_data]. *)
Definition ordered_data (word2vec : word2vec_table) (mode : string)
    (generated_num_per_context : Z) : pyval :=
  PList ([PStr mode; PInt generated_num_per_context]
         ++ map (fun we => PTuple [PStr (fst we); PList (map PFloat (snd we))])
                word2vec).

(** [__init__]; [word2vec] is a dict by its type. *)
Definition __init__ (dataloader : LanguageProcessing) (word2vec : word2vec_table)
    (mode : string) (generated_num_per_context : Z)
    (candidates_allvocabs_key multiple_gen_key : string) : outcome t :=
  let base := _PrecisionRecallMetric.__init__ _name _version dataloader
                generated_num_per_context candidates_allvocabs_key
                multiple_gen_key in
  if negb (embed_shape_ok word2vec)
  then Raise (ValueError "word embeddings have inconsistent embedding size or are empty")
  else if negb (String.eqb mode "avg" || String.eqb mode "extrema")
  then Raise (ValueError "mode should be 'avg' or 'extrema'.")
  else
    let base := fst (_PrecisionRecallMetric.set_res_prefix
                       (String.append mode "-bow") base) in
    let base := fst (MetricBase._hash_ordered_data
                       (ordered_data word2vec mode generated_num_per_context) base) in
    Ok (mk base word2vec mode).

(** [self.word2vec[word]] guarded by [word in self.word2vec]. *)
Fixpoint lookup (word2vec : word2vec_table) (word : string) : option (list float) :=
  match word2vec with
  | [] => None
  | (w, emb) :: rest => if String.eqb w word then Some emb else lookup rest word
  end.

(** The loop collecting the embeddings of the words the table knows. *)
Fixpoint collect (word2vec : word2vec_table) (words : list string) : list (list float) :=
  match words with
  | [] => []
  | word :: rest =>
      match lookup word2vec word with
      | Some emb => emb :: collect word2vec rest
      | None => collect word2vec rest
      end
  end.

(** The pooling of one sentence, by [self.mode]. *)
Definition pool (mode : string) (vecs : list (list float)) : list float :=
  if String.eqb mode "avg" then np.average_axis0 vecs else np.max_vectors vecs.

(** [_score(gen, reference)]. *)
Definition _score (self : t) (gen reference : sentence) : float :=
  let dl := dataloader (super self) in
  let gen_vec := collect (word2vec self) (convert_ids_to_tokens dl gen) in
  let ref_vec := collect (word2vec self) (convert_ids_to_tokens dl reference) in
  if is_empty gen_vec || is_empty ref_vec then 0%float
  else
    let gen_embed := pool (mode self) gen_vec in
    let ref_embed := pool (mode self) ref_vec in
    let cos :=
      PrimFloat.div
        (np.sum (np.map2 PrimFloat.mul gen_embed ref_embed))
        (PrimFloat.sqrt
           (PrimFloat.mul (np.sum (np.map2 PrimFloat.mul gen_embed gen_embed))
                          (np.sum (np.map2 PrimFloat.mul ref_embed ref_embed)))) in
    let norm := PrimFloat.div (PrimFloat.add cos 1%float) 2%float in
    norm.

(** The inherited [forward] and [close], on the object of the subclass. *)
Definition forward (self : t) (data : batch) : t * outcome unit :=
  let (base, o) := _PrecisionRecallMetric.forward (_score self) data (super self) in
  (mk base (word2vec self) (mode self), o).

Definition close (self : t) : t * outcome (list (string * resval)) :=
  let (base, o) := _PrecisionRecallMetric.close (super self) in
  (mk base (word2vec self) (mode self), o).

End Methods.
End EmbSimilarityPrecisionRecallMetric.

(** * Notions used to state the properties *)

Section Notions.

Context {H : Hasher}.

(** The matrix as the nested comprehension the two loops amount to. *)
Definition score_rows (_score : sentence -> sentence -> float)
    (reference gen : list sentence) : list (list np.float32) :=
  map (fun single_ref =>
         map (fun single_gen => np.to_float32 (_score single_gen single_ref)) gen)
      reference.

(** The score of generated sentence [j] against reference [i], as [_score]
    returns it. *)
Definition cell (_score : sentence -> sentence -> float)
    (reference gen : list sentence) (i j : nat) : float :=
  _score (nth j gen []) (nth i reference []).

(** [matrix[i][j]] of an instance: that score as the matrix holds it. *)
Definition stored (_score : sentence -> sentence -> float)
    (reference gen : list sentence) (i j : nat) : np.float32 :=
  np.to_float32 (cell _score reference gen i j).

(** What [np.max] computes for [k < n], [n >= 1]: [f 0], then [np.maximum]
    with [f 1], [f 2], ... *)
Definition max_over (n : nat) (f : nat -> np.float32) : np.float32 :=
  np.max_of (f 0%nat) (map f (seq 1 (n - 1))).

(** What [np.sum] computes for [k < n]. *)
Definition sum_over (n : nat) (f : nat -> np.float32) : np.float32 :=
  np.sum32 (map f (seq 0 n)).

(** The value appended to [prec_list], from the cells of the matrix. *)
Definition precision_contribution (R C : nat) (matrix : nat -> nat -> np.float32)
    : float :=
  PrimFloat.div
    (np.of_float32 (sum_over C (fun j => max_over R (fun i => matrix i j))))
    (np.of_len C).

(** The value appended to [rec_list], from the cells of the matrix. *)
Definition recall_contribution (R C : nat) (matrix : nat -> nat -> np.float32)
    : float :=
  PrimFloat.div
    (np.of_float32 (sum_over R (fun i => max_over C (fun j => matrix i j))))
    (np.of_len R).

(** The object after [ps] and [rs] were appended to its two lists. *)
Definition appended (self : metric) (ps rs : list float) : metric :=
  with_rec_list (rec_list self ++ rs) (with_prec_list (prec_list self ++ ps) self).

(** The contributions of one instance [(reference, gen)] of
    [zip(references, gens)]. *)
Definition instance_precision (_score : sentence -> sentence -> float)
    (inst : list sentence * list sentence) : float :=
  precision_contribution (List.length (fst inst)) (List.length (snd inst))
    (stored _score (fst inst) (snd inst)).

Definition instance_recall (_score : sentence -> sentence -> float)
    (inst : list sentence * list sentence) : float :=
  recall_contribution (List.length (fst inst)) (List.length (snd inst))
    (stored _score (fst inst) (snd inst)).

(** The object after [items] were folded into its unordered hash. *)
Definition hashed (self : metric) (items : list sentence) : metric :=
  with_unordered_hash (MetricBase.fold_digests (unordered_hash self) items) self.

(** The list or array a batch holds under [key], when there is one. *)
Definition sequence_under (data : batch) (key : string)
    : option (list (list sentence)) :=
  match getitem data key with
  | Ok (Sequence insts) => Some insts
  | _ => None
  end.

(** All the checks [forward] makes on the batch pass. *)
Definition passes_validation (self : metric) (data : batch) : bool :=
  match sequence_under data (candidate_allvocabs_key self),
        sequence_under data (multiple_gen_key self) with
  | Some candidate_allvocabs, Some multiple_gen =>
      Nat.eqb (List.length candidate_allvocabs) (List.length multiple_gen)
      && forallb (fun line => Z.eqb (Z.of_nat (List.length line))
                                    (generated_num_per_context self))
                 multiple_gen
  | _, _ => false
  end.

(** The reference sentences of a batch, as the caller gave them. *)
Definition input_references (self : metric) (data : batch) : list sentence :=
  match sequence_under data (candidate_allvocabs_key self) with
  | Some candidate_allvocabs => List.concat candidate_allvocabs
  | None => []
  end.

(** The reference sentences of a batch as [forward] hashes them. *)
Definition hashed_references (self : metric) (data : batch) : list sentence :=
  match sequence_under data (candidate_allvocabs_key self) with
  | Some candidate_allvocabs =>
      List.concat (_PrecisionRecallMetric.trim_references (dataloader self)
                     candidate_allvocabs)
  | None => []
  end.

(** The instances [zip(references, gens)] of a batch. *)
Definition batch_pairs (self : metric) (data : batch)
    : list (list sentence * list sentence) :=
  match sequence_under data (candidate_allvocabs_key self),
        sequence_under data (multiple_gen_key self) with
  | Some candidate_allvocabs, Some multiple_gen =>
      combine (_PrecisionRecallMetric.trim_references (dataloader self)
                 candidate_allvocabs)
              (_PrecisionRecallMetric.trim_gens (dataloader self) multiple_gen)
  | _, _ => []
  end.

(** The instances at the front of the loop that have at least one reference
    and at least one generated sentence: the loop scores them and stops at
    the first instance that has none of either. *)
Fixpoint scored_prefix (pairs : list (list sentence * list sentence))
    : list (list sentence * list sentence) :=
  match pairs with
  | [] => []
  | (reference, gen) :: rest =>
      if is_empty reference || is_empty gen then []
      else (reference, gen) :: scored_prefix rest
  end.

(** How the loop over the instances ends. *)
Fixpoint loop_outcome (pairs : list (list sentence * list sentence)) : outcome unit :=
  match pairs with
  | [] => Ok tt
  | (reference, gen) :: rest =>
      match reference, gen with
      | [], _ => Raise (ValueError np.zero_size_msg)
      | _ :: _, [] => Raise ZeroDivisionError
      | _ :: _, _ :: _ => loop_outcome rest
      end
  end.

(** The instances of a batch that come before its first instance without a
    reference. *)
Fixpoint leading_nonempty {A : Type} (insts : list (list A)) : list (list A) :=
  match insts with
  | [] => []
  | inst :: rest => if is_empty inst then [] else inst :: leading_nonempty rest
  end.

(** [forward] gets to hashing and scoring the batch: the metric is not
    finalized and the batch passes the checks. *)
Definition accepts (self : metric) (data : batch) : bool :=
  negb (closed self) && passes_validation self data.

(** The instances of a batch whose contributions [forward] appends. *)
Definition scored_instances (self : metric) (data : batch)
    : list (list sentence * list sentence) :=
  if accepts self data then scored_prefix (batch_pairs self data)
  else [].

(** The object after a sequence of calls of [forward]; a call that raises
    leaves the object as it was when the exception left the method. *)
Definition run (_score : sentence -> sentence -> float) (batches : list batch)
    (self : metric) : metric :=
  fold_left (fun self data => fst (_PrecisionRecallMetric.forward _score data self))
            batches self.

(** The reference sentences a sequence of calls of [forward] folds into the
    unordered hash: those of the batches that pass the checks, when the
    metric is not finalized. *)
Definition folded_references (self : metric) (batches : list batch) : list sentence :=
  flat_map (fun data => if accepts self data
                        then hashed_references self data else [])
           batches.

(** The batches the validation of [forward] rejects, as the specification
    lists them: a collection of an unacceptable type, two collections of
    different lengths, an instance whose number of generated sentences is
    not [generated_num_per_context]. *)
Inductive malformed (self : metric) (data : batch) : Prop :=
| bad_type_references (multiple_gen : pyobj) :
    getitem data (candidate_allvocabs_key self) = Ok OtherObject ->
    getitem data (multiple_gen_key self) = Ok multiple_gen ->
    malformed self data
| bad_type_generated (candidate_allvocabs : pyobj) :
    getitem data (candidate_allvocabs_key self) = Ok candidate_allvocabs ->
    getitem data (multiple_gen_key self) = Ok OtherObject ->
    malformed self data
| batch_length_mismatch (candidate_allvocabs multiple_gen : list (list sentence)) :
    getitem data (candidate_allvocabs_key self) = Ok (Sequence candidate_allvocabs) ->
    getitem data (multiple_gen_key self) = Ok (Sequence multiple_gen) ->
    List.length candidate_allvocabs <> List.length multiple_gen ->
    malformed self data
| count_mismatch (candidate_allvocabs multiple_gen : list (list sentence))
    (line : list sentence) :
    getitem data (candidate_allvocabs_key self) = Ok (Sequence candidate_allvocabs) ->
    getitem data (multiple_gen_key self) = Ok (Sequence multiple_gen) ->
    In line multiple_gen ->
    Z.of_nat (List.length line) <> generated_num_per_context self ->
    malformed self data.

(** The hasher has no collisions in what it does with the configuration:
    different values fed to the ordered hash, or different ordered states
    at the end, give different outputs. *)
Definition collision_free : Prop :=
  (forall (o : ordered_state) (v1 v2 : pyval),
      ordered_update o v1 = ordered_update o v2 -> v1 = v2)
  /\ (forall (o1 o2 : ordered_state) (u1 u2 : Z),
         hexdigest o1 u1 = hexdigest o2 u2 -> o1 = o2).

(** The n-gram of length (at most) [n] that starts at position [s]. *)
Definition ngram_at (n s : nat) (l : sentence) : sentence :=
  firstn n (skipn s l).

End Notions.

(** ** The reduction and the mean, as the specification words them *)

(** The specification gives the two contributions and the final metrics by
    formulas: a maximum over one index, a sum over the other, a division by
    a count, an arithmetic mean. The notions below say what these words mean
    for floating-point numbers, without reference to the functions of
    numpy. *)

(** [s] is a sum of the terms [l]: each term is added once, by the addition
    [add], in some order and with some grouping. *)
Inductive float_sum {A : Type} (add : A -> A -> A) : list A -> A -> Prop :=
| float_sum_one (x : A) : float_sum add [x] x
| float_sum_add (l1 l2 l : list A) (s1 s2 : A) :
    float_sum add l1 s1 -> float_sum add l2 s2 -> Permutation (l1 ++ l2) l ->
    float_sum add l (add s1 s2).

(** The sum of the terms added one after the other, in their order. *)
Definition sum_in_order {A : Type} (add : A -> A -> A) (zero : A) (l : list A) : A :=
  match l with
  | [] => zero
  | x :: rest => fold_left add rest x
  end.

(** [m] is the maximum of the [float32] values [l]: one of them, and none
    is greater; when one of them is not a number, neither is the maximum. *)
Definition greatest (l : list np.float32) (m : np.float32) : Prop :=
  if existsb np.is_nan32 l then m = np.nan32
  else In m l /\ Forall (fun x => np.leb32 x m = true) l.

(** [p] is [(sum over j of max over i of matrix[i][j]) / C] for a matrix of
    [R] rows and [C] columns of dtype [float32]: the maxima of the columns
    are added in [float32], in the order of the columns when there are
    fewer than 8, and the sum, as a Python float, is divided by [C]. *)
Definition is_precision_contribution (R C : nat)
    (matrix : nat -> nat -> np.float32) (p : float) : Prop :=
  exists (maxima : list np.float32) (s : np.float32),
    List.length maxima = C
    /\ (forall j, (j < C)%nat ->
                  greatest (map (fun i => matrix i j) (seq 0 R))
                           (nth j maxima np.nan32))
    /\ float_sum np.add32 maxima s
    /\ ((C < 8)%nat -> s = sum_in_order np.add32 np.zero32 maxima)
    /\ p = PrimFloat.div (np.of_float32 s) (np.of_len C).

(** [r] is [(sum over i of max over j of matrix[i][j]) / R]: the same with
    the rows in the place of the columns. *)
Definition is_recall_contribution (R C : nat)
    (matrix : nat -> nat -> np.float32) (r : float) : Prop :=
  is_precision_contribution C R (fun j i => matrix i j) r.

(** [m] is the arithmetic mean of the Python floats [l]: a sum of them, in
    their order when there are fewer than 8, divided by their number. *)
Definition is_mean (l : list float) (m : float) : Prop :=
  exists s : float,
    float_sum PrimFloat.add l s
    /\ ((List.length l < 8)%nat -> s = sum_in_order PrimFloat.add 0%float l)
    /\ m = PrimFloat.div s (np.of_len (List.length l)).

(** *** The order of [float32] *)

(** The comparison of two floats that are numbers is the lexicographic
    comparison of their keys. *)
Definition order_key (x : np.float32) : Z * Z * Z :=
  match x with
  | S754_infinity true => (-2, 0, 0)
  | S754_finite true m e => (-1, - e, Z.neg m)
  | S754_zero _ => (0, 0, 0)
  | S754_nan => (0, 0, 0)
  | S754_finite false m e => (1, e, Z.pos m)
  | S754_infinity false => (2, 0, 0)
  end.

Definition key_le (a b : Z * Z * Z) : Prop :=
  let '(a1, a2, a3) := a in
  let '(b1, b2, b3) := b in
  a1 < b1 \/ (a1 = b1 /\ (a2 < b2 \/ (a2 = b2 /\ a3 <= b3))).

(** * A concrete environment, on which the definitions evaluate *)

Module Fixture.

(** The vocabulary of the example in the docstring of [forward]. *)
Definition all_vocab_list : list string :=
  ["<pad>"; "<unk>"; "<go>"; "<eos>"; "I"; "have"; "been"; "to"; "China"].

Definition pad_id : Z := 0.
Definition eos_id : Z := 3.

Fixpoint until_eos (ids : sentence) : sentence :=
  match ids with
  | [] => []
  | x :: rest => if Z.eqb x eos_id then [] else x :: until_eos rest
  end.

Fixpoint drop_pads (ids : sentence) : sentence :=
  match ids with
  | [] => []
  | x :: rest => if Z.eqb x pad_id then drop_pads rest else ids
  end.

(** A dataloader: [trim_in_ids] cuts a sentence at its first [<eos>] and
    strips the padding at its end. *)
Definition dl : LanguageProcessing :=
  {| trim_in_ids := fun ids => rev (drop_pads (rev (until_eos ids)));
     convert_ids_to_tokens :=
       map (fun id => nth (Z.to_nat id) all_vocab_list "<unk>");
     unk_id := 1 |}.

(** A hasher without collisions in its ordered part: the ordered state is
    the list of the values fed to it, the fingerprint is the pair of the two
    accumulators. *)
Definition hasher : Hasher :=
  {| ordered_state := list pyval;
     fingerprint := list pyval * Z;
     ordered_init := fun name version => [PStr name; PInt version];
     ordered_update := fun st v => st ++ [v];
     item_digest := fun item => fold_left (fun acc tok => acc * 31 + tok + 1) item 7;
     hexdigest := fun o u => (o, u) |}.

Definition count_in (reference hypothesis : sentence) : nat :=
  List.length (filter (fun tok => existsb (Z.eqb tok) reference) hypothesis).

(** A stand-in for [sentence_bleu]: the share of the tokens of the
    hypothesis that occur in the first reference. *)
Definition nltk : Nltk :=
  {| sentence_bleu := fun references hypothesis _ =>
       match hypothesis with
       | [] => 0%float
       | _ => PrimFloat.div (np.of_len (count_in (hd [] references) hypothesis))
                            (np.of_len (List.length hypothesis))
       end |}.

(** The example of the docstring of [BleuPrecisionRecallMetric]: one
    instance with two references and two generated sentences. *)
Definition data : batch :=
  [ ("candidate_allvocabs", Sequence [[[10; 64; 851]; [10; 48; 851]]]);
    ("multiple_gen", Sequence [[[10; 64; 479; 3]; [10; 48; 2019; 3]]]) ].

Definition base0 : metric (H := hasher) :=
  _PrecisionRecallMetric.__init__ (H := hasher) EmptyString 0 dl 0
    EmptyString EmptyString.

(** [BleuPrecisionRecallMetric(dl, 2, 2)]. *)
Definition bleu : BleuPrecisionRecallMetric.t (H := hasher) :=
  match BleuPrecisionRecallMetric.__init__ (H := hasher) dl 2 2
          "candidate_allvocabs" "multiple_gen" with
  | Ok self => self
  | Raise _ => BleuPrecisionRecallMetric.mk base0 0 []
  end.

(** [BleuPrecisionRecallMetric(dl, 3, 2)]. *)
Definition bleu3 : BleuPrecisionRecallMetric.t (H := hasher) :=
  match BleuPrecisionRecallMetric.__init__ (H := hasher) dl 3 2
          "candidate_allvocabs" "multiple_gen" with
  | Ok self => self
  | Raise _ => BleuPrecisionRecallMetric.mk base0 0 []
  end.

(** An embedding table with two words, whose embeddings are opposite. *)
Definition opposite_table : word2vec_table :=
  [ ("I", [1%float; (-1)%float]); ("have", [(-1)%float; 1%float]) ].

(** [EmbSimilarityPrecisionRecallMetric(dl, opposite_table, 'avg', 1)]. *)
Definition emb : EmbSimilarityPrecisionRecallMetric.t (H := hasher) :=
  match EmbSimilarityPrecisionRecallMetric.__init__ (H := hasher) dl
          opposite_table "avg" 1 "candidate_allvocabs" "multiple_gen" with
  | Ok self => self
  | Raise _ => EmbSimilarityPrecisionRecallMetric.mk base0 [] EmptyString
  end.

(** The same table as a dict, with its two entries inserted in the other
    order. *)
Definition opposite_table_reordered : word2vec_table :=
  [ ("have", [(-1)%float; 1%float]); ("I", [1%float; (-1)%float]) ].

(** [EmbSimilarityPrecisionRecallMetric(dl, opposite_table_reordered, 'avg', 1)]. *)
Definition emb_reordered : EmbSimilarityPrecisionRecallMetric.t (H := hasher) :=
  match EmbSimilarityPrecisionRecallMetric.__init__ (H := hasher) dl
          opposite_table_reordered "avg" 1 "candidate_allvocabs" "multiple_gen" with
  | Ok self => self
  | Raise _ => EmbSimilarityPrecisionRecallMetric.mk base0 [] EmptyString
  end.

(** A batch of one instance: the reference is [I I I], the generated
    sentence is [I have <eos>]. *)
Definition emb_data : batch :=
  [ ("candidate_allvocabs", Sequence [[[4; 4; 4]]]);
    ("multiple_gen", Sequence [[[4; 5; 3]]]) ].

(** A second batch of one instance. *)
Definition data2 : batch :=
  [ ("candidate_allvocabs", Sequence [[[10; 64; 479]; [10; 48]]]);
    ("multiple_gen", Sequence [[[10; 64; 479; 3]; [48; 3]]]) ].

(** A batch of two instances, the second one without any reference. *)
Definition data_no_reference : batch :=
  [ ("candidate_allvocabs", Sequence [[[10; 64; 851]; [10; 48; 851]]; []]);
    ("multiple_gen", Sequence [[[10; 64; 479; 3]; [10; 48; 2019; 3]];
                               [[10; 3]; [64; 3]]]) ].

(** A batch whose two collections have different lengths. *)
Definition data_length_mismatch : batch :=
  [ ("candidate_allvocabs", Sequence [[[10; 64; 851]]; [[10; 48; 851]]]);
    ("multiple_gen", Sequence [[[10; 64; 479; 3]; [10; 48; 2019; 3]]]) ].

End Fixture.

(** * The dataloader classes of [cotk/dataloader/single_turn_dialog.py] *)

Module SingleTurnDialog.

(** The [tokenizer] argument: [None], the name of a tokenizer ([str]), a
    [PretrainedTokenizer] object, or an object of another class. *)
Inductive tokenizer_arg : Type :=
| NoTokenizer
| TokenizerName (name : string)
| PretrainedTokenizer (name : string)
| OtherTokenizer.

(** The keyword arguments of [FieldContext.set_parameters]; [vocab] is
    [PretrainedVocab(tokenizer)] when it is given. *)
Record field_parameters : Type := mk_field_parameters {
  fp_tokenizer : tokenizer_arg;
  fp_vocab : option tokenizer_arg;
  fp_max_sent_length : option Z;
  fp_convert_to_lower_letter : option bool
}.

(** The keyword arguments of [VocabContext.set_parameters]. *)
Record vocab_parameters : Type := mk_vocab_parameters {
  vp_min_valid_vocab_times : option Z;
  vp_min_invalid_vocab_times : option Z
}.

(** A call of the constructor of the base class [LanguageProcessingBase]:
    its two arguments and the contexts it runs in. *)
Record base_call : Type := mk_base_call {
  bc_file_id : string;
  bc_fields : list (string * string);
  bc_field_context : field_parameters;
  bc_vocab_context : option vocab_parameters
}.

Section Init.

(** The base class is outside the sources: the object it builds, its
    constructor and [set_default_field] are parameters. *)
Variable B : Type.
Variable LanguageProcessingBase_init : base_call -> outcome B.
Variable set_default_field : string -> string -> B -> outcome B.

Record t : Type := mk {
  base : B;
  _pretrained : option string
}.

(** The end of both branches that build the object: the base constructor,
    then [self.set_default_field("train", "post")]. *)
Definition build (pretrained : option string) (call : base_call) : outcome t :=
  match LanguageProcessingBase_init call with
  | Ok b =>
      match set_default_field "train" "post" b with
      | Ok b' => Ok (mk b' pretrained)
      | Raise e => Raise e
      end
  | Raise e => Raise e
  end.

(** [SingleTurnDialog.__init__]. *)
Definition __init__ (file_id : string) (tokenizer : tokenizer_arg)
    (max_sent_length : option Z) (convert_to_lower_letter : option bool)
    (min_valid_vocab_times min_invalid_vocab_times : option Z)
    (pretrained : option string) : outcome t :=
  match pretrained with
  | None =>
      build pretrained
        (mk_base_call file_id [("post", "sentence"); ("resp", "sentence")]
           (mk_field_parameters tokenizer None max_sent_length
              convert_to_lower_letter)
           (Some (mk_vocab_parameters min_valid_vocab_times
                    min_invalid_vocab_times)))
  | Some name =>
      if String.eqb name "gpt2" then
        match tokenizer with
        | PretrainedTokenizer _ =>
            build pretrained
              (mk_base_call file_id
                 [("post", "sentence_gpt2"); ("resp", "sentence_gpt2")]
                 (mk_field_parameters tokenizer (Some tokenizer) max_sent_length
                    convert_to_lower_letter)
                 None)
        | _ =>
            Raise (ValueError
                     "tokenize should be loaded first if you want a gpt2 dataloader")
        end
      else Raise (ValueError (String.append "No pretrained name " name))
  end.

(** An argument that was given, or its default. *)
Definition default_to {A : Type} (default : A) (given : option A) : A :=
  match given with
  | Some a => a
  | None => default
  end.

(** [OpenSubtitles.__init__]: every argument may be left out ([None] here)
    and then takes the default of the signature. *)
Definition OpenSubtitles_init (file_id : option string)
    (tokenizer : option tokenizer_arg)
    (max_sent_length : option (option Z))
    (convert_to_lower_letter : option (option bool))
    (min_valid_vocab_times min_invalid_vocab_times : option (option Z))
    (pretrained : option (option string)) : outcome t :=
  __init__ (default_to "resources://OpenSubtitles" file_id)
    (default_to (TokenizerName "nltk") tokenizer)
    (default_to (Some 50) max_sent_length)
    (default_to (Some false) convert_to_lower_letter)
    (default_to (Some 10) min_valid_vocab_times)
    (default_to (Some 0) min_invalid_vocab_times)
    (default_to None pretrained).

End Init.

End SingleTurnDialog.

(** * Notions used to state the further properties *)

Section MoreNotions.

Context {H : Hasher}.

(** The batch dict [{candidate_allvocabs_key: ca, multiple_gen_key: mg}]. *)
Definition mk_batch (self : metric)
    (candidate_allvocabs multiple_gen : list (list sentence)) : batch :=
  [ (candidate_allvocabs_key self, Sequence candidate_allvocabs);
    (multiple_gen_key self, Sequence multiple_gen) ].

(** [key in data]. *)
Definition has_key (data : batch) (key : string) : bool :=
  existsb (fun kv => String.eqb (fst kv) key) data.

(** [word in word2vec]. *)
Definition known (word2vec : word2vec_table) (word : string) : bool :=
  match EmbSimilarityPrecisionRecallMetric.lookup word2vec word with
  | Some _ => true
  | None => false
  end.

End MoreNotions.

(** * Properties *)

(** ** Lists updated in place *)

Section UpdateFacts.

Context {A : Type}.

Lemma update_update (i : nat) (f g : A -> A) (l : list A) :
  np.update i f (np.update i g l) = np.update i (fun x => f (g x)) l.
Proof.
  revert i; induction l as [|x l IH]; intros [|i]; simpl; auto.
  now rewrite IH.
Qed.

Lemma update_id (i : nat) (l : list A) :
  np.update i (fun x => x) l = l.
Proof.
  revert i; induction l as [|x l IH]; intros [|i]; simpl; auto.
  now rewrite IH.
Qed.

(** Writing the positions [k, k+1, ...] one after the other rewrites the
    tail of the list from position [k] on. *)
Lemma fold_update_from {B : Type} (f : B -> A -> A) (bs : list B) :
  forall (pre post : list A),
    List.length post = List.length bs ->
    fold_left (fun l (ib : nat * B) => np.update (fst ib) (f (snd ib)) l)
              (combine (seq (List.length pre) (List.length bs)) bs)
              (pre ++ post)
    = pre ++ map (fun bx => f (fst bx) (snd bx)) (combine bs post).
Proof.
  induction bs as [|b bs IH]; intros pre post Hlen.
  - destruct post; [|discriminate]. reflexivity.
  - destruct post as [|x post]; [discriminate|].
    simpl in Hlen. injection Hlen as Hlen.
    cbn [List.length seq combine fold_left fst snd map].
    assert (Hupd : np.update (List.length pre) (f b) (pre ++ x :: post)
                   = (pre ++ [f b x]) ++ post).
    { clear. induction pre as [|p pre IHp]; simpl; [reflexivity|].
      now rewrite IHp. }
    rewrite Hupd.
    replace (S (List.length pre)) with (List.length (pre ++ [f b x]))
      by (rewrite length_app; simpl; lia).
    rewrite IH by assumption.
    now rewrite <- app_assoc.
Qed.

End UpdateFacts.

(** ** The score matrix *)

Section MatrixFacts.

Context {H : Hasher}.
Variable _score : sentence -> sentence -> float.

Import _PrecisionRecallMetric.

Lemma map_fst_combine {A B C : Type} (f : A -> C) (l : list A) (l' : list B) :
  List.length l' = List.length l ->
  map (fun ab => f (fst ab)) (combine l l') = map f l.
Proof.
  revert l'; induction l as [|a l IH]; intros [|b l'] Hlen; simpl in *;
    try discriminate; auto.
  f_equal. apply IH. lia.
Qed.

(** The inner loop writes row [i] only. *)
Lemma fill_row_rows (i : nat) (single_ref : sentence) (js : list (nat * sentence)) :
  forall m : np.ndarray,
    fold_left (fun matrix '(j, single_gen) =>
                 np.setitem matrix i j (_score single_gen single_ref)) js m
    = np.mk_ndarray (np.shape0 m) (np.shape1 m)
        (np.update i
           (fun row =>
              fold_left (fun row (jg : nat * sentence) =>
                           np.update (fst jg)
                             ((fun g _ => np.to_float32 (_score g single_ref))
                                (snd jg)) row)
                        js row)
           (np.rows m)).
Proof.
  induction js as [|[j g] js IH]; intros m.
  - simpl. rewrite update_id. now destruct m.
  - cbn [fold_left]. rewrite IH. unfold np.setitem.
    cbn [np.shape0 np.shape1 np.rows fst snd].
    now rewrite update_update.
Qed.

(** On a row of the right length the inner loop leaves the scores of
    [single_ref] against every generated sentence, each rounded to
    [float32]. *)
Lemma inner_loop_row (single_ref : sentence) (gen : list sentence)
    (row : list np.float32) :
  List.length row = List.length gen ->
  fold_left (fun row (jg : nat * sentence) =>
               np.update (fst jg)
                 ((fun g _ => np.to_float32 (_score g single_ref)) (snd jg)) row)
            (enumerate gen) row
  = map (fun single_gen => np.to_float32 (_score single_gen single_ref)) gen.
Proof.
  intros Hlen. unfold enumerate.
  pose proof (fold_update_from
                (fun (g : sentence) (_ : np.float32) =>
                   np.to_float32 (_score g single_ref))
                gen [] row Hlen) as Hf.
  cbn [List.length app] in Hf. rewrite Hf.
  now apply (map_fst_combine (fun g => np.to_float32 (_score g single_ref))).
Qed.

Lemma fill_outer (gen : list sentence) (irs : list (nat * sentence)) :
  forall m : np.ndarray,
    fold_left (fun matrix '(i, single_ref) => fill_row _score i single_ref gen matrix)
              irs m
    = np.mk_ndarray (np.shape0 m) (np.shape1 m)
        (fold_left (fun rows (ir : nat * sentence) =>
                      np.update (fst ir)
                        ((fun single_ref row =>
                            fold_left (fun row (jg : nat * sentence) =>
                                         np.update (fst jg)
                                           ((fun g _ =>
                                               np.to_float32 (_score g single_ref))
                                              (snd jg)) row)
                                      (enumerate gen) row) (snd ir)) rows)
                   irs (np.rows m)).
Proof.
  induction irs as [|[i r] irs IH]; intros m.
  - now destruct m.
  - cbn [fold_left]. rewrite IH. unfold fill_row.
    rewrite fill_row_rows. reflexivity.
Qed.

(** The two loops over a zero matrix of shape [(len(reference), len(gen))]
    leave [_score(gen[j], reference[i])], rounded to [float32], in every
    cell [(i, j)]. *)
Lemma fill_zeros (reference gen : list sentence) :
  fill _score reference gen (np.zeros (List.length reference) (List.length gen))
  = np.mk_ndarray (List.length reference) (List.length gen)
      (score_rows _score reference gen).
Proof.
  unfold fill. rewrite fill_outer. unfold np.zeros.
  cbn [np.shape0 np.shape1 np.rows]. f_equal.
  pose proof (fold_update_from
                (fun (single_ref : sentence) (row : list np.float32) =>
                   fold_left (fun row (jg : nat * sentence) =>
                                np.update (fst jg)
                                  ((fun g _ => np.to_float32 (_score g single_ref))
                                     (snd jg)) row)
                             (enumerate gen) row)
                reference []
                (repeat (repeat np.zero32 (List.length gen)) (List.length reference))
                (repeat_length _ _)) as Hf.
  cbn [List.length app] in Hf.
  etransitivity; [exact Hf|]. clear Hf.
  unfold score_rows.
  induction reference as [|r reference IH]; [reflexivity|].
  cbn [List.length repeat combine map fst snd]. f_equal; [|exact IH].
  apply inner_loop_row. apply repeat_length.
Qed.

End MatrixFacts.

(** ** Element-wise reductions *)

Section Reduction.

Lemma map_nth_seq {A B : Type} (h : A -> B) (d : A) (l : list A) :
  map (fun i => h (nth i l d)) (seq 0 (List.length l)) = map h l.
Proof.
  induction l as [|a l IH]; [reflexivity|].
  cbn [List.length seq map nth]. f_equal.
  rewrite <- seq_shift, map_map. exact IH.
Qed.

Lemma map_nth_seq_tail {A B : Type} (h : A -> B) (d a : A) (l : list A) :
  map (fun i => h (nth i (a :: l) d)) (seq 1 (List.length l)) = map h l.
Proof.
  rewrite <- seq_shift, map_map. cbn [nth]. apply map_nth_seq.
Qed.

Lemma nth_map2 {A : Type} (f : A -> A -> A) (d : A) :
  forall (u v : list A) (j : nat),
    List.length u = List.length v -> (j < List.length u)%nat ->
    nth j (np.map2 f u v) d = f (nth j u d) (nth j v d).
Proof.
  induction u as [|x u IH]; intros [|y v] [|j] Hlen Hj; simpl in *;
    try discriminate; try lia; auto.
  apply IH; lia.
Qed.

Lemma length_map2 {A : Type} (f : A -> A -> A) :
  forall u v : list A,
    List.length u = List.length v -> List.length (np.map2 f u v) = List.length u.
Proof.
  induction u as [|x u IH]; intros [|y v] Hlen; simpl in *;
    try discriminate; auto.
Qed.

(** Folding the rows of a rectangular matrix element-wise computes, in
    column [j], the fold of the entries of that column. *)
Lemma fold_map2_columns {A : Type} (f : A -> A -> A) (d : A) (C : nat) :
  forall (rest : list (list A)) (row : list A),
    List.length row = C ->
    Forall (fun r => List.length r = C) rest ->
    fold_left (np.map2 f) rest row
    = map (fun j => fold_left f (map (fun r => nth j r d) rest) (nth j row d))
          (seq 0 C).
Proof.
  induction rest as [|r rest IH]; intros row Hrow Hrest.
  - cbn [fold_left map]. subst C.
    rewrite (map_nth_seq (fun x => x)). now rewrite map_id.
  - inversion Hrest as [|? ? Hr Hrest']; subst.
    cbn [fold_left map].
    rewrite IH; [| rewrite length_map2; congruence | assumption].
    apply map_ext_in. intros j Hj. apply in_seq in Hj.
    rewrite nth_map2; [reflexivity | congruence | lia].
Qed.

End Reduction.

(** ** One instance: from the matrix to the two contributions *)

Section Instance.

Context {H : Hasher}.
Variable _score : sentence -> sentence -> float.

Import _PrecisionRecallMetric.

Lemma nth_map_lt {A B : Type} (g : A -> B) (l : list A) (j : nat) (d : B) (d' : A) :
  (j < List.length l)%nat -> nth j (map g l) d = g (nth j l d').
Proof.
  intros Hj. rewrite (nth_indep _ d (g d')) by (now rewrite length_map).
  apply map_nth.
Qed.

Lemma max_axis0_score_rows (ref0 : sentence) (refs gen : list sentence) :
  np.max_axis0 (np.mk_ndarray (S (List.length refs)) (List.length gen)
                  (score_rows _score (ref0 :: refs) gen))
  = Ok (map (fun j => max_over (S (List.length refs))
                        (fun i => stored _score (ref0 :: refs) gen i j))
            (seq 0 (List.length gen))).
Proof.
  unfold np.max_axis0, score_rows. cbn [np.shape0 np.rows map]. f_equal.
  rewrite (fold_map2_columns np.maximum32 np.zero32 (C := List.length gen)).
  - apply map_ext_in. intros j Hj. apply in_seq in Hj.
    unfold max_over, np.max_of, stored, cell.
    replace (S (List.length refs) - 1)%nat with (List.length refs) by lia.
    rewrite (map_nth_seq_tail (fun r => np.to_float32 (_score (nth j gen []) r))).
    rewrite map_map.
    rewrite (nth_map_lt _ gen np.zero32 []) by lia.
    cbn [nth]. f_equal.
    apply map_ext. intros r.
    apply (nth_map_lt (fun g => np.to_float32 (_score g r))). lia.
  - apply length_map.
  - apply Forall_forall. intros r Hr. apply in_map_iff in Hr.
    destruct Hr as [x [<- _]]. apply length_map.
Qed.

Lemma max_axis1_score_rows (reference : list sentence) (gen0 : sentence)
    (gens : list sentence) :
  np.max_axis1 (np.mk_ndarray (List.length reference) (S (List.length gens))
                  (score_rows _score reference (gen0 :: gens)))
  = Ok (map (fun i => max_over (S (List.length gens))
                        (fun j => stored _score reference (gen0 :: gens) i j))
            (seq 0 (List.length reference))).
Proof.
  unfold np.max_axis1, score_rows. cbn [np.shape1 np.rows]. f_equal.
  rewrite map_map. unfold stored, cell.
  rewrite (map_nth_seq
             (fun r => max_over (S (List.length gens))
                         (fun j => np.to_float32 (_score (nth j (gen0 :: gens) []) r)))
             [] reference).
  apply map_ext. intros r. cbn [map hd tl].
  unfold max_over, np.max_of.
  replace (S (List.length gens) - 1)%nat with (List.length gens) by lia.
  rewrite (map_nth_seq_tail (fun g => np.to_float32 (_score g r))).
  reflexivity.
Qed.

Lemma max_axis0_instance (reference gen : list sentence) :
  reference <> [] ->
  np.max_axis0 (np.mk_ndarray (List.length reference) (List.length gen)
                  (score_rows _score reference gen))
  = Ok (map (fun j => max_over (List.length reference)
                        (fun i => stored _score reference gen i j))
            (seq 0 (List.length gen))).
Proof.
  destruct reference as [|ref0 refs]; [congruence|]. intros _.
  apply max_axis0_score_rows.
Qed.

Lemma max_axis1_instance (reference gen : list sentence) :
  gen <> [] ->
  np.max_axis1 (np.mk_ndarray (List.length reference) (List.length gen)
                  (score_rows _score reference gen))
  = Ok (map (fun i => max_over (List.length gen)
                        (fun j => stored _score reference gen i j))
            (seq 0 (List.length reference))).
Proof.
  destruct gen as [|gen0 gens]; [congruence|]. intros _.
  apply max_axis1_score_rows.
Qed.

Lemma truediv_nonempty {A : Type} (x : float) (l : list A) :
  l <> [] -> truediv x (List.length l) = Ok (PrimFloat.div x (np.of_len (List.length l))).
Proof.
  destruct l; [congruence|]. reflexivity.
Qed.

End Instance.

(** ** The loop over the instances and [forward] as a whole *)

Section ForwardFacts.

Context {H : Hasher}.
Variable _score : sentence -> sentence -> float.

Import _PrecisionRecallMetric.

Lemma appended_nil (self : metric) : appended self [] [] = self.
Proof.
  destruct self. unfold appended, with_rec_list, with_prec_list. simpl.
  now rewrite !app_nil_r.
Qed.

Lemma appended_appended (self : metric) (ps rs ps' rs' : list float) :
  appended (appended self ps rs) ps' rs' = appended self (ps ++ ps') (rs ++ rs').
Proof.
  unfold appended, with_rec_list, with_prec_list. simpl.
  now rewrite !app_assoc.
Qed.

(** An instance without a reference: the reduction of the empty axis raises
    before anything is appended. *)
Lemma forward_instance_no_reference (gen : list sentence) (self : metric) :
  forward_instance _score [] gen self = (self, Raise (ValueError np.zero_size_msg)).
Proof.
  unfold forward_instance. rewrite fill_zeros. reflexivity.
Qed.

(** An instance with references and no generated sentence: the division by
    [len(gen)] raises before anything is appended. *)
Lemma forward_instance_no_gen (reference : list sentence) (self : metric) :
  reference <> [] ->
  forward_instance _score reference [] self = (self, Raise ZeroDivisionError).
Proof.
  intros Href. unfold forward_instance. rewrite fill_zeros.
  unfold bind, lift. rewrite (max_axis0_instance _ [] Href). reflexivity.
Qed.

Lemma forward_instance_scored (reference gen : list sentence) (self : metric) :
  reference <> [] -> gen <> [] ->
  forward_instance _score reference gen self
  = (appended self [instance_precision _score (reference, gen)]
                   [instance_recall _score (reference, gen)], Ok tt).
Proof.
  intros Href Hgen. unfold forward_instance.
  rewrite fill_zeros. unfold bind, lift.
  rewrite (max_axis0_instance _ gen Href).
  rewrite (truediv_nonempty _ Hgen).
  cbn [prec_list_append modify].
  rewrite (max_axis1_instance _ reference Hgen).
  rewrite (truediv_nonempty _ Href).
  reflexivity.
Qed.

(** The loop appends the contributions of the instances it scores, in
    order, and stops at the first instance it cannot score. *)
Lemma forward_loop_spec (pairs : list (list sentence * list sentence)) :
  forall self : metric,
    forward_loop _score pairs self
    = (appended self (map (instance_precision _score) (scored_prefix pairs))
                     (map (instance_recall _score) (scored_prefix pairs)),
       loop_outcome pairs).
Proof.
  induction pairs as [|[reference gen] pairs IH]; intros self.
  - simpl. now rewrite appended_nil.
  - cbn [forward_loop]. unfold bind at 1.
    destruct reference as [|r0 rs].
    + rewrite forward_instance_no_reference. simpl. now rewrite appended_nil.
    + destruct gen as [|g0 gs].
      * rewrite forward_instance_no_gen by discriminate.
        simpl. now rewrite appended_nil.
      * rewrite forward_instance_scored by discriminate.
        rewrite IH. cbn [scored_prefix is_empty orb map loop_outcome].
        now rewrite appended_appended.
Qed.

Lemma length_trim_references (dl : LanguageProcessing)
    (candidate_allvocabs : list (list sentence)) :
  List.length (trim_references dl candidate_allvocabs)
  = List.length candidate_allvocabs.
Proof. apply length_map. Qed.

Lemma length_trim_gens (dl : LanguageProcessing)
    (multiple_gen : list (list sentence)) :
  List.length (trim_gens dl multiple_gen) = List.length multiple_gen.
Proof. apply length_map. Qed.

Lemma check_gens_forallb (dl : LanguageProcessing) (gnpc : Z)
    (multiple_gen : list (list sentence)) :
  check_gens gnpc (trim_gens dl multiple_gen)
  = if forallb (fun line => Z.eqb (Z.of_nat (List.length line)) gnpc) multiple_gen
    then Ok tt
    else Raise (ValueError count_mismatch_msg).
Proof.
  induction multiple_gen as [|line rest IH]; [reflexivity|].
  cbn [trim_gens map check_gens forallb]. rewrite length_map.
  destruct (Z.eqb (Z.of_nat (List.length line)) gnpc); [exact IH|reflexivity].
Qed.

(** A finalized metric: [forward] raises before it looks at the batch. *)
Lemma forward_closed (data : batch) (self : metric) :
  closed self = true ->
  forward _score data self = (self, Raise (RuntimeError MetricBase.closed_msg)).
Proof.
  intros Hclosed.
  unfold forward, MetricBase.forward, bind, ret, get, throw.
  now rewrite Hclosed.
Qed.

(** A batch that passes the checks, on a metric that is not finalized: its
    references are folded into the unordered hash, then the loop runs over
    its instances. *)
Lemma forward_accepted (data : batch) (self : metric) :
  closed self = false ->
  passes_validation self data = true ->
  forward _score data self
  = forward_loop _score (batch_pairs self data)
      (hashed self (hashed_references self data)).
Proof.
  intros Hopen.
  unfold passes_validation, batch_pairs, hashed_references, sequence_under.
  unfold forward, MetricBase.forward, bind, ret, get, lift, throw.
  rewrite Hopen.
  destruct (getitem data (candidate_allvocabs_key self)) as [[ca|]|];
    try discriminate.
  destruct (getitem data (multiple_gen_key self)) as [[mg|]|];
    try discriminate.
  cbn [check_sequence]. intros Hv. apply andb_prop in Hv as [Hlen Hcount].
  cbv zeta. rewrite length_trim_references, length_trim_gens.
  rewrite Hlen. cbn [negb throw].
  rewrite check_gens_forallb, Hcount.
  reflexivity.
Qed.

(** A batch that fails a check: [forward] raises, whatever the scoring
    function, and the object is as before the call. *)
Lemma forward_rejected (data : batch) (self : metric) :
  passes_validation self data = false ->
  exists e, forall score', forward score' data self = (self, Raise e).
Proof.
  destruct (closed self) eqn:Hclosed.
  { intros _. eexists. intros score'.
    unfold forward, MetricBase.forward, bind, ret, get, throw.
    now rewrite Hclosed. }
  unfold passes_validation, sequence_under.
  unfold forward, MetricBase.forward, bind, ret, get, lift, throw.
  rewrite Hclosed.
  destruct (getitem data (candidate_allvocabs_key self)) as [[ca|]|e1];
    [| | intros _; now exists e1].
  - destruct (getitem data (multiple_gen_key self)) as [[mg|]|e2];
      [| intros _; eexists; intros; reflexivity | intros _; now exists e2].
    cbn [check_sequence].
    cbv zeta. rewrite length_trim_references, length_trim_gens.
    destruct (Nat.eqb (List.length ca) (List.length mg)) eqn:Hlen.
    + cbn [andb negb]. intros Hcount.
      rewrite check_gens_forallb, Hcount.
      eexists; intros; reflexivity.
    + intros _. eexists; intros; reflexivity.
  - destruct (getitem data (multiple_gen_key self)) as [mg|e2];
      intros _; eexists; intros; reflexivity.
Qed.

(** A batch that passes the checks and whose instances all have a
    reference, for a positive [generated_num_per_context]: [forward] returns
    after appending the two contributions of every instance, each computed
    on a matrix with [generated_num_per_context] columns. *)
Lemma forward_all_scored (data : batch) (self : metric)
    (candidate_allvocabs : list (list sentence)) :
  closed self = false ->
  sequence_under data (candidate_allvocabs_key self) = Some candidate_allvocabs ->
  passes_validation self data = true ->
  Forall (fun inst => inst <> []) candidate_allvocabs ->
  0 < generated_num_per_context self ->
  forward _score data self
  = (appended (hashed self (hashed_references self data))
       (map (instance_precision _score) (batch_pairs self data))
       (map (instance_recall _score) (batch_pairs self data)),
     Ok tt)
  /\ Forall (fun inst => Z.of_nat (List.length (snd inst))
                         = generated_num_per_context self)
            (batch_pairs self data).
Proof.
  intros Hopen Hca Hvalid Hrefs Hpos.
  rewrite (forward_accepted data self Hopen Hvalid), forward_loop_spec.
  unfold passes_validation in Hvalid. unfold batch_pairs. rewrite Hca in *.
  destruct (sequence_under data (multiple_gen_key self)) as [mg|]; [|discriminate].
  apply andb_prop in Hvalid as [Hlen Hcount]. apply Nat.eqb_eq in Hlen.
  rewrite forallb_forall in Hcount.
  assert (Hall : forall refs gens : list (list sentence),
             List.length refs = List.length gens ->
             Forall (fun inst => inst <> []) refs ->
             (forall line, In line gens ->
                           Z.of_nat (List.length line) = generated_num_per_context self) ->
             scored_prefix (combine refs gens) = combine refs gens
             /\ loop_outcome (combine refs gens) = Ok tt
             /\ Forall (fun inst => Z.of_nat (List.length (snd inst))
                                    = generated_num_per_context self)
                       (combine refs gens)).
  { clear - Hpos. induction refs as [|r refs IH]; intros [|g gens] Hl Hr Hg;
      simpl in Hl; try discriminate; [now repeat split|].
    injection Hl as Hl. inversion Hr as [|? ? Hr0 Hr']; subst.
    assert (Hg0 : Z.of_nat (List.length g) = generated_num_per_context self)
      by (apply Hg; now left).
    destruct (IH gens Hl Hr' (fun line Hin => Hg line (or_intror Hin)))
      as [Hs [Ho Hf]].
    destruct r as [|r0 r]; [now elim Hr0|].
    destruct g as [|g0 g]; [simpl in Hg0; lia|].
    cbn [combine scored_prefix is_empty orb loop_outcome].
    rewrite Hs. repeat split; [exact Ho|]. constructor; assumption. }
  destruct (Hall (trim_references (dataloader self) candidate_allvocabs)
                 (trim_gens (dataloader self) mg)) as [Hs [Ho Hf]].
  - now rewrite length_trim_references, length_trim_gens.
  - unfold trim_references. apply Forall_forall. intros inst Hin.
    apply in_map_iff in Hin as [inst0 [<- Hin0]].
    rewrite Forall_forall in Hrefs. specialize (Hrefs inst0 Hin0).
    destruct inst0; [now elim Hrefs|discriminate].
  - unfold trim_gens. intros line Hin.
    apply in_map_iff in Hin as [line0 [<- Hin0]].
    rewrite length_map. apply Z.eqb_eq. now apply Hcount.
  - rewrite Hs, Ho. split; [reflexivity|exact Hf].
Qed.

End ForwardFacts.

(** ** Batches with an instance that has no reference *)

Section EmptyInstances.

Lemma leading_nonempty_map {A B : Type} (f : A -> B) (insts : list (list A)) :
  List.length (leading_nonempty (map (map f) insts))
  = List.length (leading_nonempty insts).
Proof.
  induction insts as [|inst rest IH]; [reflexivity|].
  destruct inst; simpl; [reflexivity|]. now rewrite IH.
Qed.

(** The loop raises as soon as one instance of the batch has no reference. *)
Lemma loop_outcome_raises (refs gens : list (list sentence)) :
  List.length refs = List.length gens -> In [] refs ->
  (exists e, loop_outcome (combine refs gens) = Raise e)
  /\ (List.length (scored_prefix (combine refs gens)) < List.length refs)%nat.
Proof.
  revert gens; induction refs as [|r refs IH]; intros [|g gens] Hlen Hin;
    simpl in Hlen; try discriminate; [destruct Hin|].
  injection Hlen as Hlen.
  destruct r as [|r0 r].
  - simpl. split; [eauto|lia].
  - destruct Hin as [Hin|Hin]; [discriminate|].
    destruct g as [|g0 g]; simpl.
    + split; [eauto|lia].
    + destruct (IH gens Hlen Hin) as [He Hlt]. split; [exact He|lia].
Qed.

(** When every instance has a generated sentence, the loop scores exactly
    the instances before the first one without a reference, and the error
    is that of the reduction of the empty axis. *)
Lemma loop_outcome_first_empty (refs gens : list (list sentence)) :
  List.length refs = List.length gens -> In [] refs ->
  Forall (fun line => line <> []) gens ->
  loop_outcome (combine refs gens) = Raise (ValueError np.zero_size_msg)
  /\ List.length (scored_prefix (combine refs gens))
     = List.length (leading_nonempty refs).
Proof.
  revert gens; induction refs as [|r refs IH]; intros [|g gens] Hlen Hin Hgens;
    simpl in Hlen; try discriminate; [destruct Hin|].
  injection Hlen as Hlen.
  inversion Hgens as [|? ? Hg Hgens']; subst.
  destruct r as [|r0 r].
  - simpl. split; reflexivity.
  - destruct Hin as [Hin|Hin]; [discriminate|].
    destruct g as [|g0 g]; [congruence|]. simpl.
    destruct (IH gens Hlen Hin Hgens') as [He Hl]. split; [exact He|].
    now rewrite Hl.
Qed.

End EmptyInstances.

(** ** Sequences of calls of [forward] *)

Section RunFacts.

Context {H : Hasher}.
Variable _score : sentence -> sentence -> float.

Import _PrecisionRecallMetric.

Lemma hashed_nil (self : metric) : hashed self [] = self.
Proof. now destruct self. Qed.

(** The object after one call of [forward], whether it returned or raised. *)
Lemma forward_state (data : batch) (self : metric) :
  fst (forward _score data self)
  = appended
      (hashed self (if accepts self data
                    then hashed_references self data else []))
      (map (instance_precision _score) (scored_instances self data))
      (map (instance_recall _score) (scored_instances self data)).
Proof.
  unfold scored_instances, accepts.
  destruct (closed self) eqn:Hclosed.
  { rewrite forward_closed by assumption. simpl.
    now rewrite hashed_nil, appended_nil. }
  cbn [negb andb].
  destruct (passes_validation self data) eqn:Hv.
  - rewrite (forward_accepted _score data self Hclosed Hv), forward_loop_spec.
    reflexivity.
  - destruct (forward_rejected data self Hv) as [e He]. rewrite He.
    simpl. now rewrite hashed_nil, appended_nil.
Qed.

(** The object after a sequence of calls of [forward]. *)
Lemma run_state (batches : list batch) :
  forall self : metric,
    run _score batches self
    = appended (hashed self (folded_references self batches))
        (map (instance_precision _score) (flat_map (scored_instances self) batches))
        (map (instance_recall _score) (flat_map (scored_instances self) batches)).
Proof.
  induction batches as [|data batches IH]; intros self.
  - simpl. now rewrite hashed_nil, appended_nil.
  - unfold run in *. cbn [fold_left]. rewrite IH, forward_state.
    set (self1 := appended _ _ _).
    change (folded_references self1 batches) with (folded_references self batches).
    change (flat_map (scored_instances self1) batches)
      with (flat_map (scored_instances self) batches).
    subst self1.
    cbn [folded_references flat_map]. rewrite !map_app.
    unfold appended, hashed, with_rec_list, with_prec_list, with_unordered_hash,
      MetricBase.fold_digests.
    cbn [ordered_hash unordered_hash closed dataloader candidate_allvocabs_key
         multiple_gen_key generated_num_per_context prec_list rec_list res_prefix].
    now rewrite fold_left_app, !app_assoc.
Qed.

End RunFacts.

(** ** The unordered hash *)

Section HashFacts.

Context {H : Hasher}.

(** The accumulator does not depend on the order of the items. *)
Lemma fold_digests_permutation (items items' : list sentence) :
  Permutation items items' ->
  forall acc, MetricBase.fold_digests acc items = MetricBase.fold_digests acc items'.
Proof.
  unfold MetricBase.fold_digests.
  induction 1 as [|x l l' _ IH|x y l|l l' l'' _ IH1 _ IH2]; intros acc.
  - reflexivity.
  - cbn [fold_left]. apply IH.
  - cbn [fold_left]. f_equal.
    rewrite !Zplus_mod_idemp_l. f_equal. lia.
  - now rewrite IH1.
Qed.

Lemma hashed_references_input (self : metric) (data : batch) :
  hashed_references self data
  = map (fun cand => trim_in_ids (dataloader self) (tl cand))
        (input_references self data).
Proof.
  unfold hashed_references, input_references.
  destruct (sequence_under data (candidate_allvocabs_key self)) as [ca|];
    [|reflexivity].
  unfold _PrecisionRecallMetric.trim_references. symmetry. apply concat_map.
Qed.

(** When every batch passes the checks, what is folded into the hash is the
    list of all the references given, each one cut and trimmed. *)
Lemma folded_references_input (self : metric) (batches : list batch) :
  closed self = false ->
  forallb (passes_validation self) batches = true ->
  folded_references self batches
  = map (fun cand => trim_in_ids (dataloader self) (tl cand))
        (flat_map (input_references self) batches).
Proof.
  intros Hopen.
  induction batches as [|data batches IH]; [reflexivity|].
  cbn [forallb folded_references flat_map]. intros Hall.
  apply andb_prop in Hall as [Hv Hall].
  rewrite map_app. f_equal; [|exact (IH Hall)].
  unfold accepts. rewrite Hopen, Hv. apply hashed_references_input.
Qed.

Lemma run_hashvalue (_score : sentence -> sentence -> float)
    (batches : list batch) (self : metric) :
  MetricBase._hashvalue (run _score batches self)
  = hexdigest (ordered_hash self)
      (MetricBase.fold_digests (unordered_hash self)
         (folded_references self batches)).
Proof. rewrite run_state. reflexivity. Qed.

Lemma map_injective {A B : Type} (f : A -> B) :
  (forall x y, f x = f y -> x = y) ->
  forall l l', map f l = map f l' -> l = l'.
Proof.
  intros Hinj. induction l as [|x l IH]; intros [|y l'] Heq; simpl in Heq;
    try discriminate; [reflexivity|].
  injection Heq as Hxy Hl. f_equal; auto.
Qed.

(** The value the embedding metric feeds to the ordered hash determines its
    table, its mode and [generated_num_per_context]. *)
Lemma ordered_data_injective (w1 w2 : word2vec_table) (m1 m2 : string) (g1 g2 : Z) :
  EmbSimilarityPrecisionRecallMetric.ordered_data w1 m1 g1
  = EmbSimilarityPrecisionRecallMetric.ordered_data w2 m2 g2 ->
  w1 = w2 /\ m1 = m2 /\ g1 = g2.
Proof.
  unfold EmbSimilarityPrecisionRecallMetric.ordered_data. cbn [app].
  intros Heq. injection Heq as Hm Hg Hw.
  split; [|split; assumption].
  revert Hw. apply map_injective.
  intros [word1 emb1] [word2 emb2] Hwe. cbn [fst snd] in Hwe.
  injection Hwe as Hword Hemb. f_equal; [assumption|].
  revert Hemb. apply map_injective. intros x y Hxy. now injection Hxy.
Qed.

Lemma bleu_init_ordered_hash (dl : LanguageProcessing) (ngram gnpc : Z)
    (k1 k2 : string) (self : BleuPrecisionRecallMetric.t) :
  BleuPrecisionRecallMetric.__init__ dl ngram gnpc k1 k2 = Ok self ->
  ordered_hash (BleuPrecisionRecallMetric.super self)
  = ordered_update
      (ordered_init BleuPrecisionRecallMetric._name BleuPrecisionRecallMetric._version)
      (PList [PInt ngram; PInt gnpc]).
Proof.
  unfold BleuPrecisionRecallMetric.__init__.
  destruct (Z.eqb ngram 0); [discriminate|].
  intros Heq. injection Heq as <-. reflexivity.
Qed.

Lemma emb_init_ordered_hash (dl : LanguageProcessing) (word2vec : word2vec_table)
    (mode : string) (gnpc : Z) (k1 k2 : string)
    (self : EmbSimilarityPrecisionRecallMetric.t) :
  EmbSimilarityPrecisionRecallMetric.__init__ dl word2vec mode gnpc k1 k2 = Ok self ->
  ordered_hash (EmbSimilarityPrecisionRecallMetric.super self)
  = ordered_update
      (ordered_init EmbSimilarityPrecisionRecallMetric._name
                    EmbSimilarityPrecisionRecallMetric._version)
      (EmbSimilarityPrecisionRecallMetric.ordered_data word2vec mode gnpc).
Proof.
  unfold EmbSimilarityPrecisionRecallMetric.__init__.
  destruct (negb (EmbSimilarityPrecisionRecallMetric.embed_shape_ok word2vec));
    [discriminate|].
  destruct (negb (String.eqb mode "avg" || String.eqb mode "extrema"));
    [discriminate|].
  intros Heq. injection Heq as <-. reflexivity.
Qed.

End HashFacts.

(** ** [close] *)

Section CloseFacts.

Context {H : Hasher}.

Import _PrecisionRecallMetric.

(** [close] never touches the two lists nor the hash accumulators. *)
Lemma close_keeps_data (self : metric) :
  let self' := fst (close self) in
  prec_list self' = prec_list self /\ rec_list self' = rec_list self
  /\ unordered_hash self' = unordered_hash self
  /\ ordered_hash self' = ordered_hash self.
Proof.
  unfold close, MetricBase.close, bind, get, throw, ret, modify.
  destruct (is_empty (prec_list self) || is_empty (rec_list self));
    [now cbn|].
  destruct (closed self); now cbn.
Qed.

Lemma is_empty_map {A B : Type} (f : A -> B) (l : list A) :
  is_empty (map f l) = is_empty l.
Proof. now destruct l. Qed.

(** A metric that was just constructed has two empty lists, is not
    finalized, and carries the prefix of its strategy. *)
Lemma bleu_init_fresh {N : Nltk} (dl : LanguageProcessing) (ngram gnpc : Z)
    (k1 k2 : string) (self : BleuPrecisionRecallMetric.t) :
  BleuPrecisionRecallMetric.__init__ dl ngram gnpc k1 k2 = Ok self ->
  prec_list (BleuPrecisionRecallMetric.super self) = []
  /\ rec_list (BleuPrecisionRecallMetric.super self) = []
  /\ closed (BleuPrecisionRecallMetric.super self) = false
  /\ res_prefix (BleuPrecisionRecallMetric.super self)
     = String.append "BLEU-" (py_str ngram).
Proof.
  unfold BleuPrecisionRecallMetric.__init__.
  destruct (Z.eqb ngram 0); [discriminate|].
  intros Heq. injection Heq as <-. now repeat split.
Qed.

Lemma emb_init_fresh (dl : LanguageProcessing) (word2vec : word2vec_table)
    (mode : string) (gnpc : Z) (k1 k2 : string)
    (self : EmbSimilarityPrecisionRecallMetric.t) :
  EmbSimilarityPrecisionRecallMetric.__init__ dl word2vec mode gnpc k1 k2 = Ok self ->
  prec_list (EmbSimilarityPrecisionRecallMetric.super self) = []
  /\ rec_list (EmbSimilarityPrecisionRecallMetric.super self) = []
  /\ closed (EmbSimilarityPrecisionRecallMetric.super self) = false
  /\ res_prefix (EmbSimilarityPrecisionRecallMetric.super self)
     = String.append mode "-bow".
Proof.
  unfold EmbSimilarityPrecisionRecallMetric.__init__.
  destruct (negb (EmbSimilarityPrecisionRecallMetric.embed_shape_ok word2vec));
    [discriminate|].
  destruct (negb (String.eqb mode "avg" || String.eqb mode "extrema"));
    [discriminate|].
  intros Heq. injection Heq as <-. now repeat split.
Qed.

End CloseFacts.

(** ** Floating-point multiplication *)

Section FloatFacts.




End FloatFacts.

(** ** The replacement of the unknown token *)

Section ReplaceUnk.

Lemma nth_error_replace_unk (dl : LanguageProcessing) (_input : sentence)
    (_target : Z) (i : nat) :
  nth_error (BleuPrecisionRecallMetric._replace_unk dl _input _target) i
  = option_map (fun ele => if Z.eqb ele (unk_id dl) then _target else ele)
               (nth_error _input i).
Proof.
  unfold BleuPrecisionRecallMetric._replace_unk. apply nth_error_map.
Qed.

(** An element of the n-gram that starts at [s] is an element of the
    sentence, [s] positions further. *)
Lemma nth_error_ngram_at (n s k : nat) (l : sentence) :
  (k < n)%nat -> nth_error (ngram_at n s l) k = nth_error l (s + k).
Proof.
  intros Hk. unfold ngram_at.
  rewrite nth_error_firstn.
  destruct (Nat.ltb_spec k n) as [_|Hge]; [|lia].
  apply nth_error_skipn.
Qed.

End ReplaceUnk.

(** ** Floating-point facts *)

Section FloatFacts32.

Lemma add32_nan_l (y : np.float32) : np.add32 np.nan32 y = np.nan32.
Proof. reflexivity. Qed.

Lemma add32_nan_r (x : np.float32) : np.add32 x np.nan32 = np.nan32.
Proof. now destruct x. Qed.

(** Adding to [-0.0] changes nothing. *)
Lemma add32_neg_zero_l (x : np.float32) : np.add32 np.neg_zero32 x = x.
Proof. now destruct x as [[|]|[|]| |s m e]. Qed.

Lemma add_neg_zero_l (x : float) : PrimFloat.add (-0)%float x = x.
Proof.
  apply Prim2SF_inj. rewrite FloatAxioms.add_spec.
  change (Prim2SF (-0)%float) with (S754_zero true).
  unfold SF64add. now destruct (Prim2SF x) as [[|]|[|]| |s m e].
Qed.

Lemma to_float32_nan : np.to_float32 nan = np.nan32.
Proof. reflexivity. Qed.

Lemma of_float32_nan : np.of_float32 np.nan32 = nan.
Proof. reflexivity. Qed.

Lemma is_nan32_eq (x : np.float32) : np.is_nan32 x = true -> x = np.nan32.
Proof. now destruct x. Qed.

(** [np.maximum] on [float32] gives [nan] as soon as one argument is. *)
Lemma maximum32_nan_l (y : np.float32) : np.maximum32 np.nan32 y = np.nan32.
Proof. unfold np.maximum32. cbn. now rewrite orb_true_r. Qed.

Lemma maximum32_nan_r (x : np.float32) : np.maximum32 x np.nan32 = np.nan32.
Proof.
  unfold np.maximum32, np.leb32, SFleb. cbn.
  destruct (np.is_nan32 x) eqn:Hx; [now apply is_nan32_eq|reflexivity].
Qed.

(** *** The order of [float32] *)

Lemma leb32_key (x y : np.float32) :
  np.is_nan32 x = false -> np.is_nan32 y = false ->
  (np.leb32 x y = true <-> key_le (order_key x) (order_key y)).
Proof.
  unfold np.leb32, SFleb, key_le.
  destruct x as [sx|sx| |sx mx ex], y as [sy|sy| |sy my ey];
    try discriminate; intros _ _;
    try (destruct sx); try (destruct sy); cbn;
    try (split; [intros _; lia | reflexivity]);
    try (split; [discriminate | lia]).
  - change (Pos.compare_cont Eq mx my) with (Pos.compare mx my).
    destruct (Z.compare_spec ex ey) as [He|He|He]; cbn.
    + destruct (Pos.compare_spec mx my) as [Hm|Hm|Hm]; cbn;
        (split; [try discriminate; intros _; lia | try reflexivity; lia]).
    + split; [discriminate | lia].
    + split; [intros _; lia | reflexivity].
  - change (Pos.compare_cont Eq mx my) with (Pos.compare mx my).
    destruct (Z.compare_spec ex ey) as [He|He|He]; cbn.
    + destruct (Pos.compare_spec mx my) as [Hm|Hm|Hm]; cbn;
        (split; [try discriminate; intros _; lia | try reflexivity; lia]).
    + split; [intros _; lia | reflexivity].
    + split; [discriminate | lia].
Qed.

Lemma leb32_not_nan (x y : np.float32) :
  np.leb32 x y = true -> np.is_nan32 x = false /\ np.is_nan32 y = false.
Proof. now destruct x as [| | |], y as [| | |]. Qed.

Lemma leb32_refl (x : np.float32) : np.is_nan32 x = false -> np.leb32 x x = true.
Proof.
  intros Hx. apply leb32_key; try assumption.
  unfold key_le. destruct (order_key x) as [[a1 a2] a3]. lia.
Qed.

Lemma leb32_total (x y : np.float32) :
  np.is_nan32 x = false -> np.is_nan32 y = false ->
  np.leb32 y x = false -> np.leb32 x y = true.
Proof.
  intros Hx Hy Hyx. apply leb32_key; try assumption.
  destruct (np.leb32 y x) eqn:E; [discriminate|].
  assert (Hn : ~ key_le (order_key y) (order_key x)).
  { intros Hk. apply (leb32_key y x Hy Hx) in Hk. congruence. }
  revert Hn. unfold key_le.
  destruct (order_key x) as [[a1 a2] a3], (order_key y) as [[b1 b2] b3]. lia.
Qed.

Lemma leb32_trans (x y z : np.float32) :
  np.leb32 x y = true -> np.leb32 y z = true -> np.leb32 x z = true.
Proof.
  intros Hxy Hyz.
  destruct (leb32_not_nan _ _ Hxy) as [Hx Hy].
  destruct (leb32_not_nan _ _ Hyz) as [_ Hz].
  apply (leb32_key x y Hx Hy) in Hxy. apply (leb32_key y z Hy Hz) in Hyz.
  apply leb32_key; try assumption. revert Hxy Hyz. unfold key_le.
  destruct (order_key x) as [[a1 a2] a3], (order_key y) as [[b1 b2] b3],
    (order_key z) as [[c1 c2] c3]. lia.
Qed.

End FloatFacts32.

(** ** Sums in floating-point arithmetic *)

Section SumFacts.

Variable A : Type.
Variable add : A -> A -> A.

Lemma float_sum_nonempty (l : list A) (s : A) : float_sum add l s -> l <> [].
Proof.
  induction 1 as [x|l1 l2 l s1 s2 _ IH1 _ _ Hperm]; [discriminate|].
  intros ->. apply Permutation_sym, Permutation_nil in Hperm.
  apply app_eq_nil in Hperm as [Hl1 _]. contradiction.
Qed.

(** A sum of the terms is a sum of the same terms in another order. *)
Lemma float_sum_permutation (l l' : list A) (s : A) :
  Permutation l l' -> float_sum add l s -> float_sum add l' s.
Proof.
  intros Hperm Hsum. destruct Hsum as [x|l1 l2 l s1 s2 H1 H2 Hl].
  - apply Permutation_length_1_inv in Hperm. subst l'. constructor.
  - apply (float_sum_add H1 H2). now transitivity l.
Qed.

Lemma float_sum_app (l1 l2 : list A) (s1 s2 : A) :
  float_sum add l1 s1 -> float_sum add l2 s2 ->
  float_sum add (l1 ++ l2) (add s1 s2).
Proof. intros H1 H2. now apply (float_sum_add H1 H2). Qed.

(** Adding further terms one after the other. *)
Lemma float_sum_fold (v : list A) :
  forall (l : list A) (s : A),
    float_sum add l s -> float_sum add (l ++ v) (fold_left add v s).
Proof.
  induction v as [|x v IH]; intros l s Hs.
  - now rewrite app_nil_r.
  - cbn [fold_left].
    replace (l ++ x :: v) with ((l ++ [x]) ++ v) by now rewrite <- app_assoc.
    apply IH. apply float_sum_app; [exact Hs|constructor].
Qed.

Lemma sum_in_order_float_sum (zero : A) (l : list A) :
  l <> [] -> float_sum add l (sum_in_order add zero l).
Proof.
  destruct l as [|x rest]; [congruence|]. intros _.
  exact (@float_sum_fold rest [x] x (float_sum_one add x)).
Qed.

(** A value that absorbs the addition, as [nan] does, is the sum as soon as
    it is a term. *)
Lemma float_sum_absorbing (bad : A) :
  (forall y, add bad y = bad) -> (forall x, add x bad = bad) ->
  forall (l : list A) (s : A), float_sum add l s -> In bad l -> s = bad.
Proof.
  intros Hl Hr. induction 1 as [x|l1 l2 l s1 s2 _ IH1 _ IH2 Hperm]; intros Hin.
  - destruct Hin as [->|[]]. reflexivity.
  - apply (Permutation_in _ (Permutation_sym Hperm)) in Hin.
    apply in_app_or in Hin as [Hin|Hin].
    + now rewrite (IH1 Hin).
    + now rewrite (IH2 Hin).
Qed.

(** *** numpy's pairwise summation *)

Variables zero neg_zero : A.
Hypothesis add_neg_zero : forall x, add neg_zero x = x.

Lemma sum_small_in_order (v : list A) :
  v <> [] -> np.sum_small add neg_zero v = sum_in_order add zero v.
Proof.
  destruct v as [|x rest]; [congruence|]. intros _.
  unfold np.sum_small. cbn [fold_left sum_in_order]. now rewrite add_neg_zero.
Qed.

Lemma sum_small_float_sum (v : list A) :
  v <> [] -> float_sum add v (np.sum_small add neg_zero v).
Proof.
  intros Hv. rewrite (sum_small_in_order Hv).
  now apply sum_in_order_float_sum.
Qed.

Lemma length_map2_min (f : A -> A -> A) :
  forall u v : list A,
    List.length (np.map2 f u v) = Nat.min (List.length u) (List.length v).
Proof.
  induction u as [|x u IH]; intros [|y v]; cbn; auto.
Qed.

(** The accumulators after one group: each has taken one more term. *)
Lemma accumulate_group :
  forall (ls : list (list A)) (r chunk : list A),
    Forall2 (float_sum add) ls r -> List.length chunk = List.length r ->
    exists ls',
      Forall2 (float_sum add) ls' (np.map2 add r chunk)
      /\ Permutation (List.concat ls') (List.concat ls ++ chunk).
Proof.
  intros ls r chunk Hsum. revert chunk.
  induction Hsum as [|l s ls r Hls _ IH]; intros [|x chunk] Hlen;
    try discriminate.
  - exists []. split; [constructor|reflexivity].
  - cbn in Hlen. injection Hlen as Hlen.
    destruct (IH chunk Hlen) as [ls' [Hsum' Hperm]].
    exists ((l ++ [x]) :: ls'). split.
    + cbn. constructor; [|exact Hsum'].
      apply float_sum_app; [exact Hls|constructor].
    + cbn [List.concat]. rewrite <- !app_assoc. apply Permutation_app_head.
      cbn [app]. rewrite Hperm.
      apply Permutation_middle.
Qed.

Lemma sum_groups_float_sum (groups : nat) :
  forall (ls : list (list A)) (r v : list A),
    Forall2 (float_sum add) ls r -> List.length r = 8%nat ->
    (8 * groups <= List.length v)%nat ->
    List.length (fst (np.sum_groups add groups r v)) = 8%nat
    /\ exists ls',
         Forall2 (float_sum add) ls' (fst (np.sum_groups add groups r v))
         /\ Permutation (List.concat ls' ++ snd (np.sum_groups add groups r v))
                        (List.concat ls ++ v).
Proof.
  induction groups as [|groups IH]; intros ls r v Hsum Hr Hv.
  - split; [exact Hr|]. exists ls. split; [exact Hsum|reflexivity].
  - cbn [np.sum_groups].
    assert (Hchunk : List.length (firstn 8 v) = List.length r).
    { rewrite length_firstn. lia. }
    destruct (@accumulate_group ls r (firstn 8 v) Hsum Hchunk) as [ls1 [Hsum1 Hperm1]].
    destruct (IH ls1 (np.map2 add r (firstn 8 v)) (skipn 8 v) Hsum1)
      as [Hlen [ls' [Hsum' Hperm']]].
    + rewrite length_map2_min, length_firstn. lia.
    + rewrite length_skipn. lia.
    + split; [exact Hlen|]. exists ls'. split; [exact Hsum'|].
      rewrite Hperm', Hperm1, <- app_assoc.
      now rewrite firstn_skipn.
Qed.

Lemma concat_singletons (l : list A) : List.concat (map (fun x => [x]) l) = l.
Proof. induction l as [|x l IH]; [reflexivity|]. cbn. now rewrite IH. Qed.

Lemma singletons_float_sum (l : list A) :
  Forall2 (float_sum add) (map (fun x => [x]) l) l.
Proof. induction l as [|x l IH]; constructor; [constructor|exact IH]. Qed.

(** A block of 8 to 128 elements. *)
Lemma sum_block_float_sum (v : list A) :
  (8 <= List.length v)%nat -> float_sum add v (np.sum_block add zero v).
Proof.
  intros Hn. unfold np.sum_block.
  pose proof (singletons_float_sum (firstn 8 v)) as Hinit.
  assert (Hlen8 : List.length (firstn 8 v) = 8%nat) by (rewrite length_firstn; lia).
  assert (Hgroups : (8 * (List.length v / 8 - 1) <= List.length (skipn 8 v))%nat).
  { rewrite length_skipn.
    pose proof (Nat.div_mod_eq (List.length v) 8). lia. }
  destruct (@sum_groups_float_sum (List.length v / 8 - 1) _ (firstn 8 v)
              (skipn 8 v) Hinit Hlen8 Hgroups)
    as [Hlen [ls [Hsum Hperm]]].
  destruct (np.sum_groups add (List.length v / 8 - 1) (firstn 8 v) (skipn 8 v))
    as [r rest].
  cbn [fst snd] in Hlen, Hsum, Hperm.
  rewrite concat_singletons, firstn_skipn in Hperm.
  do 8 (destruct r as [|? r]; [discriminate|]).
  destruct r; [|discriminate].
  inversion Hsum as [|t0 ? ? ? Ht0 Hs0]; subst; clear Hsum.
  inversion Hs0 as [|t1 ? ? ? Ht1 Hs1]; subst; clear Hs0.
  inversion Hs1 as [|t2 ? ? ? Ht2 Hs2]; subst; clear Hs1.
  inversion Hs2 as [|t3 ? ? ? Ht3 Hs3]; subst; clear Hs2.
  inversion Hs3 as [|t4 ? ? ? Ht4 Hs4]; subst; clear Hs3.
  inversion Hs4 as [|t5 ? ? ? Ht5 Hs5]; subst; clear Hs4.
  inversion Hs5 as [|t6 ? ? ? Ht6 Hs6]; subst; clear Hs5.
  inversion Hs6 as [|t7 ? ? ? Ht7 Hs7]; subst; clear Hs6.
  inversion Hs7; subst; clear Hs7.
  apply (@float_sum_permutation _ _ _ Hperm).
  apply float_sum_fold.
  apply (@float_sum_permutation
           (((t0 ++ t1) ++ (t2 ++ t3)) ++ ((t4 ++ t5) ++ (t6 ++ t7)))).
  { cbn [List.concat]. rewrite app_nil_r, <- !app_assoc. reflexivity. }
  repeat apply float_sum_app; assumption.
Qed.

(** The sum of a non-empty array is a sum of its elements, however long the
    array is and whatever the bound of the recursion. *)
Lemma pairwise_sum_float_sum (fuel : nat) :
  forall v : list A,
    v <> [] -> float_sum add v (np.pairwise_sum add zero neg_zero fuel v).
Proof.
  induction fuel as [|fuel IH]; intros v Hv; cbn [np.pairwise_sum]; cbv zeta.
  - destruct (Nat.ltb_spec (List.length v) 8) as [Hlt|Hge];
      [now apply sum_small_float_sum|].
    destruct (Nat.leb (List.length v) 128); now apply sum_block_float_sum.
  - destruct (Nat.ltb_spec (List.length v) 8) as [Hlt|Hge];
      [now apply sum_small_float_sum|].
    destruct (Nat.leb_spec (List.length v) 128) as [Hle|Hgt];
      [now apply sum_block_float_sum|].
    set (n2 := (List.length v / 2 - (List.length v / 2) mod 8)%nat).
    assert (Hn2 : (0 < n2 < List.length v)%nat).
    { subst n2.
      pose proof (Nat.mod_upper_bound (List.length v / 2) 8).
      pose proof (Nat.div_mod_eq (List.length v) 2).
      pose proof (Nat.mod_upper_bound (List.length v) 2). lia. }
    apply (@float_sum_permutation (firstn n2 v ++ skipn n2 v));
      [now rewrite firstn_skipn|].
    assert (Hfirst : List.length (firstn n2 v) = n2)
      by (rewrite length_firstn; lia).
    assert (Hskip : List.length (skipn n2 v) = (List.length v - n2)%nat)
      by apply length_skipn.
    apply float_sum_app; apply IH.
    + intros E. rewrite E in Hfirst. cbn [List.length] in Hfirst. lia.
    + intros E. rewrite E in Hskip. cbn [List.length] in Hskip. lia.
Qed.

(** The bound of the recursion does not matter once it is the length of the
    array. *)
Lemma pairwise_sum_fuel (fuel : nat) :
  forall (fuel' : nat) (v : list A),
    (List.length v <= fuel)%nat -> (List.length v <= fuel')%nat ->
    np.pairwise_sum add zero neg_zero fuel v
    = np.pairwise_sum add zero neg_zero fuel' v.
Proof.
  induction fuel as [|fuel IH]; intros [|fuel'] v Hf Hf';
    cbn [np.pairwise_sum]; cbv zeta; try reflexivity;
    destruct (Nat.ltb_spec (List.length v) 8) as [Hlt|Hge]; try reflexivity;
    destruct (Nat.leb_spec (List.length v) 128) as [Hle|Hgt]; try reflexivity;
    try lia.
  set (n2 := (List.length v / 2 - (List.length v / 2) mod 8)%nat).
  assert (Hn2 : (0 < n2 < List.length v)%nat).
  { subst n2.
    pose proof (Nat.mod_upper_bound (List.length v / 2) 8).
    pose proof (Nat.div_mod_eq (List.length v) 2).
    pose proof (Nat.mod_upper_bound (List.length v) 2). lia. }
  f_equal; apply IH; rewrite ?length_firstn, ?length_skipn; lia.
Qed.

Lemma add_reduce_float_sum (v : list A) :
  v <> [] -> float_sum add v (np.add_reduce add zero neg_zero v).
Proof.
  intros Hv. unfold np.add_reduce. destruct v as [|x v']; [congruence|].
  rewrite add_neg_zero. now apply pairwise_sum_float_sum.
Qed.

(** Fewer than 8 elements are added in their order. *)
Lemma add_reduce_in_order (v : list A) :
  (List.length v < 8)%nat ->
  np.add_reduce add zero neg_zero v = sum_in_order add zero v.
Proof.
  intros Hlt. unfold np.add_reduce. destruct v as [|x v']; [reflexivity|].
  rewrite add_neg_zero.
  destruct (List.length (x :: v')) eqn:Hn; [discriminate|].
  cbn [np.pairwise_sum]. rewrite Hn in *.
  destruct (Nat.ltb_spec (S n) 8) as [_|Hge]; [|lia].
  now apply sum_small_in_order.
Qed.

End SumFacts.

(** ** What is not a number *)

Section NanFacts.

Lemma Prim2SF_nan_eq (x : float) : Prim2SF x = S754_nan -> x = nan.
Proof. intros Hx. apply Prim2SF_inj. rewrite Hx. reflexivity. Qed.

Lemma add_nan_l (y : float) : PrimFloat.add nan y = nan.
Proof. apply Prim2SF_inj. rewrite FloatAxioms.add_spec. reflexivity. Qed.

Lemma add_nan_r (x : float) : PrimFloat.add x nan = nan.
Proof.
  apply Prim2SF_inj. rewrite FloatAxioms.add_spec.
  change (Prim2SF nan) with S754_nan. unfold SF64add, SFadd.
  now destruct (Prim2SF x) as [[]|[]| |].
Qed.

Lemma div_nan_l (y : float) : PrimFloat.div nan y = nan.
Proof. apply Prim2SF_inj. rewrite FloatAxioms.div_spec. reflexivity. Qed.

Lemma SFcompare_refl (f : spec_float) :
  f <> S754_nan -> SFcompare f f = Some Eq.
Proof.
  destruct f as [[]|[]| |[] m e]; simpl; try congruence;
    intros _; rewrite Z.compare_refl, Pos.compare_cont_refl; reflexivity.
Qed.

(** The only float [isnan] holds of is [nan]. *)
Lemma is_nan_eq (x : float) : PrimFloat.is_nan x = true -> x = nan.
Proof.
  unfold PrimFloat.is_nan. rewrite FloatAxioms.eqb_spec. intros Hx.
  apply Prim2SF_nan_eq.
  destruct (Prim2SF x) as [s|s| |s m e] eqn:E; try reflexivity; exfalso;
    unfold SFeqb in Hx; rewrite SFcompare_refl in Hx by discriminate;
    discriminate.
Qed.

(** [np.sum] and [np.average] of a list that holds [nan]. *)
Lemma sum_In_nan (v : list float) : In nan v -> np.sum v = nan.
Proof.
  intros Hin.
  assert (Hv : v <> []) by (intros ->; destruct Hin).
  apply (@float_sum_absorbing float PrimFloat.add nan add_nan_l add_nan_r v);
    [|exact Hin].
  now apply add_reduce_float_sum; [apply add_neg_zero_l|].
Qed.

Lemma average_In_nan (v : list float) : In nan v -> np.average v = nan.
Proof.
  intros Hin. unfold np.average. rewrite (@sum_In_nan v Hin). apply div_nan_l.
Qed.

Lemma sum32_In_nan (v : list np.float32) :
  In np.nan32 v -> np.sum32 v = np.nan32.
Proof.
  intros Hin.
  assert (Hv : v <> []) by (intros ->; destruct Hin).
  apply (@float_sum_absorbing np.float32 np.add32 np.nan32
           add32_nan_l add32_nan_r v); [|exact Hin].
  now apply add_reduce_float_sum; [apply add32_neg_zero_l|].
Qed.

Lemma fold_maximum32_nan (v : list np.float32) :
  fold_left np.maximum32 v np.nan32 = np.nan32.
Proof.
  induction v as [|x v IH]; [reflexivity|].
  cbn [fold_left]. now rewrite maximum32_nan_l.
Qed.

Lemma fold_maximum32_In_nan (v : list np.float32) :
  In np.nan32 v -> forall acc, fold_left np.maximum32 v acc = np.nan32.
Proof.
  induction v as [|x v IH]; intros Hin acc; [destruct Hin|].
  cbn [fold_left]. destruct Hin as [->|Hin].
  - rewrite maximum32_nan_r. apply fold_maximum32_nan.
  - now apply IH.
Qed.

(** The maximum over [k < n] is [nan] as soon as one [f k] is. *)
Lemma max_over_nan (n : nat) (f : nat -> np.float32) (k : nat) :
  (k < n)%nat -> f k = np.nan32 -> max_over n f = np.nan32.
Proof.
  intros Hk Hf. unfold max_over, np.max_of.
  destruct k as [|k].
  - rewrite Hf. apply fold_maximum32_nan.
  - apply fold_maximum32_In_nan. rewrite <- Hf.
    apply in_map, in_seq. lia.
Qed.

Lemma sum_over_nan (n : nat) (f : nat -> np.float32) (k : nat) :
  (k < n)%nat -> f k = np.nan32 -> sum_over n f = np.nan32.
Proof.
  intros Hk Hf. unfold sum_over. apply sum32_In_nan. rewrite <- Hf.
  apply in_map, in_seq. lia.
Qed.

End NanFacts.

(** ** What numpy computes is what the specification words *)

Section SpecWords.

Lemma existsb_is_nan32 (l : list np.float32) :
  existsb np.is_nan32 l = false -> forall x, In x l -> np.is_nan32 x = false.
Proof.
  intros Hl x Hin. destruct (np.is_nan32 x) eqn:Hx; [|reflexivity].
  rewrite <- Hl. symmetry. apply existsb_exists. now exists x.
Qed.

(** One step of [np.max]: the maximum of the values seen so far, and one
    more value. *)
Lemma greatest_step (l : list np.float32) (acc y : np.float32) :
  greatest l acc -> greatest (l ++ [y]) (np.maximum32 acc y).
Proof.
  unfold greatest. rewrite existsb_app. cbn [existsb]. rewrite orb_false_r.
  destruct (existsb np.is_nan32 l) eqn:Hl; cbn [orb].
  - intros ->. apply maximum32_nan_l.
  - intros [Hin Hall].
    assert (Hacc : np.is_nan32 acc = false) by now apply (existsb_is_nan32 l).
    destruct (np.is_nan32 y) eqn:Hy.
    + apply is_nan32_eq in Hy. subst y. apply maximum32_nan_r.
    + unfold np.maximum32. rewrite Hacc, orb_false_r.
      destruct (np.leb32 y acc) eqn:Hle.
      * split; [apply in_or_app; now left|].
        apply Forall_app. split; [exact Hall|]. now constructor.
      * assert (Hay : np.leb32 acc y = true) by now apply leb32_total.
        split; [apply in_or_app; right; now left|].
        apply Forall_app. split.
        -- revert Hall. apply Forall_impl. intros x Hx.
           now apply (leb32_trans x acc y).
        -- constructor; [now apply leb32_refl|constructor].
Qed.

Lemma greatest_fold (v : list np.float32) :
  forall (l : list np.float32) (acc : np.float32),
    greatest l acc -> greatest (l ++ v) (fold_left np.maximum32 v acc).
Proof.
  induction v as [|y v IH]; intros l acc Hacc.
  - now rewrite app_nil_r.
  - cbn [fold_left].
    replace (l ++ y :: v) with ((l ++ [y]) ++ v) by now rewrite <- app_assoc.
    apply IH. now apply greatest_step.
Qed.

Lemma greatest_one (x : np.float32) : greatest [x] x.
Proof.
  unfold greatest. cbn [existsb]. rewrite orb_false_r.
  destruct (np.is_nan32 x) eqn:Hx; [now apply is_nan32_eq|].
  split; [now left|]. constructor; [now apply leb32_refl|constructor].
Qed.

(** What [np.max] computes is the maximum. *)
Lemma max_over_greatest (n : nat) (f : nat -> np.float32) :
  (0 < n)%nat -> greatest (map f (seq 0 n)) (max_over n f).
Proof.
  intros Hn. destruct n as [|n]; [lia|].
  unfold max_over, np.max_of.
  replace (S n - 1)%nat with n by lia.
  cbn [seq map].
  exact (@greatest_fold (map f (seq 1 n)) [f 0%nat] (f 0%nat) (greatest_one _)).
Qed.

(** What is appended to [prec_list] is the precision contribution of the
    specification, and likewise for [rec_list]. *)
Lemma precision_contribution_spec (R C : nat) (matrix : nat -> nat -> np.float32) :
  (0 < R)%nat -> (0 < C)%nat ->
  is_precision_contribution R C matrix (precision_contribution R C matrix).
Proof.
  intros HR HC. unfold is_precision_contribution, precision_contribution, sum_over.
  set (maxima := map (fun j => max_over R (fun i => matrix i j)) (seq 0 C)).
  assert (Hlen : List.length maxima = C)
    by (subst maxima; now rewrite length_map, length_seq).
  exists maxima, (np.sum32 maxima).
  split; [exact Hlen|]. split; [|split; [|split]].
  - intros j Hj. subst maxima.
    rewrite (nth_map_lt _ (seq 0 C) np.nan32 0%nat) by (rewrite length_seq; lia).
    rewrite seq_nth by lia. cbn [Nat.add].
    now apply (max_over_greatest (fun i => matrix i j)).
  - apply add_reduce_float_sum; [apply add32_neg_zero_l|].
    intros E. rewrite E in Hlen. cbn in Hlen. lia.
  - intros Hlt. apply add_reduce_in_order; [apply add32_neg_zero_l|].
    now rewrite Hlen.
  - reflexivity.
Qed.

Lemma recall_contribution_spec (R C : nat) (matrix : nat -> nat -> np.float32) :
  (0 < R)%nat -> (0 < C)%nat ->
  is_recall_contribution R C matrix (recall_contribution R C matrix).
Proof.
  intros HR HC.
  exact (@precision_contribution_spec C R (fun j i => matrix i j) HC HR).
Qed.

(** [np.average] of a non-empty list is its arithmetic mean. *)
Lemma average_is_mean (l : list float) : l <> [] -> is_mean l (np.average l).
Proof.
  intros Hl. exists (np.sum l). split; [|split].
  - now apply add_reduce_float_sum; [apply add_neg_zero_l|].
  - intros Hlt. now apply add_reduce_in_order; [apply add_neg_zero_l|].
  - reflexivity.
Qed.

(** The mean of two values. *)
Lemma is_mean_two (a b m : float) :
  is_mean [a; b] m -> m = PrimFloat.div (PrimFloat.add a b) 2%float.
Proof.
  intros [s [_ [Hs ->]]]. rewrite Hs by (cbn; lia). reflexivity.
Qed.

End SpecWords.


(** ** [close] on a metric that has contributions *)

Section CloseReady.

Context {H : Hasher}.

Lemma is_empty_In {A : Type} (x : A) (l : list A) : In x l -> is_empty l = false.
Proof. destruct l; [intros []|reflexivity]. Qed.

Lemma is_empty_false {A : Type} (l : list A) : l <> [] -> is_empty l = false.
Proof. destruct l; [congruence|reflexivity]. Qed.

(** [close] on an object that is not finalized and has contributions. *)
Lemma close_ready (self : metric) :
  closed self = false ->
  is_empty (prec_list self) = false -> is_empty (rec_list self) = false ->
  _PrecisionRecallMetric.close self
  = (with_closed true self,
     Ok [ (String.append (res_prefix self) " precision",
           RFloat (np.average (prec_list self)));
          (String.append (res_prefix self) " recall",
           RFloat (np.average (rec_list self)));
          (String.append (res_prefix self) " hashvalue",
           RHash (MetricBase._hashvalue self)) ]).
Proof.
  intros Hopen Hp Hr.
  unfold _PrecisionRecallMetric.close, MetricBase.close, bind, get, throw, ret, modify.
  rewrite Hp, Hr. cbn. rewrite Hopen. reflexivity.
Qed.

(** [close] on an object without contributions. *)
Lemma close_not_ready (self : metric) :
  prec_list self = [] \/ rec_list self = [] ->
  _PrecisionRecallMetric.close self
  = (self, Raise (RuntimeError _PrecisionRecallMetric.not_ready_msg)).
Proof.
  intros Hempty.
  unfold _PrecisionRecallMetric.close, bind, get, throw.
  destruct Hempty as [-> | ->]; cbn [is_empty orb]; [reflexivity|].
  now rewrite orb_true_r.
Qed.

(** [close] on a finalized object that has contributions. *)
Lemma close_closed (self : metric) :
  closed self = true ->
  is_empty (prec_list self) = false -> is_empty (rec_list self) = false ->
  _PrecisionRecallMetric.close self
  = (self, Raise (RuntimeError MetricBase.closed_msg)).
Proof.
  intros Hclosed Hp Hr.
  unfold _PrecisionRecallMetric.close, MetricBase.close, bind, get, throw, ret, modify.
  rewrite Hp, Hr. cbn. rewrite Hclosed. reflexivity.
Qed.

End CloseReady.

(** * The claims *)

(** C1. For an instance with [R >= 1] references and [C >= 1] generated
    sentences, whose score matrix is [matrix[i][j] = _score(gen[j],
    reference[i])] stored in [float32], the loop body appends
    [(sum over j of max over i of matrix[i][j]) / C] to [prec_list] and
    [(sum over i of max over j of matrix[i][j]) / R] to [rec_list], and
    changes nothing else. The maxima are the greatest cells of the columns
    (of the rows), they are added in [float32], in their order when there
    are fewer than 8 of them, and the division is one of Python floats. *)
Theorem forward_instance_contributions {H : Hasher}
    (_score : sentence -> sentence -> float)
    (reference gen : list sentence) (self : metric) :
  reference <> [] -> gen <> [] ->
  exists p r : float,
    _PrecisionRecallMetric.forward_instance _score reference gen self
    = (appended self [p] [r], Ok tt)
    /\ is_precision_contribution (List.length reference) (List.length gen)
         (stored _score reference gen) p
    /\ is_recall_contribution (List.length reference) (List.length gen)
         (stored _score reference gen) r.
Proof.
  intros Href Hgen.
  assert (HR : (0 < List.length reference)%nat)
    by (destruct reference; [congruence|cbn; lia]).
  assert (HC : (0 < List.length gen)%nat)
    by (destruct gen; [congruence|cbn; lia]).
  exists (instance_precision _score (reference, gen)),
         (instance_recall _score (reference, gen)).
  split; [now apply forward_instance_scored|]. split.
  - now apply precision_contribution_spec.
  - now apply recall_contribution_spec.
Qed.

(** C1 on an instance with two references and two generated sentences: the
    scores are [1/3, 0] and [0, 1/3], and both contributions are the
    [float32] nearest to [1/3]. *)
Lemma forward_instance_contributions_witness :
  let score := BleuPrecisionRecallMetric._score (N := Fixture.nltk) Fixture.bleu in
  let self := BleuPrecisionRecallMetric.super Fixture.bleu in
  let reference := [[64; 851]; [48; 851]] in
  let gen := [[10; 64; 479]; [10; 48; 2019]] in
  reference <> [] /\ gen <> []
  /\ exists p r : float,
       _PrecisionRecallMetric.forward_instance score reference gen self
       = (appended self [p] [r], Ok tt)
       /\ is_precision_contribution 2 2 (stored score reference gen) p
       /\ is_recall_contribution 2 2 (stored score reference gen) r
       /\ p = 0x1.555556p-2%float /\ r = 0x1.555556p-2%float.
Proof.
  cbv zeta.
  assert (Href : [[64; 851]; [48; 851]] <> ([] : list sentence)) by discriminate.
  assert (Hgen : [[10; 64; 479]; [10; 48; 2019]] <> ([] : list sentence))
    by discriminate.
  split; [exact Href|]. split; [exact Hgen|].
  destruct (@forward_instance_contributions Fixture.hasher
              (BleuPrecisionRecallMetric._score (N := Fixture.nltk) Fixture.bleu)
              [[64; 851]; [48; 851]] [[10; 64; 479]; [10; 48; 2019]]
              (BleuPrecisionRecallMetric.super Fixture.bleu) Href Hgen)
    as [p [r [Hfwd [Hp Hr]]]].
  exists p, r. split; [exact Hfwd|]. split; [exact Hp|]. split; [exact Hr|].
  apply (f_equal (fun res => (prec_list (fst res), rec_list (fst res)))) in Hfwd.
  vm_compute in Hfwd. injection Hfwd as Hp' Hr'.
  split; congruence.
Defined.

(** C2. The references that [forward] folds into the hash and passes to the
    scoring loop are the references of the batch without their first token,
    then trimmed by [trim_in_ids]: [forward] cuts the first token of every
    reference off ([cand[1:]]), whatever it is, and [trim_in_ids] never sees
    it. The generated sentences are trimmed whole. *)
Theorem forward_drops_first_reference_token {H : Hasher}
    (_score : sentence -> sentence -> float) (self : metric) (data : batch)
    (candidate_allvocabs multiple_gen : list (list sentence)) :
  closed self = false ->
  sequence_under data (candidate_allvocabs_key self) = Some candidate_allvocabs ->
  sequence_under data (multiple_gen_key self) = Some multiple_gen ->
  passes_validation self data = true ->
  let references :=
    map (map (fun cand => trim_in_ids (dataloader self) (tl cand)))
        candidate_allvocabs in
  let gens := map (map (trim_in_ids (dataloader self))) multiple_gen in
  _PrecisionRecallMetric.forward _score data self
  = _PrecisionRecallMetric.forward_loop _score (combine references gens)
      (hashed self (List.concat references)).
Proof.
  intros Hopen Hca Hmg Hvalid. cbv zeta.
  rewrite (forward_accepted _score data self Hopen Hvalid).
  unfold batch_pairs, hashed_references. rewrite Hca, Hmg. reflexivity.
Qed.

(** C2 on the example of the docstring of [BleuPrecisionRecallMetric]. *)
Lemma forward_drops_first_reference_token_witness :
  let self := BleuPrecisionRecallMetric.super Fixture.bleu in
  let score := BleuPrecisionRecallMetric._score (N := Fixture.nltk) Fixture.bleu in
  closed self = false
  /\ sequence_under Fixture.data (candidate_allvocabs_key self)
     = Some [[[10; 64; 851]; [10; 48; 851]]]
  /\ sequence_under Fixture.data (multiple_gen_key self)
     = Some [[[10; 64; 479; 3]; [10; 48; 2019; 3]]]
  /\ passes_validation self Fixture.data = true
  /\ _PrecisionRecallMetric.forward score Fixture.data self
     = _PrecisionRecallMetric.forward_loop score
         [([[64; 851]; [48; 851]], [[10; 64; 479]; [10; 48; 2019]])]
         (hashed self [[64; 851]; [48; 851]]).
Proof.
  cbv zeta. do 4 (split; [reflexivity|]).
  exact (@forward_drops_first_reference_token Fixture.hasher
           (BleuPrecisionRecallMetric._score (N := Fixture.nltk) Fixture.bleu)
           (BleuPrecisionRecallMetric.super Fixture.bleu) Fixture.data
           [[[10; 64; 851]; [10; 48; 851]]]
           [[[10; 64; 479; 3]; [10; 48; 2019; 3]]]
           eq_refl eq_refl eq_refl eq_refl).
Defined.

(** On the example of the docstring, whose references are [10 64 851] and
    [10 48 851], [trim_in_ids] applied to the whole references keeps their
    first token [10], but the references that are hashed and scored are
    [64 851] and [48 851]; and references with another first token give the
    same object and the same outcome. *)
Lemma first_reference_token_takes_no_part :
  let self := BleuPrecisionRecallMetric.super Fixture.bleu in
  let score := BleuPrecisionRecallMetric._score (N := Fixture.nltk) Fixture.bleu in
  map (trim_in_ids Fixture.dl) (input_references self Fixture.data)
  = [[10; 64; 851]; [10; 48; 851]]
  /\ hashed_references self Fixture.data = [[64; 851]; [48; 851]]
  /\ map fst (batch_pairs self Fixture.data) = [[[64; 851]; [48; 851]]]
  /\ _PrecisionRecallMetric.forward score Fixture.data self
     = _PrecisionRecallMetric.forward_loop score
         [([[64; 851]; [48; 851]], [[10; 64; 479]; [10; 48; 2019]])]
         (hashed self [[64; 851]; [48; 851]])
  /\ _PrecisionRecallMetric.forward score Fixture.data self
     = _PrecisionRecallMetric.forward score
         [ ("candidate_allvocabs", Sequence [[[2; 64; 851]; [7; 48; 851]]]);
           ("multiple_gen", Sequence [[[10; 64; 479; 3]; [10; 48; 2019; 3]]]) ]
         self.
Proof.
  cbv zeta. do 3 (split; [reflexivity|]). split.
  - rewrite forward_accepted by reflexivity. reflexivity.
  - rewrite !forward_accepted by reflexivity. reflexivity.
Qed.

(** C3. After any sequence of calls of [forward] on a freshly constructed
    metric, [close] raises the not-ready error exactly when no instance was
    ever scored; otherwise it returns the arithmetic mean of the precision
    contributions of all the scored instances, the mean of their recall
    contributions and the fingerprint, under the keys [<prefix> precision],
    [<prefix> recall] and [<prefix> hashvalue]. Each scored instance counts
    once, whatever batch brought it. The mean is a sum of the contributions,
    in their order when there are fewer than 8, divided by their number. *)
Theorem close_after_forwarding {H : Hasher}
    (_score : sentence -> sentence -> float)
    (batches : list batch) (self0 : metric) :
  prec_list self0 = [] -> rec_list self0 = [] -> closed self0 = false ->
  let self := run _score batches self0 in
  let scored := flat_map (scored_instances self0) batches in
  prec_list self = map (instance_precision _score) scored
  /\ rec_list self = map (instance_recall _score) scored
  /\ (scored = [] ->
      _PrecisionRecallMetric.close self
      = (self, Raise (RuntimeError "The metric has not been forwarded data correctly.")))
  /\ (scored <> [] ->
      exists precision recall : float,
        _PrecisionRecallMetric.close self
        = (with_closed true self,
           Ok [ (String.append (res_prefix self0) " precision", RFloat precision);
                (String.append (res_prefix self0) " recall", RFloat recall);
                (String.append (res_prefix self0) " hashvalue",
                 RHash (MetricBase._hashvalue self)) ])
        /\ is_mean (prec_list self) precision
        /\ is_mean (rec_list self) recall).
Proof.
  intros Hprec Hrec Hopen self scored.
  assert (Hp : prec_list self = map (instance_precision _score) scored).
  { unfold self. rewrite run_state. cbn. now rewrite Hprec. }
  assert (Hr : rec_list self = map (instance_recall _score) scored).
  { unfold self. rewrite run_state. cbn. now rewrite Hrec. }
  assert (Hopen' : closed self = false).
  { unfold self. rewrite run_state. exact Hopen. }
  assert (Hpre : res_prefix self = res_prefix self0).
  { unfold self. rewrite run_state. reflexivity. }
  split; [exact Hp|]. split; [exact Hr|]. split.
  - intros Hnone. apply close_not_ready. left. now rewrite Hp, Hnone.
  - intros Hsome.
    assert (Hp' : prec_list self <> []).
    { rewrite Hp. intros E. apply map_eq_nil in E. contradiction. }
    assert (Hr' : rec_list self <> []).
    { rewrite Hr. intros E. apply map_eq_nil in E. contradiction. }
    exists (np.average (prec_list self)), (np.average (rec_list self)).
    split; [|split; now apply average_is_mean].
    rewrite <- Hpre.
    apply close_ready; [exact Hopen' | |]; now apply is_empty_false.
Qed.

(** C3 after two batches of one instance each: the two contributions are
    [float32] sums halved, about [1/3] and about [5/6], and the reported
    precision is their sum as Python floats divided by 2. *)
Lemma close_after_forwarding_witness :
  let score := BleuPrecisionRecallMetric._score (N := Fixture.nltk) Fixture.bleu in
  let self0 := BleuPrecisionRecallMetric.super Fixture.bleu in
  let self := run score [Fixture.data; Fixture.data2] self0 in
  prec_list self0 = [] /\ rec_list self0 = [] /\ closed self0 = false
  /\ prec_list self = [0x1.555556p-2%float; 0x1.aaaaacp-1%float]
  /\ rec_list self = [0x1.555556p-2%float; 0x1.aaaaacp-1%float]
  /\ exists precision recall : float,
       _PrecisionRecallMetric.close self
       = (with_closed true self,
          Ok [ ("BLEU-2 precision", @RFloat Fixture.hasher precision);
               ("BLEU-2 recall", RFloat recall);
               ("BLEU-2 hashvalue",
                @RHash Fixture.hasher
                  ([PStr "BleuPrecisionRecallMetric"; PInt 2; PList [PInt 2; PInt 2]],
                   28180)) ])
       /\ is_mean (prec_list self) precision
       /\ is_mean (rec_list self) recall
       /\ precision = 0x1.2aaaab8p-1%float
       /\ recall = 0x1.2aaaab8p-1%float
       /\ precision
          = PrimFloat.div (PrimFloat.add 0x1.555556p-2 0x1.aaaaacp-1) 2.
Proof.
  cbv zeta.
  destruct (@close_after_forwarding Fixture.hasher
              (BleuPrecisionRecallMetric._score (N := Fixture.nltk) Fixture.bleu)
              [Fixture.data; Fixture.data2]
              (BleuPrecisionRecallMetric.super Fixture.bleu)
              eq_refl eq_refl eq_refl) as [_ [_ [_ Hclose]]].
  destruct Hclose as [precision [recall [Hclose [Hp Hr]]]];
    [vm_compute; discriminate|].
  do 3 (split; [reflexivity|]).
  split; [vm_compute; reflexivity|]. split; [vm_compute; reflexivity|].
  exists precision, recall.
  split; [exact Hclose|]. split; [exact Hp|]. split; [exact Hr|].
  apply (f_equal (fun res => match snd res with
                             | Ok [(_, RFloat x); (_, RFloat y); _] => (x, y)
                             | _ => (nan, nan)
                             end)) in Hclose.
  vm_compute in Hclose. injection Hclose as Hprecision Hrecall.
  split; [congruence|]. split; [congruence|].
  rewrite <- Hprecision. vm_compute. reflexivity.
Defined.

(** C4. A batch with a collection of an unacceptable type, with two
    collections of different lengths, or with an instance whose number of
    generated sentences is not [generated_num_per_context], makes [forward]
    raise; the error does not depend on the scoring function, which is not
    consulted, and the object (lists, hash accumulators) is exactly as it
    was before the call. *)
Theorem forward_rejects_malformed {H : Hasher} (self : metric) (data : batch) :
  malformed self data ->
  exists e, forall _score,
    _PrecisionRecallMetric.forward _score data self = (self, Raise e).
Proof.
  intros Hbad. apply forward_rejected.
  unfold passes_validation, sequence_under.
  destruct Hbad as [mg H1 H2 | ca H1 H2 | ca mg H1 H2 Hlen | ca mg line H1 H2 Hin Hcount];
    rewrite H1, ?H2.
  - reflexivity.
  - now destruct ca.
  - apply Nat.eqb_neq in Hlen. now rewrite Hlen.
  - apply andb_false_iff. right.
    destruct (forallb _ mg) eqn:Hall; [|reflexivity].
    rewrite forallb_forall in Hall. apply Hall in Hin.
    apply Z.eqb_eq in Hin. contradiction.
Qed.

(** C4 on a batch with two instances of references and one of generated
    sentences. *)
Lemma forward_rejects_malformed_witness :
  malformed (BleuPrecisionRecallMetric.super Fixture.bleu) Fixture.data_length_mismatch
  /\ exists e, forall _score,
       _PrecisionRecallMetric.forward _score Fixture.data_length_mismatch
         (BleuPrecisionRecallMetric.super Fixture.bleu)
       = (BleuPrecisionRecallMetric.super Fixture.bleu, Raise e).
Proof.
  assert (Hbad : malformed (BleuPrecisionRecallMetric.super Fixture.bleu)
                   Fixture.data_length_mismatch).
  { apply batch_length_mismatch
      with (candidate_allvocabs := [[[10; 64; 851]]; [[10; 48; 851]]])
           (multiple_gen := [[[10; 64; 479; 3]; [10; 48; 2019; 3]]]);
      [reflexivity | reflexivity | simpl; lia]. }
  split; [exact Hbad|].
  exact (forward_rejects_malformed Hbad).
Defined.


(** C5. The fingerprint [_hashvalue] after a run, with the hashing of
    [MetricBase] modelled from the specification.
    - Two n-gram metrics constructed with the same [ngram] and the same
      [generated_num_per_context] on one dataloader, and two embedding
      metrics constructed with the same table, entries in the same order,
      the same mode and the same [generated_num_per_context], have the same
      fingerprint after two runs whose batches all pass the checks and bring
      the same references up to their order and their split into batches,
      whatever the generated sentences, the scores and the keys are.
    - When the hasher has no collisions, two n-gram metrics that differ in
      [ngram] or [generated_num_per_context], and two embedding metrics
      that differ in the table, the mode or [generated_num_per_context],
      have different fingerprints, whatever is forwarded to them; a table
      with the same entries in another order is a different table. *)
Theorem fingerprint_properties {H : Hasher} {N : Nltk} :
  (forall dl ngram gnpc k1 k2 k1' k2' self1 self2 score1 score2 batches1 batches2,
      BleuPrecisionRecallMetric.__init__ dl ngram gnpc k1 k2 = Ok self1 ->
      BleuPrecisionRecallMetric.__init__ dl ngram gnpc k1' k2' = Ok self2 ->
      forallb (passes_validation (BleuPrecisionRecallMetric.super self1)) batches1
      = true ->
      forallb (passes_validation (BleuPrecisionRecallMetric.super self2)) batches2
      = true ->
      Permutation
        (flat_map (input_references (BleuPrecisionRecallMetric.super self1)) batches1)
        (flat_map (input_references (BleuPrecisionRecallMetric.super self2)) batches2) ->
      MetricBase._hashvalue
        (run score1 batches1 (BleuPrecisionRecallMetric.super self1))
      = MetricBase._hashvalue
          (run score2 batches2 (BleuPrecisionRecallMetric.super self2)))
  /\ (forall dl word2vec mode gnpc k1 k2 k1' k2' self1 self2 score1 score2
             batches1 batches2,
         EmbSimilarityPrecisionRecallMetric.__init__ dl word2vec mode gnpc k1 k2
         = Ok self1 ->
         EmbSimilarityPrecisionRecallMetric.__init__ dl word2vec mode gnpc k1' k2'
         = Ok self2 ->
         forallb (passes_validation (EmbSimilarityPrecisionRecallMetric.super self1))
                 batches1 = true ->
         forallb (passes_validation (EmbSimilarityPrecisionRecallMetric.super self2))
                 batches2 = true ->
         Permutation
           (flat_map (input_references (EmbSimilarityPrecisionRecallMetric.super self1))
                     batches1)
           (flat_map (input_references (EmbSimilarityPrecisionRecallMetric.super self2))
                     batches2) ->
         MetricBase._hashvalue
           (run score1 batches1 (EmbSimilarityPrecisionRecallMetric.super self1))
         = MetricBase._hashvalue
             (run score2 batches2 (EmbSimilarityPrecisionRecallMetric.super self2)))
  /\ (collision_free ->
      (forall dl1 dl2 ngram1 ngram2 gnpc1 gnpc2 k1 k2 k1' k2' self1 self2
              score1 score2 batches1 batches2,
          BleuPrecisionRecallMetric.__init__ dl1 ngram1 gnpc1 k1 k2 = Ok self1 ->
          BleuPrecisionRecallMetric.__init__ dl2 ngram2 gnpc2 k1' k2' = Ok self2 ->
          (ngram1, gnpc1) <> (ngram2, gnpc2) ->
          MetricBase._hashvalue
            (run score1 batches1 (BleuPrecisionRecallMetric.super self1))
          <> MetricBase._hashvalue
               (run score2 batches2 (BleuPrecisionRecallMetric.super self2)))
      /\ (forall dl1 dl2 word2vec1 word2vec2 mode1 mode2 gnpc1 gnpc2 k1 k2 k1' k2'
                 self1 self2 score1 score2 batches1 batches2,
             EmbSimilarityPrecisionRecallMetric.__init__ dl1 word2vec1 mode1 gnpc1 k1 k2
             = Ok self1 ->
             EmbSimilarityPrecisionRecallMetric.__init__ dl2 word2vec2 mode2 gnpc2 k1' k2'
             = Ok self2 ->
             (word2vec1, mode1, gnpc1) <> (word2vec2, mode2, gnpc2) ->
             MetricBase._hashvalue
               (run score1 batches1 (EmbSimilarityPrecisionRecallMetric.super self1))
             <> MetricBase._hashvalue
                  (run score2 batches2 (EmbSimilarityPrecisionRecallMetric.super self2)))).
Proof.
  assert (Hsame :
    forall (self1 self2 : metric) score1 score2 batches1 batches2,
      closed self1 = false -> closed self2 = false ->
      ordered_hash self1 = ordered_hash self2 ->
      unordered_hash self1 = unordered_hash self2 ->
      dataloader self1 = dataloader self2 ->
      forallb (passes_validation self1) batches1 = true ->
      forallb (passes_validation self2) batches2 = true ->
      Permutation (flat_map (input_references self1) batches1)
                  (flat_map (input_references self2) batches2) ->
      MetricBase._hashvalue (run score1 batches1 self1)
      = MetricBase._hashvalue (run score2 batches2 self2)).
  { intros self1 self2 score1 score2 batches1 batches2
      Hopen1 Hopen2 Ho Hu Hdl Hv1 Hv2 Hperm.
    rewrite !run_hashvalue, Ho, Hu. f_equal.
    rewrite !folded_references_input by assumption. rewrite Hdl.
    apply fold_digests_permutation. now apply Permutation_map. }
  split; [|split].
  - intros dl ngram gnpc k1 k2 k1' k2' self1 self2 score1 score2
      batches1 batches2 Hinit1 Hinit2.
    apply Hsame.
    + now destruct (bleu_init_fresh _ _ _ _ _ Hinit1) as [_ [_ [Hc _]]].
    + now destruct (bleu_init_fresh _ _ _ _ _ Hinit2) as [_ [_ [Hc _]]].
    + now rewrite (bleu_init_ordered_hash _ _ _ _ _ Hinit1),
        (bleu_init_ordered_hash _ _ _ _ _ Hinit2).
    + unfold BleuPrecisionRecallMetric.__init__ in Hinit1, Hinit2.
      destruct (Z.eqb ngram 0); [discriminate|].
      injection Hinit1 as <-. injection Hinit2 as <-. reflexivity.
    + unfold BleuPrecisionRecallMetric.__init__ in Hinit1, Hinit2.
      destruct (Z.eqb ngram 0); [discriminate|].
      injection Hinit1 as <-. injection Hinit2 as <-. reflexivity.
  - intros dl word2vec mode gnpc k1 k2 k1' k2' self1 self2 score1 score2
      batches1 batches2 Hinit1 Hinit2.
    apply Hsame.
    + now destruct (emb_init_fresh _ _ _ _ _ _ Hinit1) as [_ [_ [Hc _]]].
    + now destruct (emb_init_fresh _ _ _ _ _ _ Hinit2) as [_ [_ [Hc _]]].
    + now rewrite (emb_init_ordered_hash _ _ _ _ _ _ Hinit1),
        (emb_init_ordered_hash _ _ _ _ _ _ Hinit2).
    + unfold EmbSimilarityPrecisionRecallMetric.__init__ in Hinit1, Hinit2.
      destruct (negb (EmbSimilarityPrecisionRecallMetric.embed_shape_ok word2vec));
        [discriminate|].
      destruct (negb (String.eqb mode "avg" || String.eqb mode "extrema"));
        [discriminate|].
      injection Hinit1 as <-. injection Hinit2 as <-. reflexivity.
    + unfold EmbSimilarityPrecisionRecallMetric.__init__ in Hinit1, Hinit2.
      destruct (negb (EmbSimilarityPrecisionRecallMetric.embed_shape_ok word2vec));
        [discriminate|].
      destruct (negb (String.eqb mode "avg" || String.eqb mode "extrema"));
        [discriminate|].
      injection Hinit1 as <-. injection Hinit2 as <-. reflexivity.
  - intros [Hupdate Hdigest]. split.
    + intros dl1 dl2 ngram1 ngram2 gnpc1 gnpc2 k1 k2 k1' k2' self1 self2
        score1 score2 batches1 batches2 Hinit1 Hinit2 Hdiff Heq.
      rewrite !run_hashvalue in Heq. apply Hdigest in Heq.
      rewrite (bleu_init_ordered_hash _ _ _ _ _ Hinit1),
              (bleu_init_ordered_hash _ _ _ _ _ Hinit2) in Heq.
      apply Hupdate in Heq. injection Heq as Hn Hg. apply Hdiff. congruence.
    + intros dl1 dl2 word2vec1 word2vec2 mode1 mode2 gnpc1 gnpc2 k1 k2 k1' k2'
        self1 self2 score1 score2 batches1 batches2 Hinit1 Hinit2 Hdiff Heq.
      rewrite !run_hashvalue in Heq. apply Hdigest in Heq.
      rewrite (emb_init_ordered_hash _ _ _ _ _ _ Hinit1),
              (emb_init_ordered_hash _ _ _ _ _ _ Hinit2) in Heq.
      apply Hupdate, ordered_data_injective in Heq.
      destruct Heq as [Hw [Hm Hg]]. apply Hdiff. congruence.
Qed.

(** C5 with the hasher of the fixture: two n-gram metrics with the same
    [ngram] and [generated_num_per_context] but different keys, forwarded
    the same references in two batches in both orders and with other
    generated sentences, and two n-gram metrics that differ in [ngram]. *)
Lemma fingerprint_properties_witness :
  let bleu' :=
    match BleuPrecisionRecallMetric.__init__ (H := Fixture.hasher) Fixture.dl 2 2
            "references" "generated" with
    | Ok self => self
    | Raise _ => Fixture.bleu
    end in
  let data' := [ ("references", Sequence [[[10; 64; 851]; [10; 48; 851]]]);
                 ("generated", Sequence [[[4; 3]; [5; 3]]]) ] in
  let data2' := [ ("references", Sequence [[[10; 64; 479]; [10; 48]]]);
                  ("generated", Sequence [[[6; 3]; [7; 3]]]) ] in
  @collision_free Fixture.hasher
  /\ MetricBase._hashvalue
       (run (BleuPrecisionRecallMetric._score (N := Fixture.nltk) Fixture.bleu)
            [Fixture.data; Fixture.data2]
            (BleuPrecisionRecallMetric.super Fixture.bleu))
     = MetricBase._hashvalue
         (run (BleuPrecisionRecallMetric._score (N := Fixture.nltk) bleu')
              [data2'; data'] (BleuPrecisionRecallMetric.super bleu'))
  /\ MetricBase._hashvalue
       (run (BleuPrecisionRecallMetric._score (N := Fixture.nltk) Fixture.bleu)
            [Fixture.data] (BleuPrecisionRecallMetric.super Fixture.bleu))
     <> MetricBase._hashvalue
          (run (BleuPrecisionRecallMetric._score (N := Fixture.nltk) Fixture.bleu3)
               [Fixture.data] (BleuPrecisionRecallMetric.super Fixture.bleu3)).
Proof.
  cbv zeta.
  assert (Hfree : @collision_free Fixture.hasher).
  { split.
    - intros o v1 v2 Heq. apply app_inv_head in Heq. now injection Heq.
    - intros o1 o2 u1 u2 Heq. now injection Heq. }
  destruct (@fingerprint_properties Fixture.hasher Fixture.nltk)
    as [Hsame [_ Hconfig]].
  split; [exact Hfree|]. split.
  - apply (Hsame Fixture.dl 2 2 "candidate_allvocabs" "multiple_gen"
                 "references" "generated");
      [reflexivity | reflexivity | reflexivity | reflexivity |].
    exact (Permutation_app_comm [[10; 64; 851]; [10; 48; 851]]
                                [[10; 64; 479]; [10; 48]]).
  - destruct (Hconfig Hfree) as [Hbleu _].
    apply (Hbleu Fixture.dl Fixture.dl 2 3 2 2
                 "candidate_allvocabs" "multiple_gen"
                 "candidate_allvocabs" "multiple_gen");
      [reflexivity | reflexivity | discriminate].
Defined.

(** Two embedding tables that are equal as dicts, the same entries in
    another insertion order, give two metrics with different fingerprints:
    the table is hashed in the order of its entries. *)
Lemma fingerprint_depends_on_table_order :
  let score := EmbSimilarityPrecisionRecallMetric._score Fixture.emb in
  let score' := EmbSimilarityPrecisionRecallMetric._score Fixture.emb_reordered in
  Permutation Fixture.opposite_table Fixture.opposite_table_reordered
  /\ NoDup (map fst Fixture.opposite_table)
  /\ EmbSimilarityPrecisionRecallMetric.__init__ (H := Fixture.hasher) Fixture.dl
       Fixture.opposite_table "avg" 1 "candidate_allvocabs" "multiple_gen"
     = Ok Fixture.emb
  /\ EmbSimilarityPrecisionRecallMetric.__init__ (H := Fixture.hasher) Fixture.dl
       Fixture.opposite_table_reordered "avg" 1 "candidate_allvocabs" "multiple_gen"
     = Ok Fixture.emb_reordered
  /\ score [4; 5] [4] = score' [4; 5] [4]
  /\ MetricBase._hashvalue
       (run score [Fixture.emb_data]
            (EmbSimilarityPrecisionRecallMetric.super Fixture.emb))
     <> MetricBase._hashvalue
          (run score' [Fixture.emb_data]
               (EmbSimilarityPrecisionRecallMetric.super Fixture.emb_reordered)).
Proof.
  cbv zeta. split; [apply perm_swap|].
  split; [repeat constructor; cbn; intuition discriminate|].
  split; [reflexivity|]. split; [reflexivity|].
  split; [vm_compute; reflexivity|].
  vm_compute. discriminate.
Qed.

(** C6. After a first [close] that returned a result, a second [close]
    fails, and so does every [forward]: the inherited part rejects a call on
    a finalized metric. It does not fail because anything was consumed:
    [close] leaves the two lists, which are not empty, and the hash
    accumulators as they are, and the error is not the not-ready error. *)
Theorem second_close_outcome {H : Hasher}
    (self self' : metric) (res : list (string * resval)) :
  _PrecisionRecallMetric.close self = (self', Ok res) ->
  prec_list self' = prec_list self /\ rec_list self' = rec_list self
  /\ unordered_hash self' = unordered_hash self
  /\ ordered_hash self' = ordered_hash self
  /\ prec_list self' <> [] /\ rec_list self' <> []
  /\ _PrecisionRecallMetric.close self'
     = (self', Raise (RuntimeError "The metric has been closed."))
  /\ forall _score data,
       _PrecisionRecallMetric.forward _score data self'
       = (self', Raise (RuntimeError "The metric has been closed.")).
Proof.
  unfold _PrecisionRecallMetric.close, MetricBase.close,
    bind, get, throw, ret, modify.
  destruct (is_empty (prec_list self) || is_empty (rec_list self)) eqn:Hempty;
    [discriminate|].
  destruct (closed self) eqn:Hclosed; [discriminate|].
  cbn. intros Heq. injection Heq as <- <-.
  cbn. rewrite Hempty. apply orb_false_elim in Hempty as [Hp Hr].
  repeat split.
  - intros E. now rewrite E in Hp.
  - intros E. now rewrite E in Hr.
Qed.

(** C6 after one batch. *)
Lemma second_close_outcome_witness :
  let self := run (BleuPrecisionRecallMetric._score (N := Fixture.nltk) Fixture.bleu)
                  [Fixture.data] (BleuPrecisionRecallMetric.super Fixture.bleu) in
  exists res,
    _PrecisionRecallMetric.close self = (with_closed true self, Ok res)
    /\ prec_list (with_closed true self) = [0x1.555556p-2%float]
    /\ _PrecisionRecallMetric.close (with_closed true self)
       = (with_closed true self, Raise (RuntimeError "The metric has been closed.")).
Proof.
  cbv zeta. eexists.
  assert (Hfirst :
    _PrecisionRecallMetric.close
      (run (BleuPrecisionRecallMetric._score (N := Fixture.nltk) Fixture.bleu)
           [Fixture.data] (BleuPrecisionRecallMetric.super Fixture.bleu))
    = (with_closed true
         (run (BleuPrecisionRecallMetric._score (N := Fixture.nltk) Fixture.bleu)
              [Fixture.data] (BleuPrecisionRecallMetric.super Fixture.bleu)),
       Ok [ ("BLEU-2 precision", @RFloat Fixture.hasher 0x1.555556p-2%float);
            ("BLEU-2 recall", @RFloat Fixture.hasher 0x1.555556p-2%float);
            ("BLEU-2 hashvalue",
             @RHash Fixture.hasher
               ([PStr "BleuPrecisionRecallMetric"; PInt 2; PList [PInt 2; PInt 2]],
                18692)) ])).
  { vm_compute. reflexivity. }
  split; [exact Hfirst|]. split; [vm_compute; reflexivity|].
  exact (proj1 (proj2 (proj2 (proj2 (proj2 (proj2 (proj2
           (@second_close_outcome Fixture.hasher _ _ _ Hfirst)))))))).
Defined.

(** The state is not read destructively: on the fixture, after a [close]
    that returned a result, the two lists are the same non-empty lists and
    the unordered hash is the same; the second [close] raises the error of a
    finalized metric, not the error of a metric without data. *)
Lemma close_reads_without_consuming :
  let self := run (BleuPrecisionRecallMetric._score (N := Fixture.nltk) Fixture.bleu)
                  [Fixture.data] (BleuPrecisionRecallMetric.super Fixture.bleu) in
  let self' := fst (_PrecisionRecallMetric.close self) in
  (exists res, snd (_PrecisionRecallMetric.close self) = Ok res)
  /\ prec_list self = [0x1.555556p-2%float]
  /\ prec_list self' = prec_list self
  /\ rec_list self' = rec_list self
  /\ unordered_hash self' = unordered_hash self
  /\ snd (_PrecisionRecallMetric.close self')
     = Raise (RuntimeError "The metric has been closed.")
  /\ snd (_PrecisionRecallMetric.close self')
     <> Raise (RuntimeError "The metric has not been forwarded data correctly.").
Proof.
  cbv zeta. split; [eexists; vm_compute; reflexivity|].
  do 5 (split; [vm_compute; reflexivity|]).
  vm_compute. discriminate.
Qed.

(** C7. The embedding score is not always in [[0, 1]]: with the embeddings
    [I -> [1, -1]] and [have -> [-1, 1]] and mode [avg], the sentence
    [I have] pools to the zero vector, the cosine is [0 / 0] and the score
    of [I have] against [I] is [nan], which is neither [>= 0] nor [<= 1];
    [forward] then appends [nan] as the precision and the recall
    contribution of the instance, and [close] reports [nan] for both. *)
Theorem emb_score_zero_norm_is_nan :
  EmbSimilarityPrecisionRecallMetric.__init__ (H := Fixture.hasher) Fixture.dl
    Fixture.opposite_table "avg" 1 "candidate_allvocabs" "multiple_gen"
  = Ok Fixture.emb
  /\ EmbSimilarityPrecisionRecallMetric._score Fixture.emb [4; 5] [4] = nan
  /\ PrimFloat.leb 0%float
       (EmbSimilarityPrecisionRecallMetric._score Fixture.emb [4; 5] [4]) = false
  /\ PrimFloat.leb
       (EmbSimilarityPrecisionRecallMetric._score Fixture.emb [4; 5] [4]) 1%float
     = false
  /\ snd (EmbSimilarityPrecisionRecallMetric.forward Fixture.emb Fixture.emb_data)
     = Ok tt
  /\ prec_list (EmbSimilarityPrecisionRecallMetric.super
                  (fst (EmbSimilarityPrecisionRecallMetric.forward
                          Fixture.emb Fixture.emb_data))) = [nan]
  /\ rec_list (EmbSimilarityPrecisionRecallMetric.super
                 (fst (EmbSimilarityPrecisionRecallMetric.forward
                         Fixture.emb Fixture.emb_data))) = [nan]
  /\ map (fun kv => (fst kv, match snd kv with RFloat x => Some x | RHash _ => None end))
         (match snd (EmbSimilarityPrecisionRecallMetric.close
                       (fst (EmbSimilarityPrecisionRecallMetric.forward
                               Fixture.emb Fixture.emb_data))) with
          | Ok res => res
          | Raise _ => []
          end)
     = [ ("avg-bow precision", Some nan); ("avg-bow recall", Some nan);
         ("avg-bow hashvalue", None) ].
Proof.
  repeat split; vm_compute; reflexivity.
Qed.

(** C8. The n-gram score is [sentence_bleu] of the reference as it is and
    of the generated sentence in which every unknown token was replaced by
    [-1], every other token kept. When the tokens of the reference are not
    negative, an n-gram of the generated sentence that covers a position
    holding the unknown token differs from every n-gram of the reference,
    also where the reference holds the unknown token itself. *)
Theorem unk_never_matches {H : Hasher} {N : Nltk}
    (self : BleuPrecisionRecallMetric.t) (gen reference : sentence) :
  let dl := dataloader (BleuPrecisionRecallMetric.super self) in
  let gen' := BleuPrecisionRecallMetric._replace_unk dl gen (-1) in
  BleuPrecisionRecallMetric._score self gen reference
  = sentence_bleu [reference] gen' (BleuPrecisionRecallMetric.weights self)
  /\ List.length gen' = List.length gen
  /\ (forall i, nth_error gen i = Some (unk_id dl) -> nth_error gen' i = Some (-1))
  /\ (forall i tok, nth_error gen i = Some tok -> tok <> unk_id dl ->
                    nth_error gen' i = Some tok)
  /\ ((forall tok, In tok reference -> 0 <= tok) ->
      forall i n s s',
        nth_error gen i = Some (unk_id dl) -> (s <= i < s + n)%nat ->
        ngram_at n s gen' <> ngram_at n s' reference).
Proof.
  intros dl gen'.
  assert (Hunk : forall i, nth_error gen i = Some (unk_id dl) ->
                           nth_error gen' i = Some (-1)).
  { intros i Hi. subst gen'. rewrite nth_error_replace_unk, Hi. simpl.
    now rewrite Z.eqb_refl. }
  split; [reflexivity|]. split; [apply length_map|]. split; [exact Hunk|]. split.
  - intros i tok Hi Hneq. subst gen'. rewrite nth_error_replace_unk, Hi. simpl.
    apply Z.eqb_neq in Hneq. now rewrite Hneq.
  - intros Hnonneg i n s s' Hi [Hs Hn] Heq.
    assert (Hk : (i - s < n)%nat) by lia.
    pose proof (nth_error_ngram_at s gen' Hk) as Hg.
    replace (s + (i - s))%nat with i in Hg by lia.
    rewrite (Hunk i Hi), Heq, (nth_error_ngram_at s' reference Hk) in Hg.
    apply nth_error_In, Hnonneg in Hg. lia.
Qed.

(** C8 on the generated sentence [10 <unk> 64] and the reference
    [<unk> 64]: the bigram [<unk> 64] of the generated sentence does not
    match the same bigram of the reference. *)
Lemma unk_never_matches_witness :
  (forall tok, In tok [1; 64] -> 0 <= tok)
  /\ nth_error [10; 1; 64] 1 = Some (unk_id Fixture.dl)
  /\ BleuPrecisionRecallMetric._replace_unk Fixture.dl [10; 1; 64] (-1) = [10; -1; 64]
  /\ ngram_at 2 1 (BleuPrecisionRecallMetric._replace_unk Fixture.dl [10; 1; 64] (-1))
     <> ngram_at 2 0 [1; 64].
Proof.
  assert (Hnonneg : forall tok, In tok [1; 64] -> 0 <= tok).
  { intros tok [<-|[<-|[]]]; lia. }
  split; [exact Hnonneg|]. split; [reflexivity|]. split; [reflexivity|].
  destruct (@unk_never_matches Fixture.hasher Fixture.nltk Fixture.bleu
              [10; 1; 64] [1; 64]) as [_ [_ [_ [_ Hneq]]]].
  apply (Hneq Hnonneg 1%nat 2%nat 1%nat 0%nat); [reflexivity|lia].
Defined.




(** C10. On a metric that is not finalized, a batch that passes the checks
    of [forward] and has an instance without any reference makes [forward]
    raise. When the exception leaves
    the method, the references of the whole batch have been folded into the
    unordered hash and the contributions of the instances scored before the
    failing one have been appended; when [generated_num_per_context] is
    positive these are all the instances before the first one without a
    reference, and the error is that of the reduction over the empty axis. *)
Theorem forward_zero_references {H : Hasher}
    (_score : sentence -> sentence -> float) (self : metric) (data : batch)
    (candidate_allvocabs : list (list sentence)) :
  closed self = false ->
  sequence_under data (candidate_allvocabs_key self) = Some candidate_allvocabs ->
  passes_validation self data = true ->
  In [] candidate_allvocabs ->
  exists e,
    _PrecisionRecallMetric.forward _score data self
    = (appended (hashed self (hashed_references self data))
         (map (instance_precision _score) (scored_prefix (batch_pairs self data)))
         (map (instance_recall _score) (scored_prefix (batch_pairs self data))),
       Raise e)
    /\ (List.length (scored_prefix (batch_pairs self data))
        < List.length candidate_allvocabs)%nat
    /\ (0 < generated_num_per_context self ->
        e = ValueError np.zero_size_msg
        /\ List.length (scored_prefix (batch_pairs self data))
           = List.length (leading_nonempty candidate_allvocabs)).
Proof.
  intros Hopen Hca Hvalid Hin.
  rewrite (forward_accepted _score data self Hopen Hvalid), forward_loop_spec.
  unfold passes_validation in Hvalid. unfold batch_pairs. rewrite Hca in *.
  destruct (sequence_under data (multiple_gen_key self)) as [mg|]; [|discriminate].
  apply andb_prop in Hvalid as [Hlen Hcount]. apply Nat.eqb_eq in Hlen.
  set (refs := _PrecisionRecallMetric.trim_references (dataloader self) candidate_allvocabs).
  set (gens := _PrecisionRecallMetric.trim_gens (dataloader self) mg).
  assert (Hlen' : List.length refs = List.length gens).
  { subst refs gens. now rewrite length_trim_references, length_trim_gens. }
  assert (Hin' : In [] refs).
  { subst refs. unfold _PrecisionRecallMetric.trim_references.
    apply in_map_iff. exists []. split; [reflexivity|exact Hin]. }
  destruct (@loop_outcome_raises refs gens Hlen' Hin') as [[e He] Hlt].
  exists e. split; [now rewrite He|]. split.
  - subst refs. now rewrite length_trim_references in Hlt.
  - intros Hpos.
    assert (Hgens : Forall (fun line => line <> []) gens).
    { subst gens. unfold _PrecisionRecallMetric.trim_gens.
      apply Forall_forall. intros line Hline.
      apply in_map_iff in Hline as [line0 [<- Hline0]].
      rewrite forallb_forall in Hcount. apply Hcount in Hline0.
      apply Z.eqb_eq in Hline0. destruct line0; [simpl in Hline0; lia|discriminate]. }
    destruct (@loop_outcome_first_empty refs gens Hlen' Hin' Hgens) as [He' Hl].
    split; [congruence|].
    rewrite Hl. subst refs. unfold _PrecisionRecallMetric.trim_references.
    apply leading_nonempty_map.
Qed.

(** C10 on a batch of two instances, the second one without a reference:
    the references are hashed and the first instance is scored before
    [forward] raises. *)
Lemma forward_zero_references_witness :
  closed (BleuPrecisionRecallMetric.super Fixture.bleu) = false
  /\ sequence_under Fixture.data_no_reference
    (candidate_allvocabs_key (BleuPrecisionRecallMetric.super Fixture.bleu))
  = Some [[[10; 64; 851]; [10; 48; 851]]; []]
  /\ passes_validation (BleuPrecisionRecallMetric.super Fixture.bleu)
       Fixture.data_no_reference = true
  /\ In [] [[[10; 64; 851]; [10; 48; 851]]; []]
  /\ exists e,
       _PrecisionRecallMetric.forward
         (BleuPrecisionRecallMetric._score (N := Fixture.nltk) Fixture.bleu)
         Fixture.data_no_reference (BleuPrecisionRecallMetric.super Fixture.bleu)
       = (appended
            (hashed (BleuPrecisionRecallMetric.super Fixture.bleu)
                    [[64; 851]; [48; 851]])
            [instance_precision
               (BleuPrecisionRecallMetric._score (N := Fixture.nltk) Fixture.bleu)
               ([[64; 851]; [48; 851]], [[10; 64; 479]; [10; 48; 2019]])]
            [instance_recall
               (BleuPrecisionRecallMetric._score (N := Fixture.nltk) Fixture.bleu)
               ([[64; 851]; [48; 851]], [[10; 64; 479]; [10; 48; 2019]])],
          Raise e)
       /\ e = ValueError np.zero_size_msg
       /\ instance_precision
            (BleuPrecisionRecallMetric._score (N := Fixture.nltk) Fixture.bleu)
            ([[64; 851]; [48; 851]], [[10; 64; 479]; [10; 48; 2019]])
          = 0x1.555556p-2%float.
Proof.
  split; [reflexivity|]. split; [reflexivity|]. split; [reflexivity|].
  split; [right; left; reflexivity|].
  destruct (@forward_zero_references Fixture.hasher
              (BleuPrecisionRecallMetric._score (N := Fixture.nltk) Fixture.bleu)
              (BleuPrecisionRecallMetric.super Fixture.bleu)
              Fixture.data_no_reference
              [[[10; 64; 851]; [10; 48; 851]]; []]
              eq_refl eq_refl eq_refl (or_intror (or_introl eq_refl)))
    as [e [Hfwd [_ Hpos]]].
  exists e. split; [exact Hfwd|].
  split; [apply Hpos; reflexivity|].
  vm_compute. reflexivity.
Defined.


(** * Further properties of the code *)

(** ** A score that is not a number *)

(** X1. One score that is not a number spoils the instance: when some
    cell [matrix[i][j]] is [nan], the precision contribution and the recall
    contribution of the instance are both [nan], whatever the other cells
    are. *)
Theorem nan_cell_spoils_instance
    (_score : sentence -> sentence -> float)
    (reference gen : list sentence) (i j : nat) :
  (i < List.length reference)%nat -> (j < List.length gen)%nat ->
  cell _score reference gen i j = nan ->
  instance_precision _score (reference, gen) = nan
  /\ instance_recall _score (reference, gen) = nan.
Proof.
  intros Hi Hj Hcell.
  assert (Hstored : stored _score reference gen i j = np.nan32)
    by (unfold stored; now rewrite Hcell).
  unfold instance_precision, instance_recall,
    precision_contribution, recall_contribution. cbn [fst snd].
  split.
  - rewrite (@sum_over_nan _ _ j Hj); [apply div_nan_l|].
    now apply (@max_over_nan _ _ i Hi).
  - rewrite (@sum_over_nan _ _ i Hi); [apply div_nan_l|].
    now apply (@max_over_nan _ _ j Hj).
Qed.

(** X1 on the embedding metric of the fixture: [I have] against [I I]. *)
Lemma nan_cell_spoils_instance_witness :
  (0 < List.length [[4; 4]])%nat /\ (0 < List.length [[4; 5]])%nat
  /\ cell (EmbSimilarityPrecisionRecallMetric._score Fixture.emb)
          [[4; 4]] [[4; 5]] 0 0 = nan
  /\ instance_precision (EmbSimilarityPrecisionRecallMetric._score Fixture.emb)
       ([[4; 4]], [[4; 5]]) = nan
  /\ instance_recall (EmbSimilarityPrecisionRecallMetric._score Fixture.emb)
       ([[4; 4]], [[4; 5]]) = nan.
Proof.
  assert (Hcell : cell (EmbSimilarityPrecisionRecallMetric._score Fixture.emb)
                       [[4; 4]] [[4; 5]] 0 0 = nan)
    by (vm_compute; reflexivity).
  split; [simpl; lia|]. split; [simpl; lia|]. split; [exact Hcell|].
  apply (@nan_cell_spoils_instance
           (EmbSimilarityPrecisionRecallMetric._score Fixture.emb)
           [[4; 4]] [[4; 5]] 0%nat 0%nat); [simpl; lia | simpl; lia | exact Hcell].
Defined.

(** ** A contribution that is not a number reaches the result *)

(** X2. A contribution that is not a number is never averaged away: once
    [nan] is in both lists, whatever batches are forwarded afterwards,
    [close] reports [nan] as precision and as recall. *)
Theorem nan_contribution_is_reported {H : Hasher}
    (_score : sentence -> sentence -> float)
    (batches : list batch) (self : metric) :
  In nan (prec_list self) -> In nan (rec_list self) -> closed self = false ->
  let self' := run _score batches self in
  _PrecisionRecallMetric.close self'
  = (with_closed true self',
     Ok [ (String.append (res_prefix self) " precision", RFloat nan);
          (String.append (res_prefix self) " recall", RFloat nan);
          (String.append (res_prefix self) " hashvalue",
           RHash (MetricBase._hashvalue self')) ]).
Proof.
  intros Hp Hr Hopen self'.
  assert (Hp' : In nan (prec_list self')).
  { unfold self'. rewrite run_state. cbn. apply in_or_app. now left. }
  assert (Hr' : In nan (rec_list self')).
  { unfold self'. rewrite run_state. cbn. apply in_or_app. now left. }
  assert (Hopen' : closed self' = false).
  { unfold self'. rewrite run_state. cbn. exact Hopen. }
  assert (Hpre : res_prefix self' = res_prefix self).
  { unfold self'. rewrite run_state. reflexivity. }
  rewrite (@close_ready _ self' Hopen'
             (@is_empty_In _ _ _ Hp') (@is_empty_In _ _ _ Hr')).
  rewrite Hpre, (@average_In_nan _ Hp'), (@average_In_nan _ Hr').
  reflexivity.
Qed.

(** X2 on the embedding metric of the fixture, after the batch whose score
    is not a number and one more batch. *)
Lemma nan_contribution_is_reported_witness :
  let score := EmbSimilarityPrecisionRecallMetric._score Fixture.emb in
  let self := fst (_PrecisionRecallMetric.forward score Fixture.emb_data
                     (EmbSimilarityPrecisionRecallMetric.super Fixture.emb)) in
  let self' := run score [Fixture.emb_data] self in
  In nan (prec_list self) /\ In nan (rec_list self) /\ closed self = false
  /\ _PrecisionRecallMetric.close self'
     = (with_closed true self',
        Ok [ ("avg-bow precision", @RFloat Fixture.hasher nan);
             ("avg-bow recall", @RFloat Fixture.hasher nan);
             ("avg-bow hashvalue",
              @RHash Fixture.hasher (MetricBase._hashvalue self')) ]).
Proof.
  cbv zeta.
  assert (Hp : In nan (prec_list
                         (fst (_PrecisionRecallMetric.forward
                                 (EmbSimilarityPrecisionRecallMetric._score Fixture.emb)
                                 Fixture.emb_data
                                 (EmbSimilarityPrecisionRecallMetric.super Fixture.emb)))))
    by (vm_compute; left; reflexivity).
  assert (Hr : In nan (rec_list
                         (fst (_PrecisionRecallMetric.forward
                                 (EmbSimilarityPrecisionRecallMetric._score Fixture.emb)
                                 Fixture.emb_data
                                 (EmbSimilarityPrecisionRecallMetric.super Fixture.emb)))))
    by (vm_compute; left; reflexivity).
  split; [exact Hp|]. split; [exact Hr|]. split; [reflexivity|].
  exact (@nan_contribution_is_reported Fixture.hasher
           (EmbSimilarityPrecisionRecallMetric._score Fixture.emb)
           [Fixture.emb_data] _ Hp Hr eq_refl).
Defined.

(** ** The lookups and the checks of [forward] *)

Section ForwardErrors.

Context {H : Hasher}.
Variable _score : sentence -> sentence -> float.

Lemma getitem_has_key (data : batch) (key : string) :
  if has_key data key then exists v, getitem data key = Ok v
  else getitem data key = Raise (KeyError key).
Proof.
  induction data as [|[k v] data IH]; [reflexivity|].
  cbn [has_key existsb getitem fst].
  destruct (String.eqb k key); [now exists v|exact IH].
Qed.

Lemma forward_reference_key_missing (data : batch) (self : metric) :
  closed self = false ->
  has_key data (candidate_allvocabs_key self) = false ->
  _PrecisionRecallMetric.forward _score data self
  = (self, Raise (KeyError (candidate_allvocabs_key self))).
Proof.
  intros Hopen Hk.
  pose proof (getitem_has_key data (candidate_allvocabs_key self)) as Hg.
  rewrite Hk in Hg.
  unfold _PrecisionRecallMetric.forward, MetricBase.forward, bind, get, ret, lift,
    throw.
  rewrite Hopen, Hg. reflexivity.
Qed.

Lemma forward_generated_key_missing (data : batch) (self : metric) :
  closed self = false ->
  has_key data (candidate_allvocabs_key self) = true ->
  has_key data (multiple_gen_key self) = false ->
  _PrecisionRecallMetric.forward _score data self
  = (self, Raise (KeyError (multiple_gen_key self))).
Proof.
  intros Hopen Hk1 Hk2.
  pose proof (getitem_has_key data (candidate_allvocabs_key self)) as Hg1.
  pose proof (getitem_has_key data (multiple_gen_key self)) as Hg2.
  rewrite Hk1 in Hg1. rewrite Hk2 in Hg2. destruct Hg1 as [v Hg1].
  unfold _PrecisionRecallMetric.forward, MetricBase.forward, bind, get, ret, lift,
    throw.
  rewrite Hopen, Hg1, Hg2. reflexivity.
Qed.

End ForwardErrors.

(** X3. On a metric that is not finalized, a batch dict that lacks one of
    the two keys makes [forward] raise [KeyError] and leaves the object as
    it was. The key of the references is looked up first: it is the one
    reported when both are missing, and the lookups come before every check
    of the batch, so the error is a [KeyError] also when the value under the
    other key has a wrong type. *)
Theorem forward_missing_key {H : Hasher}
    (_score : sentence -> sentence -> float) (data : batch) (self : metric) :
  closed self = false ->
  has_key data (candidate_allvocabs_key self)
  && has_key data (multiple_gen_key self) = false ->
  _PrecisionRecallMetric.forward _score data self
  = (self,
     Raise (KeyError (if has_key data (candidate_allvocabs_key self)
                      then multiple_gen_key self
                      else candidate_allvocabs_key self))).
Proof.
  intros Hopen Hk.
  destruct (has_key data (candidate_allvocabs_key self)) eqn:Hk1.
  - cbn [andb] in Hk. now apply forward_generated_key_missing.
  - now apply forward_reference_key_missing.
Qed.

(** X3 on a batch that has the generated sentences only (and those of a
    wrong type). *)
Lemma forward_missing_key_witness :
  let self := BleuPrecisionRecallMetric.super Fixture.bleu in
  let score := BleuPrecisionRecallMetric._score (N := Fixture.nltk) Fixture.bleu in
  closed self = false
  /\ has_key [("multiple_gen", OtherObject)] (candidate_allvocabs_key self)
     && has_key [("multiple_gen", OtherObject)] (multiple_gen_key self) = false
  /\ _PrecisionRecallMetric.forward score [("multiple_gen", OtherObject)] self
     = (self, Raise (KeyError "candidate_allvocabs")).
Proof.
  cbv zeta. split; [reflexivity|]. split; [reflexivity|].
  exact (@forward_missing_key Fixture.hasher
           (BleuPrecisionRecallMetric._score (N := Fixture.nltk) Fixture.bleu)
           [("multiple_gen", OtherObject)]
           (BleuPrecisionRecallMetric.super Fixture.bleu) eq_refl eq_refl).
Defined.

(** X4. Which error a batch that holds both keys is rejected with, on a
    metric that is not finalized: a [TypeError] when a collection is neither
    a list nor an array (the references are checked first), else a
    [ValueError], where collections of different lengths are reported before
    a wrong number of generated sentences. The message of the latter holds
    the five tabs of the continuation line of the source. In each case the
    object is left as it was. *)
Theorem forward_rejection_error {H : Hasher}
    (_score : sentence -> sentence -> float) (data : batch) (self : metric)
    (candidate_allvocabs multiple_gen : pyobj) :
  closed self = false ->
  getitem data (candidate_allvocabs_key self) = Ok candidate_allvocabs ->
  getitem data (multiple_gen_key self) = Ok multiple_gen ->
  passes_validation self data = false ->
  _PrecisionRecallMetric.forward _score data self
  = (self,
     Raise match candidate_allvocabs, multiple_gen with
           | OtherObject, _ => TypeError "Unknown type for candidate_allvocabs."
           | Sequence _, OtherObject => TypeError "Unknown type for multiple_gen"
           | Sequence refs, Sequence gens =>
               if Nat.eqb (List.length refs) (List.length gens)
               then ValueError
                      (String.append
                         "Number of geneated sentences per context does not equal to"
                         (String.append
                            (String "009" (String "009" (String "009"
                               (String "009" (String "009" EmptyString)))))
                            "the specified `generated_num_per_context`"))
               else ValueError "Batch num is not matched."
           end).
Proof.
  intros Hopen Hca Hmg Hpv.
  unfold passes_validation, sequence_under in Hpv. rewrite Hca, Hmg in Hpv.
  unfold _PrecisionRecallMetric.forward, MetricBase.forward, bind, get, ret, lift, throw.
  rewrite Hopen, Hca, Hmg.
  destruct candidate_allvocabs as [refs|]; [|reflexivity].
  destruct multiple_gen as [gens|]; [|reflexivity].
  cbn [_PrecisionRecallMetric.check_sequence].
  rewrite length_trim_references,
    length_trim_gens.
  destruct (Nat.eqb (List.length refs) (List.length gens)); [|reflexivity].
  cbn [negb andb] in *.
  rewrite check_gens_forallb, Hpv. reflexivity.
Qed.

(** X4 on a batch whose collections have different lengths and whose only
    line has one generated sentence instead of two. *)
Lemma forward_rejection_error_witness :
  let self := BleuPrecisionRecallMetric.super Fixture.bleu in
  let score := BleuPrecisionRecallMetric._score (N := Fixture.nltk) Fixture.bleu in
  let data := [ ("candidate_allvocabs", Sequence [[[10; 64]]; [[10; 48]]]);
                ("multiple_gen", Sequence [[[10; 64; 3]]]) ] in
  closed self = false
  /\ getitem data (candidate_allvocabs_key self) = Ok (Sequence [[[10; 64]]; [[10; 48]]])
  /\ getitem data (multiple_gen_key self) = Ok (Sequence [[[10; 64; 3]]])
  /\ passes_validation self data = false
  /\ _PrecisionRecallMetric.forward score data self
     = (self, Raise (ValueError "Batch num is not matched.")).
Proof.
  cbv zeta. do 4 (split; [reflexivity|]).
  exact (@forward_rejection_error Fixture.hasher
           (BleuPrecisionRecallMetric._score (N := Fixture.nltk) Fixture.bleu)
           [ ("candidate_allvocabs", Sequence [[[10; 64]]; [[10; 48]]]);
             ("multiple_gen", Sequence [[[10; 64; 3]]]) ]
           (BleuPrecisionRecallMetric.super Fixture.bleu)
           (Sequence [[[10; 64]]; [[10; 48]]]) (Sequence [[[10; 64; 3]]])
           eq_refl eq_refl eq_refl eq_refl).
Defined.

(** X5. What no sequence of calls of [forward] changes, whether the calls
    return or raise: the configuration of the object stays as it is, the two
    lists only grow at their ends, and they grow by the same number of
    entries, so an entry of one list and the entry at the same place of the
    other come from the same instance. *)
Theorem run_keeps_lists_aligned {H : Hasher}
    (_score : sentence -> sentence -> float) (batches : list batch)
    (self : metric) :
  let self' := run _score batches self in
  dataloader self' = dataloader self
  /\ candidate_allvocabs_key self' = candidate_allvocabs_key self
  /\ multiple_gen_key self' = multiple_gen_key self
  /\ generated_num_per_context self' = generated_num_per_context self
  /\ res_prefix self' = res_prefix self
  /\ ordered_hash self' = ordered_hash self
  /\ closed self' = closed self
  /\ exists ps rs : list float,
       prec_list self' = prec_list self ++ ps
       /\ rec_list self' = rec_list self ++ rs
       /\ List.length ps = List.length rs.
Proof.
  cbv zeta. rewrite run_state. cbn.
  repeat (split; [reflexivity|]).
  eexists. eexists. split; [reflexivity|]. split; [reflexivity|].
  now rewrite !length_map.
Qed.

(** ** Batches built from the two collections *)

Section BatchFacts.

Context {H : Hasher}.
Variable _score : sentence -> sentence -> float.

Lemma sequence_under_mk_batch (self : metric)
    (candidate_allvocabs multiple_gen : list (list sentence)) :
  candidate_allvocabs_key self <> multiple_gen_key self ->
  sequence_under (mk_batch self candidate_allvocabs multiple_gen)
    (candidate_allvocabs_key self) = Some candidate_allvocabs
  /\ sequence_under (mk_batch self candidate_allvocabs multiple_gen)
       (multiple_gen_key self) = Some multiple_gen.
Proof.
  intros Hk. unfold sequence_under, mk_batch. cbn [getitem].
  rewrite String.eqb_refl.
  apply String.eqb_neq in Hk. rewrite Hk, String.eqb_refl. now split.
Qed.

Lemma combine_app {A B : Type} (l1 l2 : list A) (m1 m2 : list B) :
  List.length l1 = List.length m1 ->
  combine (l1 ++ l2) (m1 ++ m2) = combine l1 m1 ++ combine l2 m2.
Proof.
  revert m1. induction l1 as [|a l1 IH]; intros [|b m1] Hlen;
    try discriminate; [reflexivity|].
  cbn. f_equal. apply IH. now injection Hlen.
Qed.

Lemma scored_prefix_app (pairs1 pairs2 : list (list sentence * list sentence)) :
  Forall (fun inst => fst inst <> [] /\ snd inst <> []) pairs1 ->
  scored_prefix (pairs1 ++ pairs2) = pairs1 ++ scored_prefix pairs2
  /\ loop_outcome (pairs1 ++ pairs2) = loop_outcome pairs2.
Proof.
  induction 1 as [|[reference gen] pairs1 [Hr Hg] _ [IH1 IH2]]; [now split|].
  cbn [fst snd] in Hr, Hg. cbn [app scored_prefix loop_outcome].
  destruct reference; [now elim Hr|]. destruct gen; [now elim Hg|].
  cbn [is_empty orb]. rewrite IH1. now split.
Qed.

Lemma scored_prefix_all (pairs : list (list sentence * list sentence)) :
  Forall (fun inst => fst inst <> [] /\ snd inst <> []) pairs ->
  scored_prefix pairs = pairs /\ loop_outcome pairs = Ok tt.
Proof.
  intros Hall. destruct (@scored_prefix_app pairs [] Hall) as [Hsp Hlo].
  rewrite app_nil_r in Hsp, Hlo. cbn [scored_prefix loop_outcome] in Hsp, Hlo.
  rewrite app_nil_r in Hsp. now split.
Qed.

Lemma all_scorable (dl : LanguageProcessing) (gnpc : Z)
    (candidate_allvocabs multiple_gen : list (list sentence)) :
  Forall (fun inst => inst <> []) candidate_allvocabs ->
  Forall (fun line => Z.of_nat (List.length line) = gnpc) multiple_gen ->
  0 < gnpc ->
  Forall (fun inst => fst inst <> [] /\ snd inst <> [])
    (combine (_PrecisionRecallMetric.trim_references dl candidate_allvocabs)
             (_PrecisionRecallMetric.trim_gens dl multiple_gen)).
Proof.
  intros Hca Hmg Hpos. revert multiple_gen Hmg.
  induction Hca as [|inst ca Hinst _ IH]; intros multiple_gen Hmg; [constructor|].
  destruct Hmg as [|line mg Hline Hmg]; [constructor|].
  cbn. constructor; [|now apply IH].
  cbn. split.
  - destruct inst; [now elim Hinst|discriminate].
  - destruct line; [cbn in Hline; lia|discriminate].
Qed.

Lemma trim_references_app (dl : LanguageProcessing) (ca1 ca2 : list (list sentence)) :
  _PrecisionRecallMetric.trim_references dl (ca1 ++ ca2)
  = _PrecisionRecallMetric.trim_references dl ca1
    ++ _PrecisionRecallMetric.trim_references dl ca2.
Proof. apply map_app. Qed.

Lemma trim_gens_app (dl : LanguageProcessing) (mg1 mg2 : list (list sentence)) :
  _PrecisionRecallMetric.trim_gens dl (mg1 ++ mg2)
  = _PrecisionRecallMetric.trim_gens dl mg1
    ++ _PrecisionRecallMetric.trim_gens dl mg2.
Proof. apply map_app. Qed.

Lemma forallb_count (gnpc : Z) (multiple_gen : list (list sentence)) :
  Forall (fun line => Z.of_nat (List.length line) = gnpc) multiple_gen ->
  forallb (fun line => Z.eqb (Z.of_nat (List.length line)) gnpc) multiple_gen = true.
Proof.
  intros Hmg. apply forallb_forall. intros line Hin.
  rewrite Forall_forall in Hmg. apply Z.eqb_eq. now apply Hmg.
Qed.

Lemma passes_validation_mk_batch (self : metric)
    (candidate_allvocabs multiple_gen : list (list sentence)) :
  candidate_allvocabs_key self <> multiple_gen_key self ->
  List.length candidate_allvocabs = List.length multiple_gen ->
  Forall (fun line => Z.of_nat (List.length line) = generated_num_per_context self)
         multiple_gen ->
  passes_validation self (mk_batch self candidate_allvocabs multiple_gen) = true.
Proof.
  intros Hk Hlen Hmg. unfold passes_validation.
  destruct (@sequence_under_mk_batch self candidate_allvocabs multiple_gen Hk) as [-> ->].
  rewrite Hlen, Nat.eqb_refl. cbn [andb]. now apply forallb_count.
Qed.

Lemma fold_digests_app (acc : Z) (items items' : list sentence) :
  MetricBase.fold_digests acc (items ++ items')
  = MetricBase.fold_digests (MetricBase.fold_digests acc items) items'.
Proof. unfold MetricBase.fold_digests. apply fold_left_app. Qed.

(** [forward] on a batch that passes the checks, by its two collections. *)
Lemma forward_mk_batch (self : metric)
    (candidate_allvocabs multiple_gen : list (list sentence)) :
  closed self = false ->
  candidate_allvocabs_key self <> multiple_gen_key self ->
  List.length candidate_allvocabs = List.length multiple_gen ->
  Forall (fun line => Z.of_nat (List.length line) = generated_num_per_context self)
         multiple_gen ->
  let refs := _PrecisionRecallMetric.trim_references (dataloader self)
                candidate_allvocabs in
  let pairs := combine refs (_PrecisionRecallMetric.trim_gens (dataloader self)
                               multiple_gen) in
  _PrecisionRecallMetric.forward _score
    (mk_batch self candidate_allvocabs multiple_gen) self
  = (appended (hashed self (List.concat refs))
       (map (instance_precision _score) (scored_prefix pairs))
       (map (instance_recall _score) (scored_prefix pairs)),
     loop_outcome pairs).
Proof.
  intros Hopen Hk Hlen Hmg refs pairs.
  rewrite forward_accepted by (assumption || now apply passes_validation_mk_batch).
  rewrite forward_loop_spec.
  unfold batch_pairs, hashed_references.
  destruct (@sequence_under_mk_batch self candidate_allvocabs multiple_gen Hk) as [-> ->].
  reflexivity.
Qed.

End BatchFacts.

(** X6. Splitting a batch does not change what is accumulated: when the
    first part of a batch has at least one reference in every instance, one
    call of [forward] on the whole batch leaves the object, and ends, as the
    call on the second part after a call on the first part, which
    returns. The metric is not finalized, both parts pass the checks and the
    two keys differ. *)
Theorem forward_split_batch {H : Hasher}
    (_score : sentence -> sentence -> float) (self : metric)
    (ca1 mg1 ca2 mg2 : list (list sentence)) :
  closed self = false ->
  candidate_allvocabs_key self <> multiple_gen_key self ->
  0 < generated_num_per_context self ->
  List.length ca1 = List.length mg1 -> List.length ca2 = List.length mg2 ->
  Forall (fun line => Z.of_nat (List.length line) = generated_num_per_context self)
         (mg1 ++ mg2) ->
  Forall (fun inst => inst <> []) ca1 ->
  _PrecisionRecallMetric.forward _score (mk_batch self ca1 mg1) self
  = (run _score [mk_batch self ca1 mg1] self, Ok tt)
  /\ _PrecisionRecallMetric.forward _score
       (mk_batch self (ca1 ++ ca2) (mg1 ++ mg2)) self
     = _PrecisionRecallMetric.forward _score (mk_batch self ca2 mg2)
         (run _score [mk_batch self ca1 mg1] self).
Proof.
  intros Hopen Hk Hpos Hlen1 Hlen2 Hmg Hca1.
  apply Forall_app in Hmg as Hmg12. destruct Hmg12 as [Hmg1 Hmg2].
  pose proof (@all_scorable (dataloader self) _ ca1 mg1 Hca1 Hmg1 Hpos) as Hall.
  destruct (scored_prefix_all Hall) as [Hsp1 Hlo1].
  assert (Hfwd1 : _PrecisionRecallMetric.forward _score (mk_batch self ca1 mg1) self
                  = (appended
                       (hashed self
                          (List.concat (_PrecisionRecallMetric.trim_references
                                          (dataloader self) ca1)))
                       (map (instance_precision _score)
                          (combine (_PrecisionRecallMetric.trim_references
                                      (dataloader self) ca1)
                                   (_PrecisionRecallMetric.trim_gens
                                      (dataloader self) mg1)))
                       (map (instance_recall _score)
                          (combine (_PrecisionRecallMetric.trim_references
                                      (dataloader self) ca1)
                                   (_PrecisionRecallMetric.trim_gens
                                      (dataloader self) mg1))),
                     Ok tt)).
  { rewrite (@forward_mk_batch _ _score self ca1 mg1 Hopen Hk Hlen1 Hmg1). cbv zeta.
    now rewrite Hsp1, Hlo1. }
  unfold run. cbn [fold_left]. rewrite Hfwd1. cbn [fst].
  split; [reflexivity|].
  match goal with
  | |- _ = _PrecisionRecallMetric.forward _ _ ?s => set (self1 := s)
  end.
  rewrite (@forward_mk_batch _ _score self (ca1 ++ ca2) (mg1 ++ mg2) Hopen Hk);
    cycle 1.
  { rewrite !length_app. congruence. }
  { exact Hmg. }
  cbv zeta.
  change (mk_batch self ca2 mg2) with (mk_batch self1 ca2 mg2).
  rewrite (@forward_mk_batch _ _score self1 ca2 mg2 Hopen Hk Hlen2 Hmg2). cbv zeta.
  change (dataloader self1) with (dataloader self).
  rewrite trim_references_app, trim_gens_app, concat_app.
  rewrite combine_app
    by now rewrite length_trim_references, length_trim_gens.
  destruct (@scored_prefix_app _
              (combine (_PrecisionRecallMetric.trim_references (dataloader self) ca2)
                       (_PrecisionRecallMetric.trim_gens (dataloader self) mg2))
              Hall) as [-> ->].
  f_equal. subst self1.
  unfold appended, hashed, with_rec_list, with_prec_list, with_unordered_hash.
  cbn. rewrite !map_app, fold_digests_app, <- !app_assoc. reflexivity.
Qed.

(** X6 on the two batches of the fixture, forwarded as one batch of two
    instances. *)
Lemma forward_split_batch_witness :
  let self := BleuPrecisionRecallMetric.super Fixture.bleu in
  let score := BleuPrecisionRecallMetric._score (N := Fixture.nltk) Fixture.bleu in
  let ca1 := [[[10; 64; 851]; [10; 48; 851]]] in
  let mg1 := [[[10; 64; 479; 3]; [10; 48; 2019; 3]]] in
  let ca2 := [[[10; 64; 479]; [10; 48]]] in
  let mg2 := [[[10; 64; 479; 3]; [48; 3]]] in
  closed self = false
  /\ candidate_allvocabs_key self <> multiple_gen_key self
  /\ 0 < generated_num_per_context self
  /\ List.length ca1 = List.length mg1 /\ List.length ca2 = List.length mg2
  /\ Forall (fun line => Z.of_nat (List.length line) = generated_num_per_context self)
            (mg1 ++ mg2)
  /\ Forall (fun inst => inst <> []) ca1
  /\ _PrecisionRecallMetric.forward score (mk_batch self ca1 mg1) self
     = (run score [mk_batch self ca1 mg1] self, Ok tt)
  /\ _PrecisionRecallMetric.forward score
       (mk_batch self (ca1 ++ ca2) (mg1 ++ mg2)) self
     = _PrecisionRecallMetric.forward score (mk_batch self ca2 mg2)
         (run score [mk_batch self ca1 mg1] self).
Proof.
  cbv zeta.
  assert (Hk : candidate_allvocabs_key (BleuPrecisionRecallMetric.super Fixture.bleu)
               <> multiple_gen_key (BleuPrecisionRecallMetric.super Fixture.bleu))
    by (intros E; vm_compute in E; discriminate E).
  assert (Hpos : 0 < generated_num_per_context
                       (BleuPrecisionRecallMetric.super Fixture.bleu))
    by reflexivity.
  assert (Hmg : Forall (fun line => Z.of_nat (List.length line)
                                    = generated_num_per_context
                                        (BleuPrecisionRecallMetric.super Fixture.bleu))
                  ([[[10; 64; 479; 3]; [10; 48; 2019; 3]]]
                   ++ [[[10; 64; 479; 3]; [48; 3]]]))
    by (repeat constructor).
  assert (Hca : Forall (fun inst : list sentence => inst <> [])
                  [[[10; 64; 851]; [10; 48; 851]]])
    by (repeat constructor; discriminate).
  split; [reflexivity|]. split; [exact Hk|]. split; [exact Hpos|].
  split; [reflexivity|]. split; [reflexivity|].
  split; [exact Hmg|]. split; [exact Hca|].
  exact (@forward_split_batch Fixture.hasher
           (BleuPrecisionRecallMetric._score (N := Fixture.nltk) Fixture.bleu)
           (BleuPrecisionRecallMetric.super Fixture.bleu)
           [[[10; 64; 851]; [10; 48; 851]]]
           [[[10; 64; 479; 3]; [10; 48; 2019; 3]]]
           [[[10; 64; 479]; [10; 48]]]
           [[[10; 64; 479; 3]; [48; 3]]]
           eq_refl Hk Hpos eq_refl eq_refl Hmg Hca).
Defined.

(** ** A count of generated sentences that is not positive *)

Section NoCount.

Context {H : Hasher}.

Lemma scored_prefix_no_gen (refs gens : list (list sentence)) :
  Forall (fun line => line = []) gens ->
  scored_prefix (combine refs gens) = [].
Proof.
  intros Hg. destruct refs as [|reference refs]; [reflexivity|].
  destruct Hg as [|line gens -> _]; [reflexivity|].
  cbn. now rewrite orb_true_r.
Qed.

Lemma scored_instances_nonpositive (self : metric) (data : batch) :
  generated_num_per_context self <= 0 -> scored_instances self data = [].
Proof.
  intros Hn. unfold scored_instances, accepts, passes_validation, batch_pairs.
  destruct (closed self); [reflexivity|]. cbn [negb andb].
  destruct (sequence_under data (candidate_allvocabs_key self)) as [ca|];
    [|reflexivity].
  destruct (sequence_under data (multiple_gen_key self)) as [mg|];
    [|reflexivity].
  destruct (Nat.eqb (List.length ca) (List.length mg)); [|reflexivity].
  cbn [andb].
  destruct (forallb _ mg) eqn:Hall; [|reflexivity].
  apply scored_prefix_no_gen.
  unfold _PrecisionRecallMetric.trim_gens. apply Forall_map, Forall_forall.
  intros line Hin. rewrite forallb_forall in Hall. apply Hall, Z.eqb_eq in Hin.
  destruct line; [reflexivity|]. cbn [List.length] in Hin. lia.
Qed.

End NoCount.

(** X7. [generated_num_per_context] is not validated by the constructors,
    and a value that is not positive makes the metric useless: whatever is
    forwarded, neither list ever gets an entry, so [close] on an object that
    had none raises the error of a metric that was not forwarded data. *)
Theorem nonpositive_count_scores_nothing {H : Hasher}
    (_score : sentence -> sentence -> float)
    (batches : list batch) (self : metric) :
  generated_num_per_context self <= 0 ->
  let self' := run _score batches self in
  prec_list self' = prec_list self /\ rec_list self' = rec_list self
  /\ (prec_list self = [] ->
      _PrecisionRecallMetric.close self'
      = (self', Raise (RuntimeError "The metric has not been forwarded data correctly."))).
Proof.
  intros Hn self'.
  assert (Hnone : flat_map (scored_instances self) batches = []).
  { induction batches as [|data batches IH]; [reflexivity|].
    cbn [flat_map]. now rewrite scored_instances_nonpositive, IH. }
  assert (Hp : prec_list self' = prec_list self).
  { unfold self'. rewrite run_state, Hnone. cbn. apply app_nil_r. }
  assert (Hr : rec_list self' = rec_list self).
  { unfold self'. rewrite run_state, Hnone. cbn. apply app_nil_r. }
  split; [exact Hp|]. split; [exact Hr|].
  intros Hempty.
  unfold _PrecisionRecallMetric.close, bind, get, throw.
  rewrite Hp, Hempty. reflexivity.
Qed.

(** X7 on [BleuPrecisionRecallMetric(dl, 2, 0)] and a batch whose line has
    no generated sentence. *)
Lemma nonpositive_count_scores_nothing_witness :
  let self := _PrecisionRecallMetric.__init__ (H := Fixture.hasher)
                "BleuPrecisionRecallMetric" 2 Fixture.dl 0
                "candidate_allvocabs" "multiple_gen" in
  let score := BleuPrecisionRecallMetric._score (N := Fixture.nltk) Fixture.bleu in
  let batches := [ [ ("candidate_allvocabs", Sequence [[[10; 64; 851]]]);
                     ("multiple_gen", Sequence [[]]) ] ] in
  generated_num_per_context self <= 0
  /\ prec_list (run score batches self) = []
  /\ _PrecisionRecallMetric.close (run score batches self)
     = (run score batches self,
        Raise (RuntimeError "The metric has not been forwarded data correctly.")).
Proof.
  cbv zeta.
  destruct (@nonpositive_count_scores_nothing Fixture.hasher
              (BleuPrecisionRecallMetric._score (N := Fixture.nltk) Fixture.bleu)
              [ [ ("candidate_allvocabs", Sequence [[[10; 64; 851]]]);
                  ("multiple_gen", Sequence [[]]) ] ]
              (_PrecisionRecallMetric.__init__ (H := Fixture.hasher)
                 "BleuPrecisionRecallMetric" 2 Fixture.dl 0
                 "candidate_allvocabs" "multiple_gen"))
    as [Hp [_ Hclose]]; [cbn; lia|].
  split; [cbn; lia|]. split; [exact Hp|]. apply Hclose. reflexivity.
Defined.

(** ** The first token of a reference *)

(** X8. [forward] never reads the first token of a reference: two batches
    whose references agree from their second token on, with the same
    generated sentences, leave the object in the same state and end the same
    way. *)
Theorem forward_ignores_first_reference_token {H : Hasher}
    (_score : sentence -> sentence -> float) (self : metric)
    (candidate_allvocabs candidate_allvocabs' multiple_gen : list (list sentence)) :
  candidate_allvocabs_key self <> multiple_gen_key self ->
  map (map (@tl Z)) candidate_allvocabs = map (map (@tl Z)) candidate_allvocabs' ->
  _PrecisionRecallMetric.forward _score
    (mk_batch self candidate_allvocabs multiple_gen) self
  = _PrecisionRecallMetric.forward _score
      (mk_batch self candidate_allvocabs' multiple_gen) self.
Proof.
  intros Hk Htl.
  assert (Htrim : _PrecisionRecallMetric.trim_references (dataloader self)
                    candidate_allvocabs
                  = _PrecisionRecallMetric.trim_references (dataloader self)
                      candidate_allvocabs').
  { unfold _PrecisionRecallMetric.trim_references.
    transitivity (map (map (trim_in_ids (dataloader self)))
                      (map (map (@tl Z)) candidate_allvocabs)).
    - rewrite map_map. apply map_ext. intros inst. now rewrite map_map.
    - rewrite Htl, map_map. apply map_ext. intros inst. now rewrite map_map. }
  apply String.eqb_neq in Hk.
  unfold _PrecisionRecallMetric.forward, MetricBase.forward, bind, get, ret, lift,
    throw, mk_batch.
  destruct (closed self); [reflexivity|].
  cbn [getitem]. rewrite String.eqb_refl, Hk, String.eqb_refl.
  cbn [_PrecisionRecallMetric.check_sequence]. rewrite Htrim. reflexivity.
Qed.

(** X8 on the example of the docstring, with other first tokens in the
    references. *)
Lemma forward_ignores_first_reference_token_witness :
  let self := BleuPrecisionRecallMetric.super Fixture.bleu in
  let score := BleuPrecisionRecallMetric._score (N := Fixture.nltk) Fixture.bleu in
  let mg := [[[10; 64; 479; 3]; [10; 48; 2019; 3]]] in
  candidate_allvocabs_key self <> multiple_gen_key self
  /\ map (map (@tl Z)) [[[10; 64; 851]; [10; 48; 851]]]
     = map (map (@tl Z)) [[[2; 64; 851]; [7; 48; 851]]]
  /\ _PrecisionRecallMetric.forward score
       (mk_batch self [[[10; 64; 851]; [10; 48; 851]]] mg) self
     = _PrecisionRecallMetric.forward score
         (mk_batch self [[[2; 64; 851]; [7; 48; 851]]] mg) self.
Proof.
  cbv zeta.
  assert (Hk : candidate_allvocabs_key (BleuPrecisionRecallMetric.super Fixture.bleu)
               <> multiple_gen_key (BleuPrecisionRecallMetric.super Fixture.bleu))
    by (intros E; vm_compute in E; discriminate E).
  split; [exact Hk|]. split; [reflexivity|].
  exact (@forward_ignores_first_reference_token Fixture.hasher
           (BleuPrecisionRecallMetric._score (N := Fixture.nltk) Fixture.bleu)
           (BleuPrecisionRecallMetric.super Fixture.bleu)
           [[[10; 64; 851]; [10; 48; 851]]] [[[2; 64; 851]; [7; 48; 851]]]
           [[[10; 64; 479; 3]; [10; 48; 2019; 3]]] Hk eq_refl).
Defined.

(** ** Precision and recall are dual *)

(** X9. Precision and recall are the same computation with the roles of
    the references and the generated sentences exchanged: when the loop body
    appends [p] and [r] for an instance, it appends [r] and [p] for the
    instance with the two groups exchanged and the arguments of the score
    exchanged. *)
Theorem exchanged_roles_exchange_contributions {H : Hasher}
    (_score : sentence -> sentence -> float)
    (reference gen : list sentence) (self : metric) :
  reference <> [] -> gen <> [] ->
  exists p r : float,
    _PrecisionRecallMetric.forward_instance _score reference gen self
    = (appended self [p] [r], Ok tt)
    /\ _PrecisionRecallMetric.forward_instance (fun a b => _score b a)
         gen reference self
       = (appended self [r] [p], Ok tt).
Proof.
  intros Hr Hg.
  exists (instance_precision _score (reference, gen)),
         (instance_recall _score (reference, gen)).
  split; [now apply forward_instance_scored|].
  rewrite forward_instance_scored by assumption.
  reflexivity.
Qed.

(** X9 on the example of the docstring. *)
Lemma exchanged_roles_exchange_contributions_witness :
  let self := BleuPrecisionRecallMetric.super Fixture.bleu in
  let score := BleuPrecisionRecallMetric._score (N := Fixture.nltk) Fixture.bleu in
  let reference := [[64; 851]; [48; 851]] in
  let gen := [[10; 64; 479]] in
  reference <> [] /\ gen <> []
  /\ exists p r : float,
       _PrecisionRecallMetric.forward_instance score reference gen self
       = (appended self [p] [r], Ok tt)
       /\ _PrecisionRecallMetric.forward_instance (fun a b => score b a)
            gen reference self
          = (appended self [r] [p], Ok tt).
Proof.
  cbv zeta.
  assert (Hr : [[64; 851]; [48; 851]] <> ([] : list sentence)) by discriminate.
  assert (Hg : [[10; 64; 479]] <> ([] : list sentence)) by discriminate.
  split; [exact Hr|]. split; [exact Hg|].
  exact (@exchanged_roles_exchange_contributions Fixture.hasher
           (BleuPrecisionRecallMetric._score (N := Fixture.nltk) Fixture.bleu)
           [[64; 851]; [48; 851]] [[10; 64; 479]]
           (BleuPrecisionRecallMetric.super Fixture.bleu) Hr Hg).
Defined.

(** ** [BleuPrecisionRecallMetric] *)

Section ReplaceUnkFacts.

Lemma replace_unk_length (dl : LanguageProcessing) (_input : sentence) (_target : Z) :
  List.length (BleuPrecisionRecallMetric._replace_unk dl _input _target)
  = List.length _input.
Proof. apply length_map. Qed.

Lemma replace_unk_idempotent (dl : LanguageProcessing) (_input : sentence)
    (_target : Z) :
  BleuPrecisionRecallMetric._replace_unk dl
    (BleuPrecisionRecallMetric._replace_unk dl _input _target) _target
  = BleuPrecisionRecallMetric._replace_unk dl _input _target.
Proof.
  unfold BleuPrecisionRecallMetric._replace_unk. rewrite map_map.
  apply map_ext. intros ele.
  destruct (Z.eqb ele (unk_id dl)) eqn:He; [|now rewrite He].
  now destruct (Z.eqb _target (unk_id dl)).
Qed.

Lemma replace_unk_no_unk (dl : LanguageProcessing) (_input : sentence) (_target : Z) :
  _target <> unk_id dl ->
  ~ In (unk_id dl) (BleuPrecisionRecallMetric._replace_unk dl _input _target).
Proof.
  intros Ht Hin. unfold BleuPrecisionRecallMetric._replace_unk in Hin.
  apply in_map_iff in Hin. destruct Hin as [ele [He _]].
  destruct (Z.eqb ele (unk_id dl)) eqn:Heq; [congruence|].
  apply Z.eqb_neq in Heq. congruence.
Qed.

Lemma replace_unk_id (dl : LanguageProcessing) (_input : sentence) (_target : Z) :
  ~ In (unk_id dl) _input ->
  BleuPrecisionRecallMetric._replace_unk dl _input _target = _input.
Proof.
  intros Hin. unfold BleuPrecisionRecallMetric._replace_unk.
  rewrite <- (map_id _input) at 2. apply map_ext_in. intros ele He.
  destruct (Z.eqb ele (unk_id dl)) eqn:Heq; [|reflexivity].
  apply Z.eqb_eq in Heq. subst ele. now elim Hin.
Qed.

End ReplaceUnkFacts.

(** X10. [_replace_unk] keeps the length of the sentence; with a target
    that is not [unk_id] itself no [unk_id] is left; replacing twice is
    replacing once; and a sentence without [unk_id] is returned as it is.
    So [_score] gives a generated sentence and its replaced form the same
    score, and does not look at the sentence but through the replacement. *)
Theorem replace_unk_properties {H : Hasher} {N : Nltk}
    (self : BleuPrecisionRecallMetric.t) (_input reference : sentence)
    (_target : Z) :
  let dl := dataloader (BleuPrecisionRecallMetric.super self) in
  let output := BleuPrecisionRecallMetric._replace_unk dl _input _target in
  List.length output = List.length _input
  /\ (_target <> unk_id dl -> ~ In (unk_id dl) output)
  /\ BleuPrecisionRecallMetric._replace_unk dl output _target = output
  /\ (~ In (unk_id dl) _input -> output = _input)
  /\ BleuPrecisionRecallMetric._score self
       (BleuPrecisionRecallMetric._replace_unk dl _input (-1)) reference
     = BleuPrecisionRecallMetric._score self _input reference.
Proof.
  cbv zeta.
  split; [apply replace_unk_length|].
  split; [apply replace_unk_no_unk|].
  split; [apply replace_unk_idempotent|].
  split; [apply replace_unk_id|].
  unfold BleuPrecisionRecallMetric._score. cbv zeta.
  now rewrite replace_unk_idempotent.
Qed.

(** X11. [BleuPrecisionRecallMetric.__init__] checks none of its arguments:
    it raises for [ngram = 0] only, by the division [1 / ngram], and for
    every other [ngram] it builds the object, with as many weights as
    [ngram] says, which is no weight at all when [ngram] is negative. *)
Theorem bleu_init_outcome {H : Hasher} {N : Nltk} (dl : LanguageProcessing)
    (ngram gnpc : Z) (k1 k2 : string) :
  (ngram = 0 ->
   BleuPrecisionRecallMetric.__init__ dl ngram gnpc k1 k2 = Raise ZeroDivisionError)
  /\ (ngram <> 0 ->
      exists self,
        BleuPrecisionRecallMetric.__init__ dl ngram gnpc k1 k2 = Ok self
        /\ BleuPrecisionRecallMetric.ngram self = ngram
        /\ generated_num_per_context (BleuPrecisionRecallMetric.super self) = gnpc
        /\ List.length (BleuPrecisionRecallMetric.weights self) = Z.to_nat ngram
        /\ (ngram < 0 -> BleuPrecisionRecallMetric.weights self = [])).
Proof.
  unfold BleuPrecisionRecallMetric.__init__. cbv zeta. split.
  - intros ->. reflexivity.
  - intros Hn. apply Z.eqb_neq in Hn. rewrite Hn.
    eexists. split; [reflexivity|]. cbn.
    split; [reflexivity|]. split; [reflexivity|].
    split; [apply repeat_length|].
    intros Hneg. destruct ngram; try lia. reflexivity.
Qed.

(** ** [EmbSimilarityPrecisionRecallMetric] *)

Section EmbFacts.

Lemma collect_unknown (word2vec : word2vec_table) (words : list string) :
  Forall (fun word => known word2vec word = false) words ->
  EmbSimilarityPrecisionRecallMetric.collect word2vec words = [].
Proof.
  induction 1 as [|word words Hw _ IH]; [reflexivity|].
  cbn [EmbSimilarityPrecisionRecallMetric.collect]. unfold known in Hw.
  destruct (EmbSimilarityPrecisionRecallMetric.lookup word2vec word);
    [discriminate|exact IH].
Qed.

Lemma collect_filter_known (word2vec : word2vec_table) (words : list string) :
  EmbSimilarityPrecisionRecallMetric.collect word2vec (filter (known word2vec) words)
  = EmbSimilarityPrecisionRecallMetric.collect word2vec words.
Proof.
  induction words as [|word words IH]; [reflexivity|].
  cbn [filter EmbSimilarityPrecisionRecallMetric.collect]. unfold known at 1.
  destruct (EmbSimilarityPrecisionRecallMetric.lookup word2vec word) eqn:Hl.
  - cbn [EmbSimilarityPrecisionRecallMetric.collect]. now rewrite Hl, IH.
  - exact IH.
Qed.

Lemma embed_shape_ok_iff (word2vec : word2vec_table) :
  EmbSimilarityPrecisionRecallMetric.embed_shape_ok word2vec = true
  <-> exists d : nat,
        (0 < d)%nat /\ Forall (fun we => List.length (snd we) = d) word2vec.
Proof.
  unfold EmbSimilarityPrecisionRecallMetric.embed_shape_ok.
  destruct word2vec as [|[w emb] rest].
  - split; [intros _; exists 1%nat; split; [lia|constructor]|reflexivity].
  - rewrite andb_true_iff, negb_true_iff, Nat.eqb_neq, forallb_forall. split.
    + intros [Hd Hall]. exists (List.length emb). split; [lia|].
      constructor; [reflexivity|]. apply Forall_forall. intros we Hin.
      now apply Nat.eqb_eq, Hall.
    + intros [d [Hd Hall]]. inversion Hall as [|? ? Hemb Hrest]; subst.
      cbn [snd] in *. split; [lia|]. intros we Hin. apply Nat.eqb_eq.
      rewrite Forall_forall in Hrest. now apply Hrest.
Qed.

End EmbFacts.

(** X12. A sentence none of whose words is in the table scores exactly 0
    against every sentence, as generated sentence and as reference; with an
    empty table this is every sentence. *)
Theorem emb_score_without_known_word {H : Hasher}
    (self : EmbSimilarityPrecisionRecallMetric.t) (s other : sentence) :
  Forall (fun word => known (EmbSimilarityPrecisionRecallMetric.word2vec self) word
                      = false)
         (convert_ids_to_tokens
            (dataloader (EmbSimilarityPrecisionRecallMetric.super self)) s) ->
  EmbSimilarityPrecisionRecallMetric._score self s other = 0%float
  /\ EmbSimilarityPrecisionRecallMetric._score self other s = 0%float.
Proof.
  intros Hs. unfold EmbSimilarityPrecisionRecallMetric._score. cbv zeta.
  rewrite (@collect_unknown _ _ Hs). cbn [is_empty orb].
  split; [reflexivity|]. now rewrite orb_true_r.
Qed.

(** X12 on the embedding metric of the fixture: [been to] against
    [I have]. *)
Lemma emb_score_without_known_word_witness :
  Forall (fun word => known (EmbSimilarityPrecisionRecallMetric.word2vec Fixture.emb)
                        word = false)
         (convert_ids_to_tokens
            (dataloader (EmbSimilarityPrecisionRecallMetric.super Fixture.emb))
            [6; 7])
  /\ EmbSimilarityPrecisionRecallMetric._score Fixture.emb [6; 7] [4; 5] = 0%float
  /\ EmbSimilarityPrecisionRecallMetric._score Fixture.emb [4; 5] [6; 7] = 0%float.
Proof.
  assert (Hs : Forall (fun word =>
                         known (EmbSimilarityPrecisionRecallMetric.word2vec Fixture.emb)
                           word = false)
                 (convert_ids_to_tokens
                    (dataloader (EmbSimilarityPrecisionRecallMetric.super Fixture.emb))
                    [6; 7]))
    by (repeat constructor).
  split; [exact Hs|].
  exact (@emb_score_without_known_word Fixture.hasher Fixture.emb [6; 7] [4; 5] Hs).
Defined.

(** X13. The score depends on a sentence only through its words that are
    in the table, in their order: two generated sentences with the same
    known words, and two references with the same known words, get the same
    score. *)
Theorem emb_score_known_words_only {H : Hasher}
    (self : EmbSimilarityPrecisionRecallMetric.t)
    (gen gen' reference reference' : sentence) :
  let dl := dataloader (EmbSimilarityPrecisionRecallMetric.super self) in
  let known_words s :=
    filter (known (EmbSimilarityPrecisionRecallMetric.word2vec self))
           (convert_ids_to_tokens dl s) in
  known_words gen = known_words gen' ->
  known_words reference = known_words reference' ->
  EmbSimilarityPrecisionRecallMetric._score self gen reference
  = EmbSimilarityPrecisionRecallMetric._score self gen' reference'.
Proof.
  cbv zeta. intros Hg Hr.
  unfold EmbSimilarityPrecisionRecallMetric._score. cbv zeta.
  rewrite <- (collect_filter_known _ (convert_ids_to_tokens _ gen)),
          <- (collect_filter_known _ (convert_ids_to_tokens _ reference)),
          Hg, Hr, !collect_filter_known.
  reflexivity.
Qed.

(** X13 on the embedding metric of the fixture: [I been have] and [I have],
    against [to I] and [I]. *)
Lemma emb_score_known_words_only_witness :
  let dl := dataloader (EmbSimilarityPrecisionRecallMetric.super Fixture.emb) in
  let known_words s :=
    filter (known (EmbSimilarityPrecisionRecallMetric.word2vec Fixture.emb))
           (convert_ids_to_tokens dl s) in
  known_words [4; 6; 5] = known_words [4; 5]
  /\ known_words [7; 4] = known_words [4]
  /\ EmbSimilarityPrecisionRecallMetric._score Fixture.emb [4; 6; 5] [7; 4]
     = EmbSimilarityPrecisionRecallMetric._score Fixture.emb [4; 5] [4].
Proof.
  cbv zeta. split; [reflexivity|]. split; [reflexivity|].
  exact (@emb_score_known_words_only Fixture.hasher Fixture.emb
           [4; 6; 5] [4; 5] [7; 4] [4] eq_refl eq_refl).
Defined.

(** X14. Which arguments [EmbSimilarityPrecisionRecallMetric.__init__]
    accepts: the constructor returns exactly when all the embeddings of the
    table have one length, which is not zero (an empty table passes), and
    the mode is [avg] or [extrema]; the table is checked before the mode. *)
Theorem emb_init_accepts {H : Hasher} (dl : LanguageProcessing)
    (word2vec : word2vec_table) (mode : string) (gnpc : Z) (k1 k2 : string) :
  ((exists self,
       EmbSimilarityPrecisionRecallMetric.__init__ dl word2vec mode gnpc k1 k2
       = Ok self)
   <-> ((exists d : nat,
            (0 < d)%nat /\ Forall (fun we => List.length (snd we) = d) word2vec)
        /\ (mode = "avg" \/ mode = "extrema")))
  /\ (~ (exists d : nat,
           (0 < d)%nat /\ Forall (fun we => List.length (snd we) = d) word2vec) ->
      EmbSimilarityPrecisionRecallMetric.__init__ dl word2vec mode gnpc k1 k2
      = Raise (ValueError "word embeddings have inconsistent embedding size or are empty")).
Proof.
  unfold EmbSimilarityPrecisionRecallMetric.__init__. cbv zeta.
  rewrite <- embed_shape_ok_iff.
  destruct (EmbSimilarityPrecisionRecallMetric.embed_shape_ok word2vec);
    cbn [negb].
  - split; [|intros Hno; now elim Hno].
    destruct (String.eqb mode "avg") eqn:Ha; cbn [orb negb].
    + apply String.eqb_eq in Ha. split; [intros _; now split; [|left]|].
      intros _. eexists. reflexivity.
    + destruct (String.eqb mode "extrema") eqn:He; cbn [negb].
      * apply String.eqb_eq in He. split; [intros _; now split; [|right]|].
        intros _. eexists. reflexivity.
      * apply String.eqb_neq in Ha, He. split.
        -- intros [self Hself]. discriminate.
        -- intros [_ [Hm|Hm]]; congruence.
  - split; [|reflexivity]. split.
    + intros [self Hself]. discriminate.
    + intros [Hd _]. discriminate.
Qed.

(** ** The dataloader classes *)

Section DataloaderFacts.

Variable B : Type.
Variable LanguageProcessingBase_init : SingleTurnDialog.base_call -> outcome B.
Variable set_default_field : string -> string -> B -> outcome B.

Lemma build_returns (pretrained : option string) (call : SingleTurnDialog.base_call)
    (self : SingleTurnDialog.t B) :
  SingleTurnDialog.build LanguageProcessingBase_init set_default_field pretrained call
  = Ok self ->
  SingleTurnDialog._pretrained self = pretrained
  /\ exists b, LanguageProcessingBase_init call = Ok b
               /\ set_default_field "train" "post" b = Ok (SingleTurnDialog.base self).
Proof.
  unfold SingleTurnDialog.build. intros Hb.
  destruct (LanguageProcessingBase_init call) as [b|e]; [|discriminate].
  destruct (set_default_field "train" "post" b) as [b'|e] eqn:Hs; [|discriminate].
  injection Hb as <-. split; [reflexivity|]. exists b. now split.
Qed.

End DataloaderFacts.

(** X15. What a [SingleTurnDialog] that was constructed is made of: the
    constructor returns only for [pretrained=None], or for
    [pretrained='gpt2'] with a [PretrainedTokenizer]; the object comes from
    one call of the base constructor, with the file id, the two fields
    [post] and [resp] in this order, the tokenizer, [max_sent_length] and
    [convert_to_lower_letter] as given, followed by
    [set_default_field("train", "post")]; and the vocabulary thresholds
    reach the base constructor only when [pretrained] is [None]. *)
Theorem single_turn_dialog_constructed (B : Type)
    (LanguageProcessingBase_init : SingleTurnDialog.base_call -> outcome B)
    (set_default_field : string -> string -> B -> outcome B)
    (file_id : string) (tokenizer : SingleTurnDialog.tokenizer_arg)
    (max_sent_length : option Z) (convert_to_lower_letter : option bool)
    (min_valid_vocab_times min_invalid_vocab_times : option Z)
    (pretrained : option string) (self : SingleTurnDialog.t B) :
  SingleTurnDialog.__init__ LanguageProcessingBase_init set_default_field
    file_id tokenizer max_sent_length convert_to_lower_letter
    min_valid_vocab_times min_invalid_vocab_times pretrained = Ok self ->
  SingleTurnDialog._pretrained self = pretrained
  /\ (pretrained = None
      \/ pretrained = Some "gpt2"
         /\ exists name, tokenizer = SingleTurnDialog.PretrainedTokenizer name)
  /\ exists call b,
       LanguageProcessingBase_init call = Ok b
       /\ set_default_field "train" "post" b = Ok (SingleTurnDialog.base self)
       /\ SingleTurnDialog.bc_file_id call = file_id
       /\ map fst (SingleTurnDialog.bc_fields call) = ["post"; "resp"]
       /\ SingleTurnDialog.fp_tokenizer (SingleTurnDialog.bc_field_context call)
          = tokenizer
       /\ SingleTurnDialog.fp_max_sent_length (SingleTurnDialog.bc_field_context call)
          = max_sent_length
       /\ SingleTurnDialog.fp_convert_to_lower_letter
            (SingleTurnDialog.bc_field_context call)
          = convert_to_lower_letter
       /\ SingleTurnDialog.bc_vocab_context call
          = match pretrained with
            | None => Some (SingleTurnDialog.mk_vocab_parameters
                              min_valid_vocab_times min_invalid_vocab_times)
            | Some _ => None
            end.
Proof.
  unfold SingleTurnDialog.__init__. intros Hinit.
  destruct pretrained as [name|].
  - destruct (String.eqb name "gpt2") eqn:Hname; [|discriminate].
    apply String.eqb_eq in Hname. subst name.
    destruct tokenizer as [|n|n|]; try discriminate.
    apply build_returns in Hinit. destruct Hinit as [Hp [b [Hb Hs]]].
    split; [exact Hp|]. split; [right; split; [reflexivity|now exists n]|].
    eexists. exists b. split; [exact Hb|]. split; [exact Hs|].
    cbn. repeat split.
  - apply build_returns in Hinit. destruct Hinit as [Hp [b [Hb Hs]]].
    split; [exact Hp|]. split; [now left|].
    eexists. exists b. split; [exact Hb|]. split; [exact Hs|].
    cbn. repeat split.
Qed.

(** X15 with a base constructor that keeps its call, for a gpt2
    dataloader. *)
Lemma single_turn_dialog_constructed_witness :
  let init := fun call : SingleTurnDialog.base_call => Ok call in
  let set_default := fun (_ _ : string) (b : SingleTurnDialog.base_call) => Ok b in
  let tokenizer := SingleTurnDialog.PretrainedTokenizer "gpt2" in
  let call := SingleTurnDialog.mk_base_call "resources://OpenSubtitles"
                [("post", "sentence_gpt2"); ("resp", "sentence_gpt2")]
                (SingleTurnDialog.mk_field_parameters tokenizer (Some tokenizer)
                   (Some 50) (Some false))
                None in
  SingleTurnDialog.__init__ init set_default "resources://OpenSubtitles" tokenizer
    (Some 50) (Some false) (Some 10) (Some 0) (Some "gpt2")
  = Ok (SingleTurnDialog.mk call (Some "gpt2"))
  /\ SingleTurnDialog._pretrained (SingleTurnDialog.mk call (Some "gpt2"))
     = Some "gpt2"
  /\ SingleTurnDialog.bc_vocab_context call = None.
Proof.
  cbv zeta.
  pose proof (@single_turn_dialog_constructed SingleTurnDialog.base_call
                (fun call => Ok call) (fun _ _ b => Ok b)
                "resources://OpenSubtitles"
                (SingleTurnDialog.PretrainedTokenizer "gpt2")
                (Some 50) (Some false) (Some 10) (Some 0) (Some "gpt2")
                _ eq_refl) as [Hp _].
  split; [reflexivity|]. split; [exact Hp|]. reflexivity.
Defined.

(** X16. The arguments the dataloaders refuse, before the base constructor
    is reached: a [pretrained] name other than [gpt2] raises a [ValueError]
    that names it; [pretrained='gpt2'] without a [PretrainedTokenizer] raises
    a [ValueError] too, which is what [OpenSubtitles(pretrained='gpt2')]
    does when the tokenizer is left to its default, the name [nltk]. *)
Theorem open_subtitles_refused (B : Type)
    (LanguageProcessingBase_init : SingleTurnDialog.base_call -> outcome B)
    (set_default_field : string -> string -> B -> outcome B)
    (file_id : option string) (tokenizer : option SingleTurnDialog.tokenizer_arg)
    (max_sent_length : option (option Z))
    (convert_to_lower_letter : option (option bool))
    (min_valid_vocab_times min_invalid_vocab_times : option (option Z)) :
  (forall name : string,
      name <> "gpt2" ->
      SingleTurnDialog.OpenSubtitles_init LanguageProcessingBase_init
        set_default_field file_id tokenizer max_sent_length convert_to_lower_letter
        min_valid_vocab_times min_invalid_vocab_times (Some (Some name))
      = Raise (ValueError (String.append "No pretrained name " name)))
  /\ ((forall name, tokenizer <> Some (SingleTurnDialog.PretrainedTokenizer name)) ->
      SingleTurnDialog.OpenSubtitles_init LanguageProcessingBase_init
        set_default_field file_id tokenizer max_sent_length convert_to_lower_letter
        min_valid_vocab_times min_invalid_vocab_times (Some (Some "gpt2"))
      = Raise (ValueError
                 "tokenize should be loaded first if you want a gpt2 dataloader")).
Proof.
  unfold SingleTurnDialog.OpenSubtitles_init, SingleTurnDialog.__init__. split.
  - intros name Hname. cbn [SingleTurnDialog.default_to].
    apply String.eqb_neq in Hname. now rewrite Hname.
  - intros Htok. cbn.
    destruct tokenizer as [[|n|n|]|]; try reflexivity.
    now elim (Htok n).
Qed.
